(** * Cache-augmented RAG pipelines over Azure Cosmos DB

    A shallow embedding of the two chatbot notebooks of the repository:

    - [AzureCosmosDBforNoSQL/cosmos-nosql-demos.ipynb]: [generate_embeddings],
      [vector_search], [get_chat_history], [generate_completion],
      [cache_response], [get_cache] and the pipeline [chat_completion];
    - [cosmos-demos.ipynb] (Mongo vCore): [vector_search],
      [get_conversation_history], [generate_completion], [cache_generation]
      and the interactive question-and-answer loop.

    The notebooks talk to three remote services (the embedding model, the
    chat model and the database).  The models are oracles indexed by the
    number of remote calls made so far; the database is a list of stored
    documents on which the query text of each function is evaluated.

    What the model takes from the services' documentation:
    - Cosmos DB sorts [ORDER BY VectorDistance(..)] from the most similar
      document to the least similar one, and [_ts] is the time of the last
      write in seconds;
    - a pymongo cursor with [limit(0)] has no limit, and an [ObjectId]
      starts with the creation time in seconds;
    - a similarity score is a finite float, kept here as the rational it
      denotes (comparisons agree).

    Left out: the [print] calls of the NoSQL notebook, which only display
    the result. *)

From Stdlib Require Import String Ascii Bool Arith ZArith QArith Lia List.
From Stdlib Require Import Sorted Permutation DecimalString DecimalZ.
Import ListNotations.

Local Open Scope string_scope.
Local Open Scope list_scope.

(** ** Python values *)

(** The token counters are the only dictionary entries whose dynamic type
    matters here: the provider reports [int]s and the notebooks pass them
    through [str]. *)
Inductive pyval : Type :=
| PyInt (n : Z)
| PyStr (s : string).

(** Python's [str] on an [int]: decimal digits, a leading minus sign for
    negative numbers, the digit zero for zero. *)
Definition str (n : Z) : string := NilZero.string_of_int (Z.to_int n).

(** Python's [int] on a string of that shape. *)
Definition int (s : string) : option Z :=
  option_map Z.of_int (NilZero.int_of_string s).

Definition is_nonneg_int (v : pyval) : bool :=
  match v with
  | PyInt n => (0 <=? n)%Z
  | PyStr _ => false
  end.

(** ASCII case folding, enough to decide [s.lower() != "end"]: no character
    outside [A-Z] lowers to one of [e], [n], [d]. *)
Definition lower_ascii (c : ascii) : ascii :=
  let n := nat_of_ascii c in
  if andb (65 <=? n)%nat (n <=? 90)%nat then ascii_of_nat (n + 32) else c.

Fixpoint lower (s : string) : string :=
  match s with
  | EmptyString => EmptyString
  | String c s' => String (lower_ascii c) (lower s')
  end.

(** ** Exceptions *)

Inductive exn : Type :=
| EmbeddingError     (* the embedding call raised *)
| CompletionError    (* the chat completion call raised *)
| StoreQueryError    (* a database read raised *)
| CacheWriteError    (* the insert into the cache raised *)
| IndexError         (* [xs[0]] on an empty list *)
| EOFError.          (* [input()] at the end of the input *)

Inductive result (A : Type) : Type :=
| Ok (a : A)
| Raise (e : exn).
Arguments Ok {A} a.
Arguments Raise {A} e.

(** ** Sorting a query answer, largest key first

    Rows with equal keys keep the order in which they are stored. *)
Section OrderBy.
Context {A K : Type}.
Variable key : A -> K.
Variable leb : K -> K -> bool.

Fixpoint insert_desc (x : A) (l : list A) : list A :=
  match l with
  | [] => [x]
  | y :: l' =>
      if leb (key y) (key x)
      then x :: y :: l'
      else y :: insert_desc x l'
  end.

Definition order_by_desc (l : list A) : list A :=
  fold_right insert_desc [] l.

(** [a] may stand before [b]. *)
Definition desc (a b : A) : Prop := leb (key b) (key a) = true.
End OrderBy.

(** ** Exceptions and state: the notebook monad

    A cell runs against a world (the database and the log of remote calls).
    An exception stops the computation and keeps the world reached so far,
    as an uncaught Python exception does. *)
Section Monad.
Context {W : Type}.

Definition M (A : Type) : Type := W -> result A * W.

Definition ret {A} (a : A) : M A := fun w => (Ok a, w).

Definition raise {A} (e : exn) : M A := fun w => (Raise e, w).

Definition bind {A B} (c : M A) (k : A -> M B) : M B :=
  fun w =>
    match c w with
    | (Ok a, w') => k a w'
    | (Raise e, w') => (Raise e, w')
    end.

Definition get : M W := fun w => (Ok w, w).

Definition modify (f : W -> W) : M unit := fun w => (Ok tt, f w).

Definition lift {A} (r : result A) : M A :=
  match r with
  | Ok a => ret a
  | Raise e => raise e
  end.

(** [xs[0]] *)
Definition first {A} (xs : list A) : M A :=
  match xs with
  | [] => raise IndexError
  | x :: _ => ret x
  end.
End Monad.
Arguments M : clear implicits.

Declare Scope nb_scope.
Delimit Scope nb_scope with nb.
Notation "x <- c1 ;; c2" := (bind c1 (fun x => c2))
  (at level 61, c1 at next level, right associativity) : nb_scope.
Notation "c1 ;; c2" := (bind c1 (fun _ => c2))
  (at level 61, right associativity) : nb_scope.

(** ** Scores

    A similarity score is a finite float; the model keeps its value as a
    rational.  [Qltb a b] is the test [a < b]. *)
Definition Qltb (a b : Q) : bool := negb (Qle_bool b a).

Definition embedding : Type := list Q.

(** ** The OpenAI client: messages and responses *)
Module OpenAI.
Record message : Type := { role : string; content : string }.

Record choice : Type := { message_of : message }.

Record usage_info : Type :=
  { completion_tokens : Z; prompt_tokens : Z; total_tokens : Z }.

(** [response.model_dump()] of a chat completion. *)
Record response : Type :=
  { choices : list choice; usage : usage_info; model : string }.
End OpenAI.

(** * The NoSQL notebook: [AzureCosmosDBforNoSQL/cosmos-nosql-demos.ipynb] *)
Module NoSQL.
Local Open Scope nb_scope.

(** ** Documents *)

(** A document of the movies container (the fields the queries read). *)
Record movie : Type := { overview : string; movie_vector : embedding }.

(** The dictionary [chat_document] built by [cache_response]. *)
Record chat_document : Type :=
  { id : string;
    prompt : string;
    completion : string;
    completionTokens : pyval;
    promptTokens : pyval;
    totalTokens : pyval;
    model : string;
    vector : embedding }.

(** A stored cache item: the body and the system property [_ts], the time
    in seconds at which the service wrote it. *)
Record cache_item : Type := { body : chat_document; _ts : Z }.

(** A row of [vector_search]'s query, and the dictionary the function makes
    of it: [result.pop('SimilarityScore')] leaves the projected [overview]
    as the document. *)
Record query_row : Type := { row_overview : string; row_score : Q }.
Record document : Type := { doc_overview : string }.
Record formatted_result : Type :=
  { SimilarityScore : Q; document_of : document }.

(** ** The world *)

Inductive event : Type :=
| EmbeddingsCreate (input : string)
| ChatCompletionsCreate (messages : list OpenAI.message)
| QueryItems
| CreateItem (doc : chat_document).

(** The two containers in storage order, and the remote calls made so far,
    the latest first. *)
Record world : Type :=
  { movies_db : list movie;
    cache_db : list cache_item;
    trace : list event }.

(** A container client: which list of the world it reads and writes. *)
Record container (A : Type) : Type :=
  { items : world -> list A;
    set_items : list A -> world -> world }.
Arguments items {A} c w.
Arguments set_items {A} c l w.

Definition movies_container : container movie :=
  {| items := movies_db;
     set_items := fun l w =>
       {| movies_db := l; cache_db := cache_db w; trace := trace w |} |}.

Definition cache_container : container cache_item :=
  {| items := cache_db;
     set_items := fun l w =>
       {| movies_db := movies_db w; cache_db := l; trace := trace w |} |}.

(** The number of remote calls made so far indexes the oracles. *)
Definition now : M world nat := fun w => (Ok (List.length (trace w)), w).

Definition add_event (ev : event) (w : world) : world :=
  {| movies_db := movies_db w; cache_db := cache_db w;
     trace := ev :: trace w |}.

Definition log (ev : event) : M world unit := modify (add_event ev).

(** How often the Completion Provider was invoked. *)
Fixpoint completion_calls (tr : list event) : nat :=
  match tr with
  | [] => 0
  | ChatCompletionsCreate _ :: tr' => S (completion_calls tr')
  | _ :: tr' => completion_calls tr'
  end.

(** The remote services behind the notebook's global clients. *)
Record services : Type :=
  { (** [openai_client.embeddings.create]: the [data] list of the response,
        or the exception the call raises. *)
    embeddings_create : nat -> string -> result (list embedding);
    (** [openai_client.chat.completions.create]. *)
    chat_completions_create :
      nat -> list OpenAI.message -> result OpenAI.response;
    (** The similarity the service computes for [VectorDistance]; the
        containers use cosine similarity, so a larger score is closer. *)
    VectorDistance : embedding -> embedding -> Q;
    (** Whether a read, or a write, issued as remote call number [t]
        succeeds. *)
    cosmos_query_ok : nat -> bool;
    cosmos_create_ok : nat -> bool;
    (** The server clock behind [_ts], [uuid.uuid4] and [json.dumps]. *)
    clock : nat -> Z;
    uuid4 : nat -> string;
    json_dumps : document -> string }.

(** The literals of the notebook: the default arguments of [vector_search]
    and [get_cache], and the threshold [chat_completion] probes the cache
    with. *)
Definition vector_search_similarity_score : Q := 0.02.
Definition vector_search_num_results : nat := 5.
Definition get_cache_similarity_score : Q := 0.0.
Definition get_cache_num_results : nat := 5.
Definition cache_hit_similarity_score : Q := 0.99.

Definition system_prompt : string := "
    You are an intelligent assistant for movies. You are designed to provide helpful answers to user questions about movies in your database.
    You are friendly, helpful, and informative and can be lighthearted. Be concise in your responses, but still friendly.
        - Only answer questions related to the information provided below. Provide at least 3 candidate movie answers in a list.
        - Write two lines of whitespace between each answer in the list.
    ".

Section Notebook.
Variable svc : services.

(** *** [generate_embeddings] *)
Definition generate_embeddings (text : string) : M world embedding :=
  t <- now ;;
  log (EmbeddingsCreate text) ;;
  data <- lift (embeddings_create svc t text) ;;
  first data.

(** *** Reading a container: [list(container.query_items(...))] *)
Definition query_items {A B} (c : container A) (query : list A -> list B)
  : M world (list B) :=
  t <- now ;;
  log QueryItems ;;
  if cosmos_query_ok svc t
  then w <- get ;; ret (query (items c w))
  else raise StoreQueryError.

(** *** [vector_search] *)

(** [SELECT TOP @num_results c.overview, VectorDistance(..) as
    SimilarityScore FROM c WHERE VectorDistance(..) > @similarity_score
    ORDER BY VectorDistance(..)]: ordering by [VectorDistance] lists the
    most similar document first. *)
Definition vector_search_query (vectors : embedding) (similarity_score : Q)
    (num_results : nat) (c : list movie) : list query_row :=
  map (fun d => {| row_overview := overview d;
                   row_score := VectorDistance svc (movie_vector d) vectors |})
    (firstn num_results
       (order_by_desc (fun d => VectorDistance svc (movie_vector d) vectors)
          Qle_bool
          (filter (fun d => Qltb similarity_score
                              (VectorDistance svc (movie_vector d) vectors))
             c))).

Definition format_result (result : query_row) : formatted_result :=
  let score := row_score result in
  {| SimilarityScore := score;
     document_of := {| doc_overview := row_overview result |} |}.

Definition vector_search (container : container movie)
    (vectors : embedding) (similarity_score : Q) (num_results : nat)
  : M world (list formatted_result) :=
  results <- query_items container
               (vector_search_query vectors similarity_score num_results) ;;
  let formatted_results :=
    fold_left (fun acc result => acc ++ [format_result result]) results []
  in
  ret formatted_results.

(** *** [get_chat_history]:
    [SELECT TOP @completions * FROM c ORDER BY c._ts DESC] *)
Definition get_chat_history_query (completions : nat)
    (c : list cache_item) : list cache_item :=
  firstn completions (order_by_desc _ts Z.leb c).

Definition get_chat_history (container : container cache_item)
    (completions : nat) : M world (list cache_item) :=
  query_items container (get_chat_history_query completions).

(** *** [generate_completion] *)

(** The payload [messages] as the function appends to it. *)
Definition generate_completion_messages (user_prompt : string)
    (vector_search_results : list formatted_result)
    (chat_history : list cache_item) : list OpenAI.message :=
  let messages :=
    [{| OpenAI.role := "system"; OpenAI.content := system_prompt |}] in
  let messages :=
    fold_left (fun messages chat =>
                 messages ++
                 [{| OpenAI.role := "user";
                     OpenAI.content :=
                       prompt (body chat) ++ " " ++ completion (body chat) |}])
      chat_history messages in
  let messages :=
    messages ++ [{| OpenAI.role := "user"; OpenAI.content := user_prompt |}] in
  fold_left (fun messages result =>
               messages ++
               [{| OpenAI.role := "system";
                   OpenAI.content := json_dumps svc (document_of result) |}])
    vector_search_results messages.

Definition generate_completion (user_prompt : string)
    (vector_search_results : list formatted_result)
    (chat_history : list cache_item) : M world OpenAI.response :=
  let messages :=
    generate_completion_messages user_prompt vector_search_results
      chat_history in
  t <- now ;;
  log (ChatCompletionsCreate messages) ;;
  lift (chat_completions_create svc t messages).

(** [response['choices'][0]['message']['content']] *)
Definition response_content (response : OpenAI.response) : M world string :=
  c <- first (OpenAI.choices response) ;;
  ret (OpenAI.content (OpenAI.message_of c)).

(** *** [cache_response] *)
Definition create_item (container : container cache_item)
    (doc : chat_document) : M world unit :=
  t <- now ;;
  log (CreateItem doc) ;;
  if cosmos_create_ok svc t
  then modify (fun w =>
         set_items container
           (items container w ++ [{| body := doc; _ts := clock svc t |}]) w)
  else raise CacheWriteError.

Definition cache_response (container : container cache_item)
    (user_prompt : string) (prompt_vectors : embedding)
    (response : OpenAI.response) : M world unit :=
  t <- now ;;
  text <- response_content response ;;
  let chat_document :=
    {| id := uuid4 svc t;
       prompt := user_prompt;
       completion := text;
       completionTokens :=
         PyStr (str (OpenAI.completion_tokens (OpenAI.usage response)));
       promptTokens :=
         PyStr (str (OpenAI.prompt_tokens (OpenAI.usage response)));
       totalTokens :=
         PyStr (str (OpenAI.total_tokens (OpenAI.usage response)));
       model := OpenAI.model response;
       vector := prompt_vectors |} in
  create_item container chat_document.

(** *** [get_cache]:
    [SELECT TOP @num_results * FROM c
     WHERE VectorDistance(c.vector, @embedding) > @similarity_score
     ORDER BY VectorDistance(c.vector, @embedding)] *)
Definition score (vectors : embedding) (c : cache_item) : Q :=
  VectorDistance svc (vector (body c)) vectors.

Definition get_cache_query (vectors : embedding) (similarity_score : Q)
    (num_results : nat) (c : list cache_item) : list cache_item :=
  firstn num_results
    (order_by_desc (score vectors) Qle_bool
       (filter (fun d => Qltb similarity_score (score vectors d)) c)).

Definition get_cache (container : container cache_item)
    (vectors : embedding) (similarity_score : Q) (num_results : nat)
  : M world (list cache_item) :=
  query_items container
    (get_cache_query vectors similarity_score num_results).

(** *** [chat_completion], the pipeline (the notebook's second and final
    definition, which returns the text and the cached flag) *)
Definition chat_completion (cache_container : container cache_item)
    (movies_container : container movie) (user_input : string)
  : M world (string * bool) :=
  user_embeddings <- generate_embeddings user_input ;;
  cache_results <- get_cache cache_container user_embeddings
                     cache_hit_similarity_score 1 ;;
  match cache_results with
  | hit :: _ => ret (completion (body hit), true)
  | [] =>
      search_results <- vector_search movies_container user_embeddings
                          vector_search_similarity_score
                          vector_search_num_results ;;
      chat_history <- get_chat_history cache_container 3 ;;
      completions_results <- generate_completion user_input search_results
                               chat_history ;;
      cache_response cache_container user_input user_embeddings
        completions_results ;;
      text <- response_content completions_results ;;
      ret (text, false)
  end.
End Notebook.
End NoSQL.

(** * The Mongo vCore notebook: [cosmos-demos.ipynb] *)
Module Mongo.
Local Open Scope nb_scope.

(** ** Documents *)

(** The [_id] pymongo gives a document on insert: the creation time in
    seconds, then a per-process random value, then a counter.  Object ids
    compare field by field in that order. *)
Record ObjectId : Type :=
  { oid_time : Z; oid_random : Z; oid_counter : Z }.

Definition oid_leb (a b : ObjectId) : bool :=
  if (oid_time a <? oid_time b)%Z then true
  else if (oid_time b <? oid_time a)%Z then false
  else if (oid_random a <? oid_random b)%Z then true
  else if (oid_random b <? oid_random a)%Z then false
  else (oid_counter a <=? oid_counter b)%Z.

(** A document of the data collection (the fields the notebook reads). *)
Record item : Type := { content : string; contentVector : embedding }.

(** The dictionary [chat[0]] built by [cache_generation]. *)
Record chat : Type :=
  { prompt : string;
    completion : string;
    completionTokens : pyval;
    promptTokens : pyval;
    totalTokens : pyval;
    model : string;
    vectorContent : embedding }.

Record cache_doc : Type := { _id : ObjectId; doc : chat }.

(** A row of the aggregation: [similarityScore] and [document]. *)
Record search_hit : Type := { similarityScore : Q; document : item }.

(** A row of the history query, projected on [prompt] and [completion]
    (the [_id] comes along). *)
Record history_row : Type :=
  { h_id : ObjectId; h_prompt : string; h_completion : string }.

(** ** The world *)

Inductive event : Type :=
| EmbeddingsCreate (input : string)
| ChatCompletionsCreate (messages : list OpenAI.message)
| CollectionAggregate          (* [collection.aggregate] *)
| CacheFind                    (* [cache.find] *)
| CacheInsertOne (d : chat).   (* [cache.insert_one] *)

Record world : Type :=
  { collection : list item;
    cache : list cache_doc;
    trace : list event;
    stdout : list string }.

Definition now : M world nat := fun w => (Ok (List.length (trace w)), w).

Definition add_event (ev : event) (w : world) : world :=
  {| collection := collection w; cache := cache w;
     trace := ev :: trace w; stdout := stdout w |}.

Definition log (ev : event) : M world unit := modify (add_event ev).

Definition add_line (s : string) (w : world) : world :=
  {| collection := collection w; cache := cache w;
     trace := trace w; stdout := stdout w ++ [s] |}.

Definition print (s : string) : M world unit := modify (add_line s).

Fixpoint completion_calls (tr : list event) : nat :=
  match tr with
  | [] => 0
  | ChatCompletionsCreate _ :: tr' => S (completion_calls tr')
  | _ :: tr' => completion_calls tr'
  end.

Record services : Type :=
  { embeddings_create : nat -> string -> result (list embedding);
    chat_completions_create :
      nat -> list OpenAI.message -> result OpenAI.response;
    (** The [searchScore] of the vector index (cosine similarity). *)
    searchScore : embedding -> embedding -> Q;
    mongo_read_ok : nat -> bool;
    mongo_write_ok : nat -> bool;
    new_object_id : nat -> ObjectId }.

Definition dquote : string := String "034"%char EmptyString.

Definition system_prompt : string :=
  "
    You are an intelligent assistant for Microsoft Azure services.
    You are designed to provide helpful answers to user questions about Azure services given the information about to be provided.
        - Only answer questions related to the information provided below, provide 3 clear suggestions in a list format.
        - Write two lines of whitespace between each answer in the list.
        - Only provide answers that have products that are part of Microsoft Azure and based on the content items.
        - If you're unsure of an answer, you can say " ++ dquote ++ dquote
  ++ "I don't know" ++ dquote ++ dquote ++ " or " ++ dquote ++ dquote
  ++ "I'm not sure" ++ dquote ++ dquote
  ++ " and recommend users search themselves." ++ dquote ++ "
    ".

Definition banner : string :=
  "*** Please ask your model questions about Azure services. Type 'end' to end the session.
".

(** [cursor.limit(n)]: a limit of 0 is no limit. *)
Definition limit {A} (n : nat) (l : list A) : list A :=
  match n with
  | O => l
  | S _ => firstn n l
  end.

Section Notebook.
Variable svc : services.

(** *** [generate_embeddings] *)
Definition generate_embeddings (text : string) : M world embedding :=
  t <- now ;;
  log (EmbeddingsCreate text) ;;
  data <- lift (embeddings_create svc t text) ;;
  first data.

(** *** [vector_search]: the [cosmosSearch] stage returns the [k] nearest
    documents, nearest first; the projection adds the score. *)
Definition vector_search_pipeline (query_embedding : embedding)
    (num_results : nat) (c : list item) : list search_hit :=
  map (fun d => {| similarityScore :=
                     searchScore svc (contentVector d) query_embedding;
                   document := d |})
    (firstn num_results
       (order_by_desc (fun d => searchScore svc (contentVector d) query_embedding)
          Qle_bool c)).

Definition vector_search (query : embedding) (num_results : nat)
  : M world (list search_hit) :=
  let query_embedding := query in
  t <- now ;;
  log CollectionAggregate ;;
  if mongo_read_ok svc t
  then w <- get ;;
       ret (vector_search_pipeline query_embedding num_results (collection w))
  else raise StoreQueryError.

(** *** [get_conversation_history]:
    [cache.find({}, {prompt: 1, completion: 1}).sort([(_id, -1)])
     .limit(completions)]; the cursor is read where the caller iterates,
    right after the call. *)
Definition get_conversation_history_query (completions : nat)
    (c : list cache_doc) : list history_row :=
  map (fun d => {| h_id := _id d;
                   h_prompt := prompt (doc d);
                   h_completion := completion (doc d) |})
    (limit completions (order_by_desc _id oid_leb c)).

Definition get_conversation_history (completions : nat)
  : M world (list history_row) :=
  t <- now ;;
  log CacheFind ;;
  if mongo_read_ok svc t
  then w <- get ;; ret (get_conversation_history_query completions (cache w))
  else raise StoreQueryError.

(** *** [generate_completion] *)
Definition generate_completion_messages (user_prompt : string)
    (vector_search_results : list search_hit)
    (conversation_history : list history_row) : list OpenAI.message :=
  let messages :=
    [{| OpenAI.role := "system"; OpenAI.content := system_prompt |}] in
  let messages :=
    fold_left (fun messages item =>
                 messages ++
                 [{| OpenAI.role := "system";
                     OpenAI.content :=
                       h_prompt item ++ " " ++ h_completion item |}])
      conversation_history messages in
  let messages :=
    messages ++ [{| OpenAI.role := "user"; OpenAI.content := user_prompt |}] in
  fold_left (fun messages item =>
               messages ++
               [{| OpenAI.role := "system";
                   OpenAI.content := content (document item) |}])
    vector_search_results messages.

Definition generate_completion (vector_search_results : list search_hit)
    (user_prompt : string) : M world OpenAI.response :=
  conversation_history <- get_conversation_history 3 ;;
  let messages :=
    generate_completion_messages user_prompt vector_search_results
      conversation_history in
  t <- now ;;
  log (ChatCompletionsCreate messages) ;;
  lift (chat_completions_create svc t messages).

(** [response['choices'][0]['message']['content']] *)
Definition response_content (response : OpenAI.response) : M world string :=
  c <- first (OpenAI.choices response) ;;
  ret (OpenAI.content (OpenAI.message_of c)).

(** *** [cache_generation] *)
Definition insert_one (d : chat) : M world unit :=
  t <- now ;;
  log (CacheInsertOne d) ;;
  if mongo_write_ok svc t
  then modify (fun w =>
         {| collection := collection w;
            cache := cache w ++ [{| _id := new_object_id svc t; doc := d |}];
            trace := trace w; stdout := stdout w |})
  else raise CacheWriteError.

Definition cache_generation (user_prompt : string)
    (user_embeddings : embedding) (response : OpenAI.response)
  : M world unit :=
  text <- response_content response ;;
  let chat :=
    [{| prompt := user_prompt;
        completion := text;
        completionTokens :=
          PyStr (str (OpenAI.completion_tokens (OpenAI.usage response)));
        promptTokens :=
          PyStr (str (OpenAI.prompt_tokens (OpenAI.usage response)));
        totalTokens :=
          PyStr (str (OpenAI.total_tokens (OpenAI.usage response)));
        model := OpenAI.model response;
        vectorContent := user_embeddings |}] in
  d <- first chat ;;
  insert_one d.

(** *** The interactive loop *)

(** The body of the [while] loop up to the next [input()]. *)
Definition loop_body (user_input : string) : M world unit :=
  user_embeddings <- generate_embeddings user_input ;;
  search_results <- vector_search user_embeddings 3 ;;
  completions_results <- generate_completion search_results user_input ;;
  print (String "010"%char user_input) ;;
  text <- response_content completions_results ;;
  print text ;;
  cache_generation user_input user_embeddings completions_results.

(** [while user_input.lower() != "end"], reading the next prompts from
    [stdin]. *)
Fixpoint while_loop (user_input : string) (stdin : list string)
  : M world unit :=
  if String.eqb (lower user_input) "end" then ret tt
  else
    loop_body user_input ;;
    match stdin with
    | [] => raise EOFError
    | next_input :: stdin' => while_loop next_input stdin'
    end.

Definition qa_session (stdin : list string) : M world unit :=
  print banner ;;
  match stdin with
  | [] => raise EOFError
  | user_input :: stdin' => while_loop user_input stdin'
  end.
End Notebook.
End Mongo.

(** * Sample services and data

    A small instance of each notebook's environment: an embedding that
    depends on the length of the text only, a similarity
    [1 / (1 + d * d)] on the first coordinates, a chat model that answers
    every call, and a database that is up. *)
Module Demo.

Definition embed (text : string) : embedding :=
  [inject_Z (Z.of_nat (String.length text))].

Definition similarity (a b : embedding) : Q :=
  let d := (hd 0 a - hd 0 b)%Q in
  (1 / (1 + d * d))%Q.

Definition embeddings (t : nat) (text : string) : result (list embedding) :=
  if String.eqb text "" then Raise EmbeddingError else Ok [embed text].

Definition answer (t : nat) (messages : list OpenAI.message)
  : result OpenAI.response :=
  Ok {| OpenAI.choices :=
          [{| OpenAI.message_of :=
                {| OpenAI.role := "assistant";
                   OpenAI.content := "answer " ++ str (Z.of_nat t) |} |}];
        OpenAI.usage :=
          {| OpenAI.completion_tokens := 12;
             OpenAI.prompt_tokens := 40;
             OpenAI.total_tokens := 52 |};
        OpenAI.model := "gpt-35-turbo" |}.

(** A response of the chat model, as [model_dump] gives it. *)
Definition short_answer : OpenAI.response :=
  {| OpenAI.choices :=
       [{| OpenAI.message_of :=
             {| OpenAI.role := "assistant";
                OpenAI.content := "Interstellar." |} |}];
     OpenAI.usage :=
       {| OpenAI.completion_tokens := 3;
          OpenAI.prompt_tokens := 120;
          OpenAI.total_tokens := 123 |};
     OpenAI.model := "gpt-35-turbo" |}.

Definition nosql : NoSQL.services :=
  {| NoSQL.embeddings_create := embeddings;
     NoSQL.chat_completions_create := answer;
     NoSQL.VectorDistance := similarity;
     NoSQL.cosmos_query_ok := fun _ => true;
     NoSQL.cosmos_create_ok := fun _ => true;
     NoSQL.clock := fun t => (1700000000 + Z.of_nat t)%Z;
     NoSQL.uuid4 := fun t => ("uuid-" ++ str (Z.of_nat t))%string;
     NoSQL.json_dumps := NoSQL.doc_overview |}.

(** The same services with the cache unwritable. *)
Definition nosql_read_only : NoSQL.services :=
  {| NoSQL.embeddings_create := embeddings;
     NoSQL.chat_completions_create := answer;
     NoSQL.VectorDistance := similarity;
     NoSQL.cosmos_query_ok := fun _ => true;
     NoSQL.cosmos_create_ok := fun _ => false;
     NoSQL.clock := fun t => (1700000000 + Z.of_nat t)%Z;
     NoSQL.uuid4 := fun t => ("uuid-" ++ str (Z.of_nat t))%string;
     NoSQL.json_dumps := NoSQL.doc_overview |}.

Definition movies : list NoSQL.movie :=
  [ {| NoSQL.overview := "A farm boy joins the rebellion.";
       NoSQL.movie_vector := [22%Q] |};
    {| NoSQL.overview := "A thief plants an idea in a dream.";
       NoSQL.movie_vector := [27%Q] |};
    {| NoSQL.overview := "A crew crosses a wormhole.";
       NoSQL.movie_vector := [26%Q] |} ].

Definition question : string := "What is a good space movie?".

(** The movies are loaded and nothing was asked yet. *)
Definition cold : NoSQL.world :=
  {| NoSQL.movies_db := movies; NoSQL.cache_db := []; NoSQL.trace := [] |}.

(** The world after [question] was answered once. *)
Definition warm : NoSQL.world :=
  snd (NoSQL.chat_completion nosql NoSQL.cache_container
         NoSQL.movies_container question cold).

(** The item that answer left in the cache. *)
Definition asked : NoSQL.cache_item :=
  {| NoSQL.body :=
       {| NoSQL.id := "uuid-5";
          NoSQL.prompt := question;
          NoSQL.completion := "answer 4";
          NoSQL.completionTokens := PyStr "12";
          NoSQL.promptTokens := PyStr "40";
          NoSQL.totalTokens := PyStr "52";
          NoSQL.model := "gpt-35-turbo";
          NoSQL.vector := embed question |};
     NoSQL._ts := 1700000005 |}.

Definition mongo : Mongo.services :=
  {| Mongo.embeddings_create := embeddings;
     Mongo.chat_completions_create := answer;
     Mongo.searchScore := similarity;
     Mongo.mongo_read_ok := fun _ => true;
     Mongo.mongo_write_ok := fun _ => true;
     Mongo.new_object_id := fun t =>
       {| Mongo.oid_time := (1700000000 + Z.of_nat t)%Z;
          Mongo.oid_random := 7;
          Mongo.oid_counter := Z.of_nat t |} |}.

Definition azure_docs : list Mongo.item :=
  [ {| Mongo.content := "Azure Machine Learning trains and deploys models.";
       Mongo.contentVector := [44%Q] |};
    {| Mongo.content := "Azure Cosmos DB is a NoSQL database.";
       Mongo.contentVector := [30%Q] |} ].

Definition mongo_cold : Mongo.world :=
  {| Mongo.collection := azure_docs; Mongo.cache := [];
     Mongo.trace := []; Mongo.stdout := [] |}.

Definition mongo_question : string := "what is a good nosql database?".

(** The world after a session in which the same question was asked twice. *)
Definition mongo_warm : Mongo.world :=
  snd (Mongo.qa_session mongo [mongo_question; mongo_question; "END"]
         mongo_cold).
End Demo.

(** * Names for what the NoSQL pipeline stores *)
Module NoSQLItems.
Import NoSQL.

(** The item [cache_response] appends for a response whose first choice is
    [c], when [t] remote calls have been made before it. *)
Definition new_item (svc : services) (t : nat) (user_prompt : string)
    (prompt_vectors : embedding) (response : OpenAI.response)
    (c : OpenAI.choice) : cache_item :=
  {| body :=
       {| id := uuid4 svc t;
          prompt := user_prompt;
          completion := OpenAI.content (OpenAI.message_of c);
          completionTokens :=
            PyStr (str (OpenAI.completion_tokens (OpenAI.usage response)));
          promptTokens :=
            PyStr (str (OpenAI.prompt_tokens (OpenAI.usage response)));
          totalTokens :=
            PyStr (str (OpenAI.total_tokens (OpenAI.usage response)));
          model := OpenAI.model response;
          vector := prompt_vectors |};
     _ts := clock svc t |}.

(** The message [generate_completion] makes of a history entry. *)
Definition history_message (chat : cache_item) : OpenAI.message :=
  {| OpenAI.role := "user";
     OpenAI.content := prompt (body chat) ++ " " ++ completion (body chat) |}.
End NoSQLItems.

(** * Names for what the Mongo loop stores and prints *)
Module MongoItems.
Import Mongo.

(** The dictionary [cache_generation] inserts for a response whose first
    choice is [c]. *)
Definition new_chat (user_prompt : string) (user_embeddings : embedding)
    (response : OpenAI.response) (c : OpenAI.choice) : chat :=
  {| prompt := user_prompt;
     completion := OpenAI.content (OpenAI.message_of c);
     completionTokens :=
       PyStr (str (OpenAI.completion_tokens (OpenAI.usage response)));
     promptTokens :=
       PyStr (str (OpenAI.prompt_tokens (OpenAI.usage response)));
     totalTokens :=
       PyStr (str (OpenAI.total_tokens (OpenAI.usage response)));
     model := OpenAI.model response;
     vectorContent := user_embeddings |}.

(** The line [print(chr(10) + user_input)] writes. *)
Definition echo (user_input : string) : string :=
  String "010"%char user_input.

(** A prompt that does not end the session. *)
Definition goes_on (user_input : string) : Prop := lower user_input <> "end".
End MongoItems.

(** * The Gradio callback of the NoSQL notebook *)
Module Gradio.
Import NoSQL.
Local Open Scope nb_scope.

(** [gr.update(value=...)] *)
Record update : Type := { value : string }.

(** [s.endswith(suffix)]: some tail of [s] is [suffix]. *)
Fixpoint endswith (s suffix : string) : bool :=
  if String.eqb s suffix then true
  else
    match s with
    | EmptyString => false
    | String _ s' => endswith s' suffix
    end.

Section Callback.
Variable svc : services.
(** [time.time()], read when [t] remote calls have been made. *)
Variable time_time : nat -> Q.
(** The text the f-string gives [round((end_time - start_time) * 1000, 2)]. *)
Variable elapsed_text : Q -> Q -> string.

Definition time : M world Q :=
  fun w => (Ok (time_time (List.length (trace w))), w).

(** [user], bound to the text box: a chat history entry is the pair of the
    message and the displayed answer; the list is the one passed in, with
    the entry appended. *)
Definition user {PK : Type} (user_message : string)
    (chat_history : list (string * string)) (pk : PK)
  : M world (update * list (string * string)) :=
  start_time <- time ;;
  answer <- chat_completion svc cache_container movies_container
              user_message ;;
  let response_payload := fst answer in
  let cached := snd answer in
  end_time <- time ;;
  let elapsed_time := elapsed_text start_time end_time in
  let details :=
    (String "010"%char " (Time: " ++ elapsed_time ++ "ms)")%string in
  let details :=
    if cached then (details ++ " (Cached)")%string else details in
  ret ({| value := "" |},
       chat_history ++ [(user_message, (response_payload ++ details)%string)]).
End Callback.
End Gradio.

(** * The setup notebook:
    [AzureCosmosDBforMongoDB/cosmos-for-mongodb-demos-setup.ipynb] *)
Module Setup.

(** ** The server *)

(** A document of the data file: a JSON object, kept as its fields. *)
Definition document : Type := list (string * string).

Record stored : Type := { _id : Mongo.ObjectId; fields : document }.

(** An entry of [indexes] in a [createIndexes] command. *)
Record index : Type :=
  { name : string;
    key : string;              (* the property indexed by [cosmosSearch] *)
    kind : string;
    m : nat;
    efConstruction : nat;
    similarity : string;
    dimensions : nat }.

Record collection : Type :=
  { documents : list stored; indexes : list index }.

(** A database is its collections by name; the server is its databases by
    name. *)
Definition database : Type := list (string * collection).

Inductive event : Type :=
| EmbeddingsCreate (input : string)
| ListDatabaseNames
| DropDatabase (db : string)
| CreateIndexes (db coll : string) (ix : index)
| InsertOne (db coll : string) (d : document).

Record world : Type :=
  { databases : list (string * database);
    trace : list event;
    stdout : list string }.

Inductive error : Type :=
| Uncaught (e : exn)        (* an exception of the OpenAI client *)
| RetryError (last : exn)   (* tenacity gave up after the last attempt *)
| OperationFailure.         (* pymongo: the command failed *)

Inductive outcome (A : Type) : Type :=
| Done (a : A)
| Failed (e : error).
Arguments Done {A} a.
Arguments Failed {A} e.

Definition Cell (A : Type) : Type := world -> outcome A * world.

Definition done {A} (a : A) : Cell A := fun w => (Done a, w).

Definition fail {A} (e : error) : Cell A := fun w => (Failed e, w).

Definition and_then {A B} (c : Cell A) (k : A -> Cell B) : Cell B :=
  fun w =>
    match c w with
    | (Done a, w') => k a w'
    | (Failed e, w') => (Failed e, w')
    end.

Declare Scope setup_scope.
Delimit Scope setup_scope with setup.
Notation "x <- c1 ;; c2" := (and_then c1 (fun x => c2))
  (at level 61, c1 at next level, right associativity) : setup_scope.
Notation "c1 ;; c2" := (and_then c1 (fun _ => c2))
  (at level 61, right associativity) : setup_scope.
Local Open Scope setup_scope.

Definition now : Cell nat := fun w => (Done (List.length (trace w)), w).

Definition add_event (ev : event) (w : world) : world :=
  {| databases := databases w; trace := ev :: trace w; stdout := stdout w |}.

Definition log (ev : event) : Cell unit := fun w => (Done tt, add_event ev w).

Definition add_line (s : string) (w : world) : world :=
  {| databases := databases w; trace := trace w; stdout := stdout w ++ [s] |}.

Definition print (s : string) : Cell unit := fun w => (Done tt, add_line s w).

Definition set_databases (dbs : list (string * database)) (w : world) : world :=
  {| databases := dbs; trace := trace w; stdout := stdout w |}.

(** Dictionaries kept as association lists: the value under a key, a
    default when the key is absent; and writing a key, in place when it is
    there, at the end when it is new. *)
Fixpoint lookup {V} (k : string) (d : V) (l : list (string * V)) : V :=
  match l with
  | [] => d
  | (k', v) :: l' => if String.eqb k k' then v else lookup k d l'
  end.

Fixpoint store {V} (k : string) (v : V) (l : list (string * V))
  : list (string * V) :=
  match l with
  | [] => [(k, v)]
  | (k', v') :: l' =>
      if String.eqb k k' then (k, v) :: l' else (k', v') :: store k v l'
  end.

Definition remove {V} (k : string) (l : list (string * V))
  : list (string * V) :=
  filter (fun kv => negb (String.eqb k (fst kv))) l.

Definition has_key {V} (k : string) (l : list (string * V)) : bool :=
  existsb (fun kv => String.eqb k (fst kv)) l.

Definition empty_collection : collection :=
  {| documents := []; indexes := [] |}.

Definition index_eqb (a b : index) : bool :=
  String.eqb (name a) (name b) && String.eqb (key a) (key b)
  && String.eqb (kind a) (kind b) && Nat.eqb (m a) (m b)
  && Nat.eqb (efConstruction a) (efConstruction b)
  && String.eqb (similarity a) (similarity b)
  && Nat.eqb (dimensions a) (dimensions b).

(** The values read from the environment file, and the services. *)
Record config : Type :=
  { cosmos_database : string;
    cosmos_collection : string;
    cosmos_vector_property : string;
    cosmos_cache : string;
    openai_embeddings_dimensions : nat }.

Record services : Type :=
  { embeddings_create : nat -> string -> result (list embedding);
    (** Whether the command issued as remote call number [t] succeeds. *)
    server_ok : nat -> bool;
    new_object_id : nat -> Mongo.ObjectId }.

(** [tenacity]'s [stop_after_attempt(n)]: [n] is one more than the number
    of retries left.  The waits between attempts take time only. *)
Fixpoint retry {A} (retries_left : nat) (attempt : world -> result A * world)
    (w : world) : outcome A * world :=
  match attempt w with
  | (Ok a, w') => (Done a, w')
  | (Raise e, w') =>
      match retries_left with
      | O => (Failed (RetryError e), w')
      | S n => retry n attempt w'
      end
  end.

Section Notebook.
Variable cfg : config.
Variable svc : services.

(** ** Commands *)

Definition command {A} (ev : event) (run : world -> outcome A * world)
  : Cell A :=
  t <- now ;;
  log ev ;;
  if server_ok svc t then run else fail OperationFailure.

(** [cosmos_client.list_database_names()]: a database without a collection
    is not listed. *)
Definition list_database_names : Cell (list string) :=
  command ListDatabaseNames
    (fun w =>
       (Done (map fst
                (filter (fun d => negb (Nat.eqb (List.length (snd d)) 0))
                   (databases w))),
        w)).

(** [cosmos_client.drop_database(name)] *)
Definition drop_database (db : string) : Cell unit :=
  command (DropDatabase db)
    (fun w => (Done tt, set_databases (remove db (databases w)) w)).

(** The [createIndexes] command: the collection is created when it is not
    there; an index of that name with the same options is left alone, one
    with other options is a conflict. *)
Definition create_indexes (db coll : string) (ix : index) : Cell unit :=
  command (CreateIndexes db coll ix)
    (fun w =>
       let d := lookup db [] (databases w) in
       let c := lookup coll empty_collection d in
       match find (fun i => String.eqb (name i) (name ix)) (indexes c) with
       | Some i =>
           if index_eqb i ix
           then (Done tt,
                 set_databases (store db (store coll c d) (databases w)) w)
           else (Failed OperationFailure, w)
       | None =>
           let c' := {| documents := documents c;
                        indexes := indexes c ++ [ix] |} in
           (Done tt,
            set_databases (store db (store coll c' d) (databases w)) w)
       end).

(** [collection.insert_one(object)] *)
Definition insert_one (db coll : string) (object : document) : Cell unit :=
  t <- now ;;
  command (InsertOne db coll object)
    (fun w =>
       let d := lookup db [] (databases w) in
       let c := lookup coll empty_collection d in
       let c' := {| documents :=
                      documents c ++
                      [{| _id := new_object_id svc t; fields := object |}];
                    indexes := indexes c |} in
       (Done tt, set_databases (store db (store coll c' d) (databases w)) w)).

(** ** [create_collection_and_vector_index] *)

Definition vector_index (vector_property : string)
    (embeddings_dimensions : nat) : index :=
  {| name := "VectorSearchIndex";
     key := vector_property;
     kind := "vector-hnsw";
     m := 16;
     efConstruction := 64;
     similarity := "COS";
     dimensions := embeddings_dimensions |}.

(** The database and the collection are handles: their names. *)
Definition create_collection_and_vector_index (database : string)
    (cosmos_collection : string) (vector_property : string)
    (embeddings_dimensions : nat) : Cell (string * string) :=
  let collection := (database, cosmos_collection) in
  create_indexes database cosmos_collection
    (vector_index vector_property embeddings_dimensions) ;;
  done collection.

(** ** The cell that creates the database and the two collections *)
Definition create_database : Cell ((string * string) * (string * string)) :=
  names <- list_database_names ;;
  (if existsb (String.eqb (cosmos_database cfg)) names
   then drop_database (cosmos_database cfg)
   else done tt) ;;
  let database := cosmos_database cfg in
  collection <- create_collection_and_vector_index database
                  (cosmos_collection cfg) (cosmos_vector_property cfg)
                  (openai_embeddings_dimensions cfg) ;;
  cache <- create_collection_and_vector_index database
             (cosmos_cache cfg) (cosmos_vector_property cfg)
             (openai_embeddings_dimensions cfg) ;;
  done (collection, cache).

(** ** [generate_embeddings], retried *)

(** One attempt: the body of the function. *)
Definition generate_embeddings_attempt (text : string) (w : world)
  : result embedding * world :=
  let w' := add_event (EmbeddingsCreate text) w in
  match embeddings_create svc (List.length (trace w)) text with
  | Ok (d :: _) => (Ok d, w')
  | Ok [] => (Raise IndexError, w')
  | Raise e => (Raise e, w')
  end.

(** The attempt made as remote call number [t] fails: the call raises or
    returns no embedding. *)
Definition attempt_fails_at (t : nat) (text : string) : Prop :=
  match embeddings_create svc t text with
  | Ok (_ :: _) => False
  | _ => True
  end.

(** [@retry(wait=wait_random_exponential(min=1, max=200),
            stop=stop_after_attempt(20))] *)
Definition generate_embeddings (text : string) : Cell embedding :=
  retry 19 (generate_embeddings_attempt text).

(** ** The cell that stores the data *)

Definition progress (counter : nat) (collection_name : string) : string :=
  "Inserted " ++ str (Z.of_nat counter) ++ " documents into collection: '"
  ++ collection_name ++ "'.".

(** The [for] loop, from the value [counter] has before it. *)
Fixpoint insert_all (collection : string * string) (data : list document)
    (counter : nat) : Cell nat :=
  match data with
  | [] => done counter
  | object :: data' =>
      insert_one (fst collection) (snd collection) object ;;
      let counter := (counter + 1)%nat in
      (if (counter mod 100 =? 0)%nat
       then print (progress counter (snd collection))
       else done tt) ;;
      insert_all collection data' counter
  end.

Definition load_data (collection : string * string) (data : list document)
  : Cell unit :=
  let counter := 0%nat in
  insert_all collection data counter ;;
  print "Upsert completed!".
End Notebook.
End Setup.

(** * More sample data *)
Module DemoMore.

Definition wall_clock (t : nat) : Q := inject_Z (Z.of_nat t).

Definition elapsed (start_time end_time : Q) : string :=
  str (Qnum (end_time - start_time) * 1000).

Definition setup_config : Setup.config :=
  {| Setup.cosmos_database := "FabConfDB";
     Setup.cosmos_collection := "movies";
     Setup.cosmos_vector_property := "vector";
     Setup.cosmos_cache := "cache";
     Setup.openai_embeddings_dimensions := 256 |}.

(** The embedding model is throttled on its first two calls. *)
Definition throttled (t : nat) (text : string) : result (list embedding) :=
  if (t <? 2)%nat then Raise EmbeddingError else Ok [Demo.embed text].

Definition setup_services : Setup.services :=
  {| Setup.embeddings_create := throttled;
     Setup.server_ok := fun _ => true;
     Setup.new_object_id := fun t =>
       {| Mongo.oid_time := (1700000000 + Z.of_nat t)%Z;
          Mongo.oid_random := 7;
          Mongo.oid_counter := Z.of_nat t |} |}.

(** The embedding model is down. *)
Definition setup_services_no_model : Setup.services :=
  {| Setup.embeddings_create := fun _ _ => Raise EmbeddingError;
     Setup.server_ok := fun _ => true;
     Setup.new_object_id := Setup.new_object_id setup_services |}.

(** The server fails the third command. *)
Definition setup_services_flaky : Setup.services :=
  {| Setup.embeddings_create := throttled;
     Setup.server_ok := fun t => negb (t =? 2)%nat;
     Setup.new_object_id := Setup.new_object_id setup_services |}.

Definition film (title : string) : Setup.document :=
  [("original_title", title)].

(** A server that already holds an older copy of the database. *)
Definition used_server : Setup.world :=
  {| Setup.databases :=
       [("FabConfDB",
         [("movies",
           {| Setup.documents :=
                [{| Setup._id :=
                      {| Mongo.oid_time := 1600000000;
                         Mongo.oid_random := 7; Mongo.oid_counter := 0 |};
                    Setup.fields := film "Alien" |}];
              Setup.indexes := [] |})]);
        ("other", [])];
     Setup.trace := [];
     Setup.stdout := [] |}.

Definition fresh_server : Setup.world :=
  {| Setup.databases := []; Setup.trace := []; Setup.stdout := [] |}.

(** The chat model is down, or answers without a choice. *)
Definition nosql_no_chat : NoSQL.services :=
  {| NoSQL.embeddings_create := Demo.embeddings;
     NoSQL.chat_completions_create := fun _ _ => Raise CompletionError;
     NoSQL.VectorDistance := Demo.similarity;
     NoSQL.cosmos_query_ok := fun _ => true;
     NoSQL.cosmos_create_ok := fun _ => true;
     NoSQL.clock := NoSQL.clock Demo.nosql;
     NoSQL.uuid4 := NoSQL.uuid4 Demo.nosql;
     NoSQL.json_dumps := NoSQL.doc_overview |}.

(** The database cannot be read. *)
Definition nosql_no_reads : NoSQL.services :=
  {| NoSQL.embeddings_create := Demo.embeddings;
     NoSQL.chat_completions_create := Demo.answer;
     NoSQL.VectorDistance := Demo.similarity;
     NoSQL.cosmos_query_ok := fun _ => false;
     NoSQL.cosmos_create_ok := fun _ => true;
     NoSQL.clock := NoSQL.clock Demo.nosql;
     NoSQL.uuid4 := NoSQL.uuid4 Demo.nosql;
     NoSQL.json_dumps := NoSQL.doc_overview |}.

Definition mongo_no_chat : Mongo.services :=
  {| Mongo.embeddings_create := Demo.embeddings;
     Mongo.chat_completions_create := fun _ _ => Raise CompletionError;
     Mongo.searchScore := Demo.similarity;
     Mongo.mongo_read_ok := fun _ => true;
     Mongo.mongo_write_ok := fun _ => true;
     Mongo.new_object_id := Mongo.new_object_id Demo.mongo |}.

Definition mongo_read_only : Mongo.services :=
  {| Mongo.embeddings_create := Demo.embeddings;
     Mongo.chat_completions_create := Demo.answer;
     Mongo.searchScore := Demo.similarity;
     Mongo.mongo_read_ok := fun _ => true;
     Mongo.mongo_write_ok := fun _ => false;
     Mongo.new_object_id := Mongo.new_object_id Demo.mongo |}.

(** A fast session.  [_ts] and the time in an [ObjectId] count whole
    seconds; here sixty remote calls fit in one, so the exchanges cached
    during a short session are stamped with the same second. *)
Definition second_of (t : nat) : Z := (1700000000 + Z.of_nat (t / 60))%Z.

Definition nosql_fast : NoSQL.services :=
  {| NoSQL.embeddings_create := Demo.embeddings;
     NoSQL.chat_completions_create := Demo.answer;
     NoSQL.VectorDistance := Demo.similarity;
     NoSQL.cosmos_query_ok := fun _ => true;
     NoSQL.cosmos_create_ok := fun _ => true;
     NoSQL.clock := second_of;
     NoSQL.uuid4 := NoSQL.uuid4 Demo.nosql;
     NoSQL.json_dumps := NoSQL.doc_overview |}.

Definition heist_question : string := "Which movie has a heist in a dream?".

(** The world after two different questions were answered one after the
    other. *)
Definition asked_within_a_second : NoSQL.world :=
  snd (NoSQL.chat_completion nosql_fast NoSQL.cache_container
         NoSQL.movies_container heist_question
         (snd (NoSQL.chat_completion nosql_fast NoSQL.cache_container
                 NoSQL.movies_container Demo.question Demo.cold))).

Definition mongo_fast : Mongo.services :=
  {| Mongo.embeddings_create := Demo.embeddings;
     Mongo.chat_completions_create := Demo.answer;
     Mongo.searchScore := Demo.similarity;
     Mongo.mongo_read_ok := fun _ => true;
     Mongo.mongo_write_ok := fun _ => true;
     Mongo.new_object_id := fun t =>
       {| Mongo.oid_time := second_of t;
          Mongo.oid_random := 7;
          Mongo.oid_counter := Z.of_nat t |} |}.

Definition training_question : string := "which service trains models?".

(** The world after a session of two questions. *)
Definition mongo_asked_within_a_second : Mongo.world :=
  snd (Mongo.qa_session mongo_fast
         [Demo.mongo_question; training_question; "end"] Demo.mongo_cold).
End DemoMore.

(** * Facts about sorting and scores *)
Section OrderByFacts.
Context {A K : Type}.
Variable key : A -> K.
Variable leb : K -> K -> bool.
Hypothesis leb_total : forall a b, leb a b = true \/ leb b a = true.
Hypothesis leb_trans :
  forall a b c, leb a b = true -> leb b c = true -> leb a c = true.

Lemma insert_desc_perm x l : Permutation (x :: l) (insert_desc key leb x l).
Proof.
  induction l as [|y l IH]; simpl.
  - apply Permutation_refl.
  - destruct (leb (key y) (key x)).
    + apply Permutation_refl.
    + eapply perm_trans; [apply perm_swap|].
      apply perm_skip, IH.
Qed.

Lemma order_by_desc_perm l : Permutation l (order_by_desc key leb l).
Proof.
  induction l as [|x l IH]; simpl.
  - constructor.
  - eapply perm_trans; [apply perm_skip, IH|].
    apply insert_desc_perm.
Qed.

Lemma order_by_desc_In x l : In x (order_by_desc key leb l) <-> In x l.
Proof.
  split; intro H.
  - eapply Permutation_in; [apply Permutation_sym, order_by_desc_perm|exact H].
  - eapply Permutation_in; [apply order_by_desc_perm|exact H].
Qed.

Lemma insert_desc_sorted x l :
  StronglySorted (desc key leb) l ->
  StronglySorted (desc key leb) (insert_desc key leb x l).
Proof.
  induction 1 as [|y l Hs IH Hy]; simpl.
  - repeat constructor.
  - destruct (leb (key y) (key x)) eqn:E.
    + constructor; [constructor; assumption|].
      constructor; [exact E|].
      rewrite Forall_forall in *. intros z Hz.
      unfold desc in *. eapply leb_trans; [apply Hy, Hz|exact E].
    + constructor; [exact IH|].
      rewrite Forall_forall in *. intros z Hz.
      apply (Permutation_in _ (Permutation_sym (insert_desc_perm x l))) in Hz.
      destruct Hz as [<-|Hz]; [|apply Hy, Hz].
      unfold desc. destruct (leb_total (key x) (key y)) as [H|H];
        [exact H|congruence].
Qed.

Lemma order_by_desc_sorted l : StronglySorted (desc key leb) (order_by_desc key leb l).
Proof.
  induction l as [|x l IH]; simpl.
  - constructor.
  - apply insert_desc_sorted, IH.
Qed.

(** The first row of a sorted answer has the largest key. *)
Lemma sorted_head_max x l y :
  StronglySorted (desc key leb) (x :: l) -> In y (x :: l) ->
  leb (key y) (key x) = true.
Proof.
  intros H Hy. inversion H as [|? ? _ Hall]; subst.
  destruct Hy as [<-|Hy].
  - destruct (leb_total (key x) (key x)); assumption.
  - rewrite Forall_forall in Hall. apply Hall, Hy.
Qed.
End OrderByFacts.

Lemma In_firstn {A : Type} (x : A) n l : In x (firstn n l) -> In x l.
Proof.
  intros H. rewrite <- (firstn_skipn n l). apply in_or_app. left. exact H.
Qed.

Lemma firstn_sorted {A : Type} (R : A -> A -> Prop) n l :
  StronglySorted R l -> StronglySorted R (firstn n l).
Proof.
  intros H. revert n. induction H as [|y l Hs IH Hy]; intros [|n]; simpl;
    try constructor.
  - apply IH.
  - rewrite Forall_forall in *. intros z Hz. apply Hy.
    eapply In_firstn; eauto.
Qed.

Lemma sorted_weaken {A : Type} (R R' : A -> A -> Prop) l :
  (forall a b, R a b -> R' a b) ->
  StronglySorted R l -> StronglySorted R' l.
Proof.
  intros HR. induction 1 as [|y l Hs IH Hy]; constructor; auto.
  rewrite Forall_forall in *. auto.
Qed.

Lemma sorted_map {A B : Type} (f : A -> B) (R : B -> B -> Prop) l :
  StronglySorted (fun a b => R (f a) (f b)) l -> StronglySorted R (map f l).
Proof.
  induction 1 as [|y l Hs IH Hy]; simpl; constructor; auto.
  rewrite Forall_forall in *. intros z Hz.
  apply in_map_iff in Hz. destruct Hz as [a [<- Ha]]. auto.
Qed.

(** Appending in a loop builds the mapped list. *)
Lemma fold_left_append {A B : Type} (f : A -> B) l init :
  fold_left (fun acc x => acc ++ [f x]) l init = init ++ map f l.
Proof.
  revert init. induction l as [|x l IH]; intros init; simpl.
  - now rewrite app_nil_r.
  - rewrite IH, <- app_assoc. reflexivity.
Qed.

Lemma Qltb_lt a b : Qltb a b = true <-> (a < b)%Q.
Proof.
  unfold Qltb. rewrite negb_true_iff. split; intro H.
  - apply Qnot_le_lt. intro H'. apply Qle_bool_iff in H'. congruence.
  - destruct (Qle_bool b a) eqn:E; [|reflexivity].
    apply Qle_bool_iff in E. exfalso. exact (Qlt_not_le _ _ H E).
Qed.

Lemma Qle_bool_total a b : Qle_bool a b = true \/ Qle_bool b a = true.
Proof.
  destruct (Qlt_le_dec a b) as [H|H].
  - left. apply Qle_bool_iff, Qlt_le_weak, H.
  - right. apply Qle_bool_iff, H.
Qed.

Lemma Qle_bool_trans a b c :
  Qle_bool a b = true -> Qle_bool b c = true -> Qle_bool a c = true.
Proof.
  rewrite !Qle_bool_iff. apply Qle_trans.
Qed.

Lemma Zleb_total a b : (a <=? b)%Z = true \/ (b <=? a)%Z = true.
Proof. rewrite !Z.leb_le. lia. Qed.

Lemma Zleb_trans a b c :
  (a <=? b)%Z = true -> (b <=? c)%Z = true -> (a <=? c)%Z = true.
Proof. rewrite !Z.leb_le. lia. Qed.

(** [int(str(n)) == n] *)
Lemma int_str n : int (str n) = Some n.
Proof.
  unfold int, str.
  rewrite NilZero.isi.
  - simpl. now rewrite DecimalZ.of_to.
  - destruct n; simpl; try discriminate.
    intros [= H]. revert H. apply DecimalPos.Unsigned.to_uint_nonnil.
  - destruct n; simpl; try discriminate.
    intros [= H]. revert H. apply DecimalPos.Unsigned.to_uint_nonnil.
Qed.

(** * Running a cell *)
Section MonadFacts.
Context {W : Type}.

Lemma bind_run {A B} (c : M W A) (k : A -> M W B) w :
  bind c k w =
  match c w with
  | (Ok a, w') => k a w'
  | (Raise e, w') => (Raise e, w')
  end.
Proof. reflexivity. Qed.

Lemma lift_run {A} (r : result A) (w : W) : lift r w = (r, w).
Proof. destruct r; reflexivity. Qed.
End MonadFacts.

(** * The NoSQL notebook: what the functions do *)
Module NoSQLFacts.
Import NoSQL.

Section Facts.
Variable svc : services.

Lemma generate_embeddings_run text w :
  generate_embeddings svc text w =
  (match embeddings_create svc (List.length (trace w)) text with
   | Ok (d :: _) => Ok d
   | Ok [] => Raise IndexError
   | Raise e => Raise e
   end,
   add_event (EmbeddingsCreate text) w).
Proof.
  unfold generate_embeddings, bind, now, log, modify, lift, first.
  destruct (embeddings_create svc (List.length (trace w)) text) as [[|d ds]|e];
    reflexivity.
Qed.

Lemma query_items_run {A B} (c : container A) (query : list A -> list B) w :
  query_items svc c query w =
  (if cosmos_query_ok svc (List.length (trace w))
   then Ok (query (items c (add_event QueryItems w)))
   else Raise StoreQueryError,
   add_event QueryItems w).
Proof.
  unfold query_items, bind, now, log, modify, get.
  destruct (cosmos_query_ok svc (List.length (trace w))); reflexivity.
Qed.

Lemma generate_completion_run user_prompt results history w :
  generate_completion svc user_prompt results history w =
  (chat_completions_create svc (List.length (trace w))
     (generate_completion_messages svc user_prompt results history),
   add_event
     (ChatCompletionsCreate
        (generate_completion_messages svc user_prompt results history)) w).
Proof.
  unfold generate_completion, bind, now, log, modify. cbn.
  apply lift_run.
Qed.

Lemma cache_response_run user_prompt prompt_vectors response c cs w :
  OpenAI.choices response = c :: cs ->
  let chat_document :=
    {| id := uuid4 svc (List.length (trace w));
       prompt := user_prompt;
       completion := OpenAI.content (OpenAI.message_of c);
       completionTokens :=
         PyStr (str (OpenAI.completion_tokens (OpenAI.usage response)));
       promptTokens :=
         PyStr (str (OpenAI.prompt_tokens (OpenAI.usage response)));
       totalTokens :=
         PyStr (str (OpenAI.total_tokens (OpenAI.usage response)));
       model := OpenAI.model response;
       vector := prompt_vectors |} in
  cache_response svc cache_container user_prompt prompt_vectors response w =
  if cosmos_create_ok svc (List.length (trace w))
  then (Ok tt,
        {| movies_db := movies_db w;
           cache_db :=
             cache_db w ++
             [{| body := chat_document;
                 _ts := clock svc (List.length (trace w)) |}];
           trace := CreateItem chat_document :: trace w |})
  else (Raise CacheWriteError, add_event (CreateItem chat_document) w).
Proof.
  intros Hc. cbn zeta.
  unfold cache_response, create_item, response_content, bind, now, log,
    modify, first, ret. rewrite Hc. cbn.
  destruct (cosmos_create_ok svc (List.length (trace w))); reflexivity.
Qed.

(** *** The cache probe *)

Lemma get_cache_query_hit vectors threshold c e :
  In e c -> (threshold < score svc vectors e)%Q ->
  exists hit,
    get_cache_query svc vectors threshold 1 c = [hit] /\
    In hit c /\
    (threshold < score svc vectors hit)%Q /\
    (score svc vectors e <= score svc vectors hit)%Q.
Proof.
  intros Hin Hlt. unfold get_cache_query.
  set (kept := filter _ c).
  assert (Hk : In e kept).
  { apply filter_In. split; [exact Hin|]. apply Qltb_lt, Hlt. }
  pose proof (order_by_desc_sorted (score svc vectors) Qle_bool
                Qle_bool_total Qle_bool_trans kept) as Hs.
  apply (order_by_desc_In (score svc vectors) Qle_bool) in Hk.
  destruct (order_by_desc (score svc vectors) Qle_bool kept) as [|hit rest] eqn:E;
    [contradiction|].
  exists hit. split; [reflexivity|].
  assert (Hh : In hit kept).
  { apply (order_by_desc_In (score svc vectors) Qle_bool). rewrite E. now left. }
  apply filter_In in Hh. destruct Hh as [Hh1 Hh2].
  repeat split; [exact Hh1|apply Qltb_lt, Hh2|].
  apply Qle_bool_iff.
  exact (sorted_head_max (score svc vectors) Qle_bool Qle_bool_total _ _ _ Hs Hk).
Qed.

Lemma get_cache_query_sound vectors threshold n c hit rest :
  get_cache_query svc vectors threshold n c = hit :: rest ->
  In hit c /\ (threshold < score svc vectors hit)%Q.
Proof.
  unfold get_cache_query. intros E.
  assert (H : In hit (hit :: rest)) by now left.
  rewrite <- E in H. apply In_firstn in H.
  apply order_by_desc_In in H. apply filter_In in H.
  destruct H as [H1 H2]. split; [exact H1|apply Qltb_lt, H2].
Qed.

Lemma get_cache_query_miss vectors threshold n c :
  (forall e, In e c -> ~ (threshold < score svc vectors e)%Q) ->
  get_cache_query svc vectors threshold n c = [].
Proof.
  intros H.
  destruct (get_cache_query svc vectors threshold n c) as [|hit rest] eqn:E;
    [reflexivity|].
  apply get_cache_query_sound in E. destruct E as [E1 E2].
  exfalso. exact (H hit E1 E2).
Qed.

Lemma chat_completion_run user_input w :
  chat_completion svc cache_container movies_container user_input w =
  match generate_embeddings svc user_input w with
  | (Raise e, w1) => (Raise e, w1)
  | (Ok user_embeddings, w1) =>
      match get_cache svc cache_container user_embeddings
              cache_hit_similarity_score 1 w1 with
      | (Raise e, w2) => (Raise e, w2)
      | (Ok (hit :: _), w2) => (Ok (completion (body hit), true), w2)
      | (Ok [], w2) =>
          (search_results <- vector_search svc movies_container user_embeddings
                               vector_search_similarity_score
                               vector_search_num_results ;;
           chat_history <- get_chat_history svc cache_container 3 ;;
           completions_results <- generate_completion svc user_input
                                    search_results chat_history ;;
           cache_response svc cache_container user_input user_embeddings
             completions_results ;;
           text <- response_content completions_results ;;
           ret (text, false))%nb w2
      end
  end.
Proof.
  unfold chat_completion. rewrite bind_run.
  destruct (generate_embeddings svc user_input w) as [[emb|e] w1];
    [|reflexivity].
  rewrite bind_run.
  destruct (get_cache svc cache_container emb cache_hit_similarity_score 1 w1)
    as [[[|hit rest]|e] w2]; reflexivity.
Qed.

(** *** The vector queries *)

Lemma vector_search_run c vectors similarity_score num_results w :
  vector_search svc c vectors similarity_score num_results w =
  (if cosmos_query_ok svc (List.length (trace w))
   then Ok (map format_result
              (vector_search_query svc vectors similarity_score num_results
                 (items c (add_event QueryItems w))))
   else Raise StoreQueryError,
   add_event QueryItems w).
Proof.
  unfold vector_search. rewrite bind_run, query_items_run.
  destruct (cosmos_query_ok svc (List.length (trace w))); [|reflexivity].
  unfold ret. now rewrite fold_left_append.
Qed.




(** *** The history window *)

Lemma get_chat_history_window completions w :
  cosmos_query_ok svc (List.length (trace w)) = true ->
  exists rows rest w',
    get_chat_history svc cache_container completions w = (Ok rows, w') /\
    (List.length rows <= completions)%nat /\
    StronglySorted (fun a b => (_ts b <= _ts a)%Z) (rows ++ rest) /\
    Permutation (rows ++ rest) (cache_db w).
Proof.
  intros Hup. unfold get_chat_history. rewrite query_items_run, Hup.
  cbn [items cache_container add_event cache_db].
  unfold get_chat_history_query.
  exists (firstn completions (order_by_desc _ts Z.leb (cache_db w))),
         (skipn completions (order_by_desc _ts Z.leb (cache_db w))).
  eexists. split; [reflexivity|].
  split; [apply firstn_le_length|].
  rewrite firstn_skipn. split.
  - eapply sorted_weaken;
      [|apply order_by_desc_sorted; [apply Zleb_total|apply Zleb_trans]].
    intros a b Hab. apply Z.leb_le, Hab.
  - apply Permutation_sym, order_by_desc_perm.
Qed.

(** *** The payload of [generate_completion] *)

Lemma generate_completion_messages_order user_prompt results history :
  generate_completion_messages svc user_prompt results history =
  [{| OpenAI.role := "system"; OpenAI.content := system_prompt |}]
  ++ map (fun chat =>
            {| OpenAI.role := "user";
               OpenAI.content :=
                 prompt (body chat) ++ " " ++ completion (body chat) |})
       history
  ++ [{| OpenAI.role := "user"; OpenAI.content := user_prompt |}]
  ++ map (fun result =>
            {| OpenAI.role := "system";
               OpenAI.content := json_dumps svc (document_of result) |})
       results.
Proof.
  unfold generate_completion_messages.
  rewrite !fold_left_append, <- !app_assoc. reflexivity.
Qed.

(** *** The stored token counters *)

Lemma cache_response_tokens user_prompt prompt_vectors response c cs w :
  OpenAI.choices response = c :: cs ->
  cosmos_create_ok svc (List.length (trace w)) = true ->
  exists new w',
    cache_response svc cache_container user_prompt prompt_vectors response w =
      (Ok tt, w') /\
    cache_db w' = cache_db w ++ [new] /\
    completionTokens (body new) =
      PyStr (str (OpenAI.completion_tokens (OpenAI.usage response))) /\
    promptTokens (body new) =
      PyStr (str (OpenAI.prompt_tokens (OpenAI.usage response))) /\
    totalTokens (body new) =
      PyStr (str (OpenAI.total_tokens (OpenAI.usage response))).
Proof.
  intros Hc Hup. rewrite (cache_response_run _ _ _ _ _ _ Hc), Hup.
  eexists _, _. split; [reflexivity|]. cbn. repeat split; reflexivity.
Qed.

(** *** The pipeline on a cache hit *)

(** C1. When some cache item scores above the cache-hit threshold against
    the embedding of the query and the cache read succeeds,
    [chat_completion] returns the stored completion of the best such item
    with the cached flag [true]; that item is the given one when it is the
    only one above the threshold.  The Completion Provider is not invoked
    and the cache is left as it was. *)
Theorem chat_completion_cache_hit user_input w user_embeddings w1 e :
  generate_embeddings svc user_input w = (Ok user_embeddings, w1) ->
  cosmos_query_ok svc (S (List.length (trace w))) = true ->
  In e (cache_db w) ->
  (cache_hit_similarity_score < score svc user_embeddings e)%Q ->
  exists hit w',
    chat_completion svc cache_container movies_container user_input w =
      (Ok (completion (body hit), true), w') /\
    In hit (cache_db w) /\
    (cache_hit_similarity_score < score svc user_embeddings hit)%Q /\
    (score svc user_embeddings e <= score svc user_embeddings hit)%Q /\
    ((forall e', In e' (cache_db w) ->
                 (cache_hit_similarity_score < score svc user_embeddings e')%Q ->
                 e' = e) -> hit = e) /\
    completion_calls (trace w') = completion_calls (trace w) /\
    cache_db w' = cache_db w.
Proof.
  intros Hemb Hup Hin Hlt.
  rewrite chat_completion_run, Hemb.
  rewrite generate_embeddings_run in Hemb.
  injection Hemb as _ <-.
  unfold get_cache. rewrite query_items_run. cbn [add_event trace List.length].
  rewrite Hup. cbn [items cache_container add_event cache_db].
  destruct (get_cache_query_hit user_embeddings cache_hit_similarity_score
              (cache_db w) e Hin Hlt) as [hit [E [H1 [H2 H3]]]].
  rewrite E. exists hit. eexists. split; [reflexivity|].
  repeat split; auto.
Qed.

(** *** The pipeline on a cache miss *)

(** C2. When no cache item scores above the threshold and the services
    answer, [chat_completion] invokes the Completion Provider once, appends
    one item to the cache whose prompt is the input text and whose vector
    is the embedding of the query, and returns the generated text with the
    cached flag [false]. *)
Theorem chat_completion_cache_miss user_input w user_embeddings w1 :
  (forall t, cosmos_query_ok svc t = true) ->
  (forall t, cosmos_create_ok svc t = true) ->
  (forall t messages, exists r c cs,
      chat_completions_create svc t messages = Ok r /\
      OpenAI.choices r = c :: cs) ->
  generate_embeddings svc user_input w = (Ok user_embeddings, w1) ->
  (forall e, In e (cache_db w) ->
             ~ (cache_hit_similarity_score < score svc user_embeddings e)%Q) ->
  exists messages r c cs new w',
    chat_completions_create svc (4 + List.length (trace w)) messages = Ok r /\
    OpenAI.choices r = c :: cs /\
    chat_completion svc cache_container movies_container user_input w =
      (Ok (OpenAI.content (OpenAI.message_of c), false), w') /\
    completion_calls (trace w') = S (completion_calls (trace w)) /\
    cache_db w' = cache_db w ++ [new] /\
    prompt (body new) = user_input /\
    vector (body new) = user_embeddings /\
    completion (body new) = OpenAI.content (OpenAI.message_of c).
Proof.
  intros Hq Hc Hchat Hemb Hmiss.
  rewrite chat_completion_run, Hemb.
  rewrite generate_embeddings_run in Hemb.
  injection Hemb as _ <-.
  unfold get_cache. rewrite query_items_run, Hq.
  cbn [items cache_container add_event cache_db].
  rewrite (get_cache_query_miss _ _ _ _ Hmiss).
  rewrite bind_run. unfold vector_search at 1.
  rewrite bind_run, query_items_run, Hq.
  cbn [ret]. unfold ret at 1.
  rewrite bind_run. unfold get_chat_history.
  rewrite query_items_run, Hq.
  rewrite bind_run, generate_completion_run.
  cbn [add_event trace List.length].
  match goal with
  | |- context [chat_completions_create svc ?t ?m] =>
      destruct (Hchat t m) as [r [c [cs [Hr Hcs]]]]; rewrite Hr
  end.
  rewrite bind_run, (cache_response_run _ _ _ _ _ _ Hcs), Hc.
  rewrite bind_run. unfold response_content at 1.
  rewrite bind_run, Hcs. cbn [first ret].
  unfold ret.
  eexists _, r, c, cs, _, _.
  split; [exact Hr|]. split; [exact Hcs|].
  split; [reflexivity|].
  cbn. repeat split; reflexivity.
Qed.

(** C3 (as the code has it). When the insert into the cache fails after a
    successful completion, the exception leaves [chat_completion]: the
    caller gets [CacheWriteError] instead of the text and the flag.  The
    Completion Provider was invoked once and the cache is unchanged. *)
Theorem chat_completion_cache_write_fails user_input w user_embeddings w1 :
  (forall t, cosmos_query_ok svc t = true) ->
  cosmos_create_ok svc (5 + List.length (trace w)) = false ->
  (forall t messages, exists r c cs,
      chat_completions_create svc t messages = Ok r /\
      OpenAI.choices r = c :: cs) ->
  generate_embeddings svc user_input w = (Ok user_embeddings, w1) ->
  (forall e, In e (cache_db w) ->
             ~ (cache_hit_similarity_score < score svc user_embeddings e)%Q) ->
  exists w',
    chat_completion svc cache_container movies_container user_input w =
      (Raise CacheWriteError, w') /\
    completion_calls (trace w') = S (completion_calls (trace w)) /\
    cache_db w' = cache_db w.
Proof.
  intros Hq Hc Hchat Hemb Hmiss.
  rewrite chat_completion_run, Hemb.
  rewrite generate_embeddings_run in Hemb.
  injection Hemb as _ <-.
  unfold get_cache. rewrite query_items_run, Hq.
  cbn [items cache_container add_event cache_db].
  rewrite (get_cache_query_miss _ _ _ _ Hmiss).
  rewrite bind_run. unfold vector_search at 1.
  rewrite bind_run, query_items_run, Hq.
  cbn [ret]. unfold ret at 1.
  rewrite bind_run. unfold get_chat_history.
  rewrite query_items_run, Hq.
  rewrite bind_run, generate_completion_run.
  cbn [add_event trace List.length].
  match goal with
  | |- context [chat_completions_create svc ?t ?m] =>
      destruct (Hchat t m) as [r [c [cs [Hr Hcs]]]]; rewrite Hr
  end.
  rewrite bind_run, (cache_response_run _ _ _ _ _ _ Hcs).
  cbn [add_event trace List.length]. cbn [Nat.add] in Hc. rewrite Hc.
  eexists. split; [reflexivity|]. cbn. split; reflexivity.
Qed.

(** C6. [chat_completion] answers with the cached flag only from a stored
    item whose score against the query embedding exceeds the cache-hit
    threshold 0.99, which is above the default 0.02 of [vector_search]; so
    not every item of the cache scores at or below the threshold. *)
Theorem chat_completion_cached_only_above_threshold user_input w text w' :
  chat_completion svc cache_container movies_container user_input w =
    (Ok (text, true), w') ->
  (exists user_embeddings w1 hit,
      generate_embeddings svc user_input w = (Ok user_embeddings, w1) /\
      In hit (cache_db w) /\
      text = completion (body hit) /\
      (cache_hit_similarity_score < score svc user_embeddings hit)%Q /\
      ~ (forall e, In e (cache_db w) ->
                   (score svc user_embeddings e <= cache_hit_similarity_score)%Q)) /\
  (cache_hit_similarity_score == 0.99)%Q /\
  (vector_search_similarity_score == 0.02)%Q /\
  (vector_search_similarity_score < cache_hit_similarity_score)%Q.
Proof.
  intros H. split; [|repeat split; reflexivity].
  rewrite chat_completion_run in H.
  destruct (generate_embeddings svc user_input w) as [[emb|e] w1] eqn:Hemb;
    [|discriminate].
  rewrite generate_embeddings_run in Hemb.
  unfold get_cache in H. rewrite query_items_run in H.
  destruct (cosmos_query_ok svc (List.length (trace w1))); [|discriminate].
  assert (Hw : cache_db w1 = cache_db w) by (now injection Hemb as _ <-).
  cbn [items cache_container add_event cache_db] in H. rewrite Hw in H.
  destruct (get_cache_query svc emb cache_hit_similarity_score 1 (cache_db w))
    as [|hit rest] eqn:E.
  - exfalso. revert H.
    rewrite bind_run.
    destruct (vector_search _ _ _ _ _ _) as [[?|?] ?]; [|discriminate].
    rewrite bind_run.
    destruct (get_chat_history _ _ _ _) as [[?|?] ?]; [|discriminate].
    rewrite bind_run.
    destruct (generate_completion _ _ _ _ _) as [[?|?] ?]; [|discriminate].
    rewrite bind_run.
    destruct (cache_response _ _ _ _ _ _) as [[?|?] ?]; [|discriminate].
    rewrite bind_run.
    destruct (response_content _ _) as [[?|?] ?]; discriminate.
  - apply get_cache_query_sound in E. destruct E as [E1 E2].
    injection H as <- <-.
    exists emb, w1, hit.
    repeat split; auto.
    intros Hall. apply (Qlt_not_le _ _ E2). apply Hall, E1.
Qed.

(** C9. When the embedding step fails, because the Embedding Provider
    raises on the input or returns no embedding, [chat_completion] stops
    with that exception after the embedding call alone: no container is
    read or written and the Completion Provider is not invoked. *)
Theorem chat_completion_embedding_error user_input w e :
  fst (generate_embeddings svc user_input w) = Raise e ->
  exists w',
    chat_completion svc cache_container movies_container user_input w =
      (Raise e, w') /\
    cache_db w' = cache_db w /\
    movies_db w' = movies_db w /\
    trace w' = EmbeddingsCreate user_input :: trace w /\
    completion_calls (trace w') = completion_calls (trace w).
Proof.
  intros H. rewrite chat_completion_run.
  rewrite generate_embeddings_run in *. cbn [fst] in H. rewrite H.
  eexists. split; [reflexivity|]. cbn. repeat split; reflexivity.
Qed.
End Facts.

(** *** The theorems on the sample data *)

Lemma chat_completion_cache_hit_witness :
  exists hit w',
    chat_completion Demo.nosql cache_container movies_container
      Demo.question Demo.warm = (Ok (completion (body hit), true), w') /\
    In hit (cache_db Demo.warm) /\
    (cache_hit_similarity_score
     < score Demo.nosql (Demo.embed Demo.question) hit)%Q /\
    (score Demo.nosql (Demo.embed Demo.question) Demo.asked
     <= score Demo.nosql (Demo.embed Demo.question) hit)%Q /\
    ((forall e', In e' (cache_db Demo.warm) ->
                 (cache_hit_similarity_score
                  < score Demo.nosql (Demo.embed Demo.question) e')%Q ->
                 e' = Demo.asked) -> hit = Demo.asked) /\
    completion_calls (trace w') = completion_calls (trace Demo.warm) /\
    cache_db w' = cache_db Demo.warm.
Proof.
  apply (chat_completion_cache_hit Demo.nosql Demo.question Demo.warm
           (Demo.embed Demo.question)
           (add_event (EmbeddingsCreate Demo.question) Demo.warm) Demo.asked).
  - reflexivity.
  - reflexivity.
  - left. reflexivity.
  - vm_compute. reflexivity.
Defined.

Lemma chat_completion_cache_miss_witness :
  exists messages r c cs new w',
    chat_completions_create Demo.nosql (4 + List.length (trace Demo.cold))
      messages = Ok r /\
    OpenAI.choices r = c :: cs /\
    chat_completion Demo.nosql cache_container movies_container
      Demo.question Demo.cold =
      (Ok (OpenAI.content (OpenAI.message_of c), false), w') /\
    completion_calls (trace w') = S (completion_calls (trace Demo.cold)) /\
    cache_db w' = cache_db Demo.cold ++ [new] /\
    prompt (body new) = Demo.question /\
    vector (body new) = Demo.embed Demo.question /\
    completion (body new) = OpenAI.content (OpenAI.message_of c).
Proof.
  apply (chat_completion_cache_miss Demo.nosql Demo.question Demo.cold
           (Demo.embed Demo.question)
           (add_event (EmbeddingsCreate Demo.question) Demo.cold)).
  - intros t. reflexivity.
  - intros t. reflexivity.
  - intros t messages. eexists _, _, _. split; reflexivity.
  - reflexivity.
  - intros e He. simpl in He. contradiction.
Defined.

Lemma chat_completion_cache_write_fails_witness :
  exists w',
    chat_completion Demo.nosql_read_only cache_container movies_container
      Demo.question Demo.cold = (Raise CacheWriteError, w') /\
    completion_calls (trace w') = S (completion_calls (trace Demo.cold)) /\
    cache_db w' = cache_db Demo.cold.
Proof.
  apply (chat_completion_cache_write_fails Demo.nosql_read_only Demo.question
           Demo.cold (Demo.embed Demo.question)
           (add_event (EmbeddingsCreate Demo.question) Demo.cold)).
  - intros t. reflexivity.
  - reflexivity.
  - intros t messages. eexists _, _, _. split; reflexivity.
  - reflexivity.
  - intros e He. simpl in He. contradiction.
Defined.

(** C3 (as the claim has it) fails: with the same question on the same
    world, the caller gets the text and the flag when the insert succeeds
    and the exception when it fails. *)
Lemma cache_write_error_reaches_caller :
  fst (chat_completion Demo.nosql cache_container movies_container
         Demo.question Demo.cold) = Ok ("answer 4", false) /\
  fst (chat_completion Demo.nosql_read_only cache_container movies_container
         Demo.question Demo.cold) = Raise CacheWriteError /\
  ~ (fst (chat_completion Demo.nosql_read_only cache_container
            movies_container Demo.question Demo.cold)
     = fst (chat_completion Demo.nosql cache_container movies_container
              Demo.question Demo.cold)).
Proof.
  split; [reflexivity|]. split; [reflexivity|].
  vm_compute. discriminate.
Qed.


Lemma chat_completion_cached_only_above_threshold_witness :
  (exists user_embeddings w1 hit,
      generate_embeddings Demo.nosql Demo.question Demo.warm =
        (Ok user_embeddings, w1) /\
      In hit (cache_db Demo.warm) /\
      "answer 4" = completion (body hit) /\
      (cache_hit_similarity_score < score Demo.nosql user_embeddings hit)%Q /\
      ~ (forall e, In e (cache_db Demo.warm) ->
                   (score Demo.nosql user_embeddings e
                    <= cache_hit_similarity_score)%Q)) /\
  (cache_hit_similarity_score == 0.99)%Q /\
  (vector_search_similarity_score == 0.02)%Q /\
  (vector_search_similarity_score < cache_hit_similarity_score)%Q.
Proof.
  apply (chat_completion_cached_only_above_threshold Demo.nosql Demo.question
           Demo.warm "answer 4"
           (add_event QueryItems
              (add_event (EmbeddingsCreate Demo.question) Demo.warm))).
  reflexivity.
Defined.

Lemma chat_completion_embedding_error_witness :
  exists w',
    chat_completion Demo.nosql cache_container movies_container "" Demo.warm =
      (Raise EmbeddingError, w') /\
    cache_db w' = cache_db Demo.warm /\
    movies_db w' = movies_db Demo.warm /\
    trace w' = EmbeddingsCreate "" :: trace Demo.warm /\
    completion_calls (trace w') = completion_calls (trace Demo.warm).
Proof.
  apply (chat_completion_embedding_error Demo.nosql "" Demo.warm
           EmbeddingError).
  reflexivity.
Defined.
End NoSQLFacts.

(** * The Mongo vCore notebook: what the functions do *)
Module MongoFacts.
Import Mongo.

Lemma oid_leb_total a b : oid_leb a b = true \/ oid_leb b a = true.
Proof.
  unfold oid_leb.
  destruct (Z.ltb_spec (oid_time a) (oid_time b)); [now left|].
  destruct (Z.ltb_spec (oid_time b) (oid_time a)); [now right|].
  destruct (Z.ltb_spec (oid_random a) (oid_random b)); [now left|].
  destruct (Z.ltb_spec (oid_random b) (oid_random a)); [now right|].
  rewrite !Z.leb_le. lia.
Qed.

Lemma oid_leb_trans a b c :
  oid_leb a b = true -> oid_leb b c = true -> oid_leb a c = true.
Proof.
  unfold oid_leb.
  destruct (Z.ltb_spec (oid_time a) (oid_time b));
  destruct (Z.ltb_spec (oid_time b) (oid_time a));
  destruct (Z.ltb_spec (oid_time b) (oid_time c));
  destruct (Z.ltb_spec (oid_time c) (oid_time b));
  destruct (Z.ltb_spec (oid_time a) (oid_time c));
  destruct (Z.ltb_spec (oid_time c) (oid_time a));
  try lia; try discriminate; try reflexivity;
  destruct (Z.ltb_spec (oid_random a) (oid_random b));
  destruct (Z.ltb_spec (oid_random b) (oid_random a));
  destruct (Z.ltb_spec (oid_random b) (oid_random c));
  destruct (Z.ltb_spec (oid_random c) (oid_random b));
  destruct (Z.ltb_spec (oid_random a) (oid_random c));
  destruct (Z.ltb_spec (oid_random c) (oid_random a));
  try lia; try discriminate; try reflexivity;
  rewrite !Z.leb_le; lia.
Qed.

(** An older object id is a smaller one. *)
Lemma oid_leb_time a b : oid_leb a b = true -> (oid_time a <= oid_time b)%Z.
Proof.
  unfold oid_leb.
  destruct (Z.ltb_spec (oid_time a) (oid_time b)); [lia|].
  destruct (Z.ltb_spec (oid_time b) (oid_time a)); [discriminate|lia].
Qed.

Lemma limit_length {A} n (l : list A) :
  (0 < n)%nat -> (List.length (limit n l) <= n)%nat.
Proof.
  destruct n; [lia|]. intros _. apply firstn_le_length.
Qed.

Lemma limit_split {A} n (l : list A) : exists rest, limit n l ++ rest = l.
Proof.
  destruct n.
  - exists []. apply app_nil_r.
  - exists (skipn (S n) l). apply firstn_skipn.
Qed.

Lemma sorted_app_l {A} (R : A -> A -> Prop) l r :
  StronglySorted R (l ++ r) -> StronglySorted R l.
Proof.
  induction l as [|x l IH]; simpl; intros H; [constructor|].
  inversion H as [|? ? Hs Hall]; subst. constructor; [auto|].
  rewrite Forall_forall in *. intros z Hz. apply Hall, in_or_app. now left.
Qed.

Section Facts.
Variable svc : services.

Lemma mongo_generate_embeddings_run text w :
  generate_embeddings svc text w =
  (match embeddings_create svc (List.length (trace w)) text with
   | Ok (d :: _) => Ok d
   | Ok [] => Raise IndexError
   | Raise e => Raise e
   end,
   add_event (EmbeddingsCreate text) w).
Proof.
  unfold generate_embeddings, bind, now, log, modify, lift, first.
  destruct (embeddings_create svc (List.length (trace w)) text) as [[|d ds]|e];
    reflexivity.
Qed.

Lemma mongo_vector_search_run query num_results w :
  vector_search svc query num_results w =
  (if mongo_read_ok svc (List.length (trace w))
   then Ok (vector_search_pipeline svc query num_results (collection w))
   else Raise StoreQueryError,
   add_event CollectionAggregate w).
Proof.
  unfold vector_search, bind, now, log, modify, get.
  destruct (mongo_read_ok svc (List.length (trace w))); reflexivity.
Qed.

Lemma get_conversation_history_run completions w :
  get_conversation_history svc completions w =
  (if mongo_read_ok svc (List.length (trace w))
   then Ok (get_conversation_history_query completions (cache w))
   else Raise StoreQueryError,
   add_event CacheFind w).
Proof.
  unfold get_conversation_history, bind, now, log, modify, get.
  destruct (mongo_read_ok svc (List.length (trace w))); reflexivity.
Qed.

(** *** The history window *)

Lemma get_conversation_history_window completions w :
  (0 < completions)%nat ->
  mongo_read_ok svc (List.length (trace w)) = true ->
  exists rows w',
    get_conversation_history svc completions w = (Ok rows, w') /\
    (List.length rows <= completions)%nat /\
    StronglySorted (fun a b => oid_leb (h_id b) (h_id a) = true) rows /\
    StronglySorted
      (fun a b => (oid_time (h_id b) <= oid_time (h_id a))%Z) rows /\
    (forall r, In r rows ->
               exists d, In d (cache w) /\ h_id r = _id d /\
                         h_prompt r = prompt (doc d) /\
                         h_completion r = completion (doc d)).
Proof.
  intros Hn Hup. rewrite get_conversation_history_run, Hup.
  eexists _, _. split; [reflexivity|].
  unfold get_conversation_history_query.
  assert (Hs : StronglySorted (fun a b => oid_leb (_id b) (_id a) = true)
                 (limit completions (order_by_desc _id oid_leb (cache w)))).
  { destruct (limit_split completions (order_by_desc _id oid_leb (cache w)))
      as [rest Hrest].
    apply sorted_app_l with (r := rest). rewrite Hrest.
    apply order_by_desc_sorted; [apply oid_leb_total|apply oid_leb_trans]. }
  split; [rewrite length_map; apply limit_length, Hn|].
  split; [apply sorted_map; exact Hs|].
  split.
  - apply sorted_map. cbn [h_id].
    eapply sorted_weaken; [|exact Hs].
    intros a b. apply oid_leb_time.
  - intros r Hr. apply in_map_iff in Hr. destruct Hr as [d [<- Hd]].
    exists d. repeat split.
    destruct (limit_split completions (order_by_desc _id oid_leb (cache w)))
      as [rest Hrest].
    apply (order_by_desc_In _id oid_leb). rewrite <- Hrest.
    apply in_or_app. now left.
Qed.

(** With a window of 0 the cursor has no limit: every cached exchange
    comes back. *)
Lemma get_conversation_history_no_limit w :
  mongo_read_ok svc (List.length (trace w)) = true ->
  exists rows w',
    get_conversation_history svc 0 w = (Ok rows, w') /\
    List.length rows = List.length (cache w).
Proof.
  intros Hup. rewrite get_conversation_history_run, Hup.
  eexists _, _. split; [reflexivity|].
  unfold get_conversation_history_query, limit.
  rewrite length_map. symmetry.
  apply Permutation_length, order_by_desc_perm.
Qed.

(** *** The payload of [generate_completion] *)

Lemma mongo_generate_completion_messages_order user_prompt results history :
  generate_completion_messages user_prompt results history =
  [{| OpenAI.role := "system"; OpenAI.content := system_prompt |}]
  ++ map (fun item =>
            {| OpenAI.role := "system";
               OpenAI.content := h_prompt item ++ " " ++ h_completion item |})
       history
  ++ [{| OpenAI.role := "user"; OpenAI.content := user_prompt |}]
  ++ map (fun item =>
            {| OpenAI.role := "system";
               OpenAI.content := content (document item) |})
       results.
Proof.
  unfold generate_completion_messages.
  rewrite !fold_left_append, <- !app_assoc. reflexivity.
Qed.

Lemma mongo_generate_completion_run results user_prompt w :
  generate_completion svc results user_prompt w =
  if mongo_read_ok svc (List.length (trace w))
  then
    let messages :=
      generate_completion_messages user_prompt results
        (get_conversation_history_query 3 (cache w)) in
    (chat_completions_create svc (S (List.length (trace w))) messages,
     add_event (ChatCompletionsCreate messages) (add_event CacheFind w))
  else (Raise StoreQueryError, add_event CacheFind w).
Proof.
  unfold generate_completion.
  rewrite bind_run, get_conversation_history_run.
  destruct (mongo_read_ok svc (List.length (trace w))); [|reflexivity].
  unfold bind, now, log, modify. cbn. apply lift_run.
Qed.

(** *** [cache_generation] *)

Lemma cache_generation_run user_prompt user_embeddings response c cs w :
  OpenAI.choices response = c :: cs ->
  let chat :=
    {| prompt := user_prompt;
       completion := OpenAI.content (OpenAI.message_of c);
       completionTokens :=
         PyStr (str (OpenAI.completion_tokens (OpenAI.usage response)));
       promptTokens :=
         PyStr (str (OpenAI.prompt_tokens (OpenAI.usage response)));
       totalTokens :=
         PyStr (str (OpenAI.total_tokens (OpenAI.usage response)));
       model := OpenAI.model response;
       vectorContent := user_embeddings |} in
  cache_generation svc user_prompt user_embeddings response w =
  if mongo_write_ok svc (List.length (trace w))
  then (Ok tt,
        {| collection := collection w;
           cache :=
             cache w ++
             [{| _id := new_object_id svc (List.length (trace w));
                 doc := chat |}];
           trace := CacheInsertOne chat :: trace w;
           stdout := stdout w |})
  else (Raise CacheWriteError, add_event (CacheInsertOne chat) w).
Proof.
  intros Hc. cbn zeta.
  unfold cache_generation, insert_one, response_content, bind, now, log,
    modify, first, ret. rewrite Hc. cbn.
  destruct (mongo_write_ok svc (List.length (trace w))); reflexivity.
Qed.

Lemma cache_generation_tokens user_prompt user_embeddings response c cs w :
  OpenAI.choices response = c :: cs ->
  mongo_write_ok svc (List.length (trace w)) = true ->
  exists new w',
    cache_generation svc user_prompt user_embeddings response w =
      (Ok tt, w') /\
    cache w' = cache w ++ [new] /\
    completionTokens (doc new) =
      PyStr (str (OpenAI.completion_tokens (OpenAI.usage response))) /\
    promptTokens (doc new) =
      PyStr (str (OpenAI.prompt_tokens (OpenAI.usage response))) /\
    totalTokens (doc new) =
      PyStr (str (OpenAI.total_tokens (OpenAI.usage response))).
Proof.
  intros Hc Hup. rewrite (cache_generation_run _ _ _ _ _ _ Hc), Hup.
  eexists _, _. split; [reflexivity|]. cbn. repeat split; reflexivity.
Qed.

(** *** The interactive loop *)

Lemma print_run s w : print s w = (Ok tt, add_line s w).
Proof. reflexivity. Qed.

Lemma while_loop_eq user_input stdin :
  while_loop svc user_input stdin =
  if String.eqb (lower user_input) "end" then ret tt
  else
    (loop_body svc user_input ;;
     match stdin with
     | [] => raise EOFError
     | next_input :: stdin' => while_loop svc next_input stdin'
     end)%nb.
Proof. destruct stdin; reflexivity. Qed.

Section Healthy.
Hypothesis chat_answers :
  forall t messages, exists r c cs,
    chat_completions_create svc t messages = Ok r /\
    OpenAI.choices r = c :: cs.
Hypothesis reads_ok : forall t, mongo_read_ok svc t = true.
Hypothesis writes_ok : forall t, mongo_write_ok svc t = true.

Lemma loop_body_run user_input w user_embeddings ds r c cs :
  embeddings_create svc (List.length (trace w)) user_input =
    Ok (user_embeddings :: ds) ->
  chat_completions_create svc (3 + List.length (trace w))
    (generate_completion_messages user_input
       (vector_search_pipeline svc user_embeddings 3 (collection w))
       (get_conversation_history_query 3 (cache w))) = Ok r ->
  OpenAI.choices r = c :: cs ->
  let messages :=
    generate_completion_messages user_input
      (vector_search_pipeline svc user_embeddings 3 (collection w))
      (get_conversation_history_query 3 (cache w)) in
  let chat :=
    {| prompt := user_input;
       completion := OpenAI.content (OpenAI.message_of c);
       completionTokens :=
         PyStr (str (OpenAI.completion_tokens (OpenAI.usage r)));
       promptTokens := PyStr (str (OpenAI.prompt_tokens (OpenAI.usage r)));
       totalTokens := PyStr (str (OpenAI.total_tokens (OpenAI.usage r)));
       model := OpenAI.model r;
       vectorContent := user_embeddings |} in
  loop_body svc user_input w =
  (Ok tt,
   {| collection := collection w;
      cache :=
        cache w ++
        [{| _id := new_object_id svc (4 + List.length (trace w));
            doc := chat |}];
      trace :=
        CacheInsertOne chat :: ChatCompletionsCreate messages ::
        CacheFind :: CollectionAggregate :: EmbeddingsCreate user_input ::
        trace w;
      stdout :=
        (stdout w ++ [String "010"%char user_input])
        ++ [OpenAI.content (OpenAI.message_of c)] |}).
Proof.
  intros Hd Hr Hcs. cbn zeta. unfold loop_body.
  rewrite bind_run, mongo_generate_embeddings_run, Hd.
  rewrite bind_run, mongo_vector_search_run, reads_ok.
  rewrite bind_run, mongo_generate_completion_run, reads_ok. cbn zeta.
  cbn [add_event trace List.length collection cache].
  cbn [Nat.add] in Hr. rewrite Hr.
  rewrite bind_run, print_run.
  rewrite bind_run. unfold response_content at 1.
  rewrite bind_run, Hcs. cbn [first ret].
  rewrite bind_run, print_run.
  rewrite (cache_generation_run _ _ _ _ _ _ Hcs), writes_ok.
  reflexivity.
Qed.

(** C10. With the services answering, one pass of the loop body on a
    prompt makes exactly these remote calls, whatever the cache holds: the
    embedding, the aggregation over the data collection, the [find] that
    reads the cache as history, one chat completion and one insert.  The
    Completion Provider is invoked once and one entry with this prompt and
    its embedding is appended to the cache, also when the cache already
    holds that prompt. *)
Theorem loop_body_always_generates user_input w user_embeddings ds :
  embeddings_create svc (List.length (trace w)) user_input =
    Ok (user_embeddings :: ds) ->
  exists messages new w',
    loop_body svc user_input w = (Ok tt, w') /\
    generate_embeddings svc user_input w =
      (Ok user_embeddings, add_event (EmbeddingsCreate user_input) w) /\
    trace w' =
      CacheInsertOne (doc new) :: ChatCompletionsCreate messages ::
      CacheFind :: CollectionAggregate :: EmbeddingsCreate user_input ::
      trace w /\
    completion_calls (trace w') = S (completion_calls (trace w)) /\
    cache w' = cache w ++ [new] /\
    prompt (doc new) = user_input /\
    vectorContent (doc new) = user_embeddings /\
    collection w' = collection w.
Proof.
  intros Hd.
  destruct (chat_answers (3 + List.length (trace w))
              (generate_completion_messages user_input
                 (vector_search_pipeline svc user_embeddings 3 (collection w))
                 (get_conversation_history_query 3 (cache w))))
    as [r [c [cs [Hr Hcs]]]].
  pose proof (loop_body_run user_input w user_embeddings ds r c cs Hd Hr Hcs)
    as Hrun.
  cbn zeta in Hrun. rewrite Hrun.
  eexists _, _, _. split; [reflexivity|].
  rewrite mongo_generate_embeddings_run, Hd.
  cbn. repeat split; reflexivity.
Qed.

(** A whole session: every prompt before the first [end] is answered by a
    fresh generation and cached, repeated prompts included. *)
Lemma while_loop_generates_each qs last rest :
  Forall (fun q => lower q <> "end" /\
                   forall t, exists d ds,
                     embeddings_create svc t q = Ok (d :: ds)) qs ->
  lower last = "end" ->
  forall w,
    match qs ++ last :: rest with
    | [] => False
    | user_input :: stdin =>
        exists w',
          while_loop svc user_input stdin w = (Ok tt, w') /\
          completion_calls (trace w') =
            (completion_calls (trace w) + List.length qs)%nat /\
          map (fun d => prompt (doc d)) (cache w') =
            map (fun d => prompt (doc d)) (cache w) ++ qs
    end.
Proof.
  intros Hqs Hlast. induction Hqs as [|q qs [Hq He] _ IH]; intros w.
  - cbn [app]. rewrite while_loop_eq, Hlast. cbn.
    exists w. rewrite Nat.add_0_r, app_nil_r. repeat split; reflexivity.
  - cbn [app]. rewrite while_loop_eq.
    destruct (String.eqb_spec (lower q) "end") as [E|_]; [contradiction|].
    rewrite bind_run.
    destruct (He (List.length (trace w))) as [emb [ds Hemb]].
    destruct (chat_answers (3 + List.length (trace w))
                (generate_completion_messages q
                   (vector_search_pipeline svc emb 3 (collection w))
                   (get_conversation_history_query 3 (cache w))))
      as [r [c [cs [Hr Hcs]]]].
    pose proof (loop_body_run q w emb ds r c cs Hemb Hr Hcs) as Hrun.
    cbn zeta in Hrun. rewrite Hrun.
    destruct (qs ++ last :: rest) as [|x stdin]; [destruct (IH w)|].
    match goal with
    | |- exists w', while_loop svc x stdin ?w1 = _ /\ _ =>
        destruct (IH w1) as [w' [Hw [Hc Hm]]]
    end.
    exists w'. split; [exact Hw|]. split.
    + rewrite Hc. cbn. lia.
    + rewrite Hm. cbn [cache]. rewrite map_app, <- app_assoc. reflexivity.
Qed.

Lemma qa_session_generates_each qs last rest w :
  Forall (fun q => lower q <> "end" /\
                   forall t, exists d ds,
                     embeddings_create svc t q = Ok (d :: ds)) qs ->
  lower last = "end" ->
  exists w',
    qa_session svc (qs ++ last :: rest) w = (Ok tt, w') /\
    completion_calls (trace w') =
      (completion_calls (trace w) + List.length qs)%nat /\
    map (fun d => prompt (doc d)) (cache w') =
      map (fun d => prompt (doc d)) (cache w) ++ qs.
Proof.
  intros Hqs Hlast. unfold qa_session. rewrite bind_run, print_run.
  pose proof (while_loop_generates_each qs last rest Hqs Hlast
                (add_line banner w)) as H.
  destruct (qs ++ last :: rest) as [|x stdin]; [contradiction|].
  exact H.
Qed.
End Healthy.
End Facts.

(** *** The loop on the sample data: the question is asked a third time *)
Lemma loop_body_always_generates_witness :
  exists messages new w',
    loop_body Demo.mongo Demo.mongo_question Demo.mongo_warm = (Ok tt, w') /\
    generate_embeddings Demo.mongo Demo.mongo_question Demo.mongo_warm =
      (Ok (Demo.embed Demo.mongo_question),
       add_event (EmbeddingsCreate Demo.mongo_question) Demo.mongo_warm) /\
    trace w' =
      CacheInsertOne (doc new) :: ChatCompletionsCreate messages ::
      CacheFind :: CollectionAggregate ::
      EmbeddingsCreate Demo.mongo_question :: trace Demo.mongo_warm /\
    completion_calls (trace w') =
      S (completion_calls (trace Demo.mongo_warm)) /\
    cache w' = cache Demo.mongo_warm ++ [new] /\
    prompt (doc new) = Demo.mongo_question /\
    vectorContent (doc new) = Demo.embed Demo.mongo_question /\
    collection w' = collection Demo.mongo_warm.
Proof.
  apply (loop_body_always_generates Demo.mongo) with (ds := []).
  - intros t messages. eexists _, _, _. split; reflexivity.
  - intros t. reflexivity.
  - intros t. reflexivity.
  - reflexivity.
Defined.
End MongoFacts.

(** * Both notebooks *)

(** C5 (as the code has it). Every item written to either cache holds
    [promptTokens], [completionTokens] and [totalTokens] as strings: the
    decimal text [str n] of the count [n] the provider reported, from
    which [int] reads [n] back.  None of the three is stored as an
    integer. *)
Theorem token_counters_stored_as_text
    (nsvc : NoSQL.services) (msvc : Mongo.services)
    user_prompt vectors response c cs
    (w : NoSQL.world) (mw : Mongo.world) :
  OpenAI.choices response = c :: cs ->
  NoSQL.cosmos_create_ok nsvc (List.length (NoSQL.trace w)) = true ->
  Mongo.mongo_write_ok msvc (List.length (Mongo.trace mw)) = true ->
  let completion_tokens := OpenAI.completion_tokens (OpenAI.usage response) in
  let prompt_tokens := OpenAI.prompt_tokens (OpenAI.usage response) in
  let total_tokens := OpenAI.total_tokens (OpenAI.usage response) in
  (exists new w',
      NoSQL.cache_response nsvc NoSQL.cache_container user_prompt vectors
        response w = (Ok tt, w') /\
      NoSQL.cache_db w' = NoSQL.cache_db w ++ [new] /\
      NoSQL.completionTokens (NoSQL.body new) = PyStr (str completion_tokens) /\
      NoSQL.promptTokens (NoSQL.body new) = PyStr (str prompt_tokens) /\
      NoSQL.totalTokens (NoSQL.body new) = PyStr (str total_tokens)) /\
  (exists new mw',
      Mongo.cache_generation msvc user_prompt vectors response mw =
        (Ok tt, mw') /\
      Mongo.cache mw' = Mongo.cache mw ++ [new] /\
      Mongo.completionTokens (Mongo.doc new) = PyStr (str completion_tokens) /\
      Mongo.promptTokens (Mongo.doc new) = PyStr (str prompt_tokens) /\
      Mongo.totalTokens (Mongo.doc new) = PyStr (str total_tokens)) /\
  int (str completion_tokens) = Some completion_tokens /\
  int (str prompt_tokens) = Some prompt_tokens /\
  int (str total_tokens) = Some total_tokens /\
  is_nonneg_int (PyStr (str completion_tokens)) = false /\
  is_nonneg_int (PyStr (str prompt_tokens)) = false /\
  is_nonneg_int (PyStr (str total_tokens)) = false.
Proof.
  intros Hc Hn Hm. cbn zeta.
  split; [exact (NoSQLFacts.cache_response_tokens nsvc _ _ _ _ _ _ Hc Hn)|].
  split; [exact (MongoFacts.cache_generation_tokens msvc _ _ _ _ _ _ Hc Hm)|].
  rewrite !int_str. repeat split; reflexivity.
Qed.

Lemma token_counters_stored_as_text_witness :
  (exists new w',
      NoSQL.cache_response Demo.nosql NoSQL.cache_container Demo.question
        (Demo.embed Demo.question)
        Demo.short_answer Demo.cold = (Ok tt, w') /\
      NoSQL.cache_db w' = NoSQL.cache_db Demo.cold ++ [new] /\
      NoSQL.completionTokens (NoSQL.body new) = PyStr (str 3) /\
      NoSQL.promptTokens (NoSQL.body new) = PyStr (str 120) /\
      NoSQL.totalTokens (NoSQL.body new) = PyStr (str 123)) /\
  (exists new mw',
      Mongo.cache_generation Demo.mongo Demo.question
        (Demo.embed Demo.question)
        Demo.short_answer Demo.mongo_cold = (Ok tt, mw') /\
      Mongo.cache mw' = Mongo.cache Demo.mongo_cold ++ [new] /\
      Mongo.completionTokens (Mongo.doc new) = PyStr (str 3) /\
      Mongo.promptTokens (Mongo.doc new) = PyStr (str 120) /\
      Mongo.totalTokens (Mongo.doc new) = PyStr (str 123)) /\
  int (str 3) = Some 3%Z /\
  int (str 120) = Some 120%Z /\
  int (str 123) = Some 123%Z /\
  is_nonneg_int (PyStr (str 3)) = false /\
  is_nonneg_int (PyStr (str 120)) = false /\
  is_nonneg_int (PyStr (str 123)) = false.
Proof.
  exact (token_counters_stored_as_text Demo.nosql Demo.mongo Demo.question
           (Demo.embed Demo.question) Demo.short_answer
           {| OpenAI.message_of :=
                {| OpenAI.role := "assistant";
                   OpenAI.content := "Interstellar." |} |}
           [] Demo.cold Demo.mongo_cold eq_refl eq_refl eq_refl).
Defined.

(** C5 (as the claim has it) fails: the item the NoSQL pipeline cached for
    the sample question, and the two the Mongo session cached, hold the
    three counters as the strings 40, 12 and 52, not as integers. *)
Lemma cached_token_counters_are_strings :
  map (fun c => (NoSQL.promptTokens (NoSQL.body c),
                 NoSQL.completionTokens (NoSQL.body c),
                 NoSQL.totalTokens (NoSQL.body c)))
    (NoSQL.cache_db Demo.warm) = [(PyStr "40", PyStr "12", PyStr "52")] /\
  map (fun c => (Mongo.promptTokens (Mongo.doc c),
                 Mongo.completionTokens (Mongo.doc c),
                 Mongo.totalTokens (Mongo.doc c)))
    (Mongo.cache Demo.mongo_warm) =
    [(PyStr "40", PyStr "12", PyStr "52");
     (PyStr "40", PyStr "12", PyStr "52")] /\
  ~ (forall c, In c (NoSQL.cache_db Demo.warm) ->
               is_nonneg_int (NoSQL.promptTokens (NoSQL.body c)) = true /\
               is_nonneg_int (NoSQL.completionTokens (NoSQL.body c)) = true /\
               is_nonneg_int (NoSQL.totalTokens (NoSQL.body c)) = true).
Proof.
  split; [reflexivity|]. split; [reflexivity|].
  intros H. destruct (H Demo.asked) as [H1 _]; [left; reflexivity|].
  discriminate H1.
Qed.

(** C7. [generate_completion] sends the Completion Provider the system
    prompt, then one message for each history entry in order, then the
    user prompt, then one message for each search result in order; this is
    the payload of the one chat call it makes, in both notebooks.  (The
    Mongo function reads the history itself, so its cache read has to
    succeed.) *)
Theorem generate_completion_message_order
    (nsvc : NoSQL.services) (msvc : Mongo.services) user_prompt
    (search_results : list NoSQL.formatted_result)
    (chat_history : list NoSQL.cache_item)
    (vector_search_results : list Mongo.search_hit)
    (w : NoSQL.world) (mw : Mongo.world) :
  Mongo.mongo_read_ok msvc (List.length (Mongo.trace mw)) = true ->
  let messages :=
    [{| OpenAI.role := "system"; OpenAI.content := NoSQL.system_prompt |}]
    ++ map (fun chat =>
              {| OpenAI.role := "user";
                 OpenAI.content :=
                   NoSQL.prompt (NoSQL.body chat) ++ " "
                   ++ NoSQL.completion (NoSQL.body chat) |})
         chat_history
    ++ [{| OpenAI.role := "user"; OpenAI.content := user_prompt |}]
    ++ map (fun result =>
              {| OpenAI.role := "system";
                 OpenAI.content :=
                   NoSQL.json_dumps nsvc (NoSQL.document_of result) |})
         search_results in
  let mongo_messages :=
    [{| OpenAI.role := "system"; OpenAI.content := Mongo.system_prompt |}]
    ++ map (fun item =>
              {| OpenAI.role := "system";
                 OpenAI.content :=
                   Mongo.h_prompt item ++ " " ++ Mongo.h_completion item |})
         (Mongo.get_conversation_history_query 3 (Mongo.cache mw))
    ++ [{| OpenAI.role := "user"; OpenAI.content := user_prompt |}]
    ++ map (fun item =>
              {| OpenAI.role := "system";
                 OpenAI.content := Mongo.content (Mongo.document item) |})
         vector_search_results in
  (exists r w',
      NoSQL.generate_completion nsvc user_prompt search_results chat_history w
        = (r, w') /\
      NoSQL.trace w' = NoSQL.ChatCompletionsCreate messages :: NoSQL.trace w /\
      r = NoSQL.chat_completions_create nsvc (List.length (NoSQL.trace w))
            messages) /\
  (exists r mw',
      Mongo.generate_completion msvc vector_search_results user_prompt mw
        = (r, mw') /\
      Mongo.trace mw' =
        Mongo.ChatCompletionsCreate mongo_messages :: Mongo.CacheFind ::
        Mongo.trace mw /\
      r = Mongo.chat_completions_create msvc
            (S (List.length (Mongo.trace mw))) mongo_messages).
Proof.
  intros Hup. cbn zeta. split.
  - rewrite NoSQLFacts.generate_completion_run,
      NoSQLFacts.generate_completion_messages_order.
    eexists _, _. split; [reflexivity|]. split; reflexivity.
  - rewrite MongoFacts.mongo_generate_completion_run, Hup. cbn zeta.
    rewrite MongoFacts.mongo_generate_completion_messages_order.
    eexists _, _. split; [reflexivity|]. split; reflexivity.
Qed.

Lemma generate_completion_message_order_witness :
  let user_prompt := Demo.mongo_question in
  let search_results :=
    [{| NoSQL.SimilarityScore := 1;
        NoSQL.document_of :=
          {| NoSQL.doc_overview := "A crew crosses a wormhole." |} |}] in
  let vector_search_results :=
    [{| Mongo.similarityScore := 1;
        Mongo.document :=
          {| Mongo.content := "Azure Cosmos DB is a NoSQL database.";
             Mongo.contentVector := [30%Q] |} |}] in
  (exists r w',
      NoSQL.generate_completion Demo.nosql user_prompt search_results
        [Demo.asked] Demo.warm = (r, w') /\
      NoSQL.trace w' =
        NoSQL.ChatCompletionsCreate
          [{| OpenAI.role := "system"; OpenAI.content := NoSQL.system_prompt |};
           {| OpenAI.role := "user";
              OpenAI.content := "What is a good space movie? answer 4" |};
           {| OpenAI.role := "user"; OpenAI.content := user_prompt |};
           {| OpenAI.role := "system";
              OpenAI.content := "A crew crosses a wormhole." |}]
        :: NoSQL.trace Demo.warm /\
      r = Demo.answer 6
            [{| OpenAI.role := "system"; OpenAI.content := NoSQL.system_prompt |};
             {| OpenAI.role := "user";
                OpenAI.content := "What is a good space movie? answer 4" |};
             {| OpenAI.role := "user"; OpenAI.content := user_prompt |};
             {| OpenAI.role := "system";
                OpenAI.content := "A crew crosses a wormhole." |}]) /\
  (exists r mw',
      Mongo.generate_completion Demo.mongo vector_search_results user_prompt
        Demo.mongo_warm = (r, mw') /\
      Mongo.trace mw' =
        Mongo.ChatCompletionsCreate
          [{| OpenAI.role := "system"; OpenAI.content := Mongo.system_prompt |};
           {| OpenAI.role := "system";
              OpenAI.content := "what is a good nosql database? answer 8" |};
           {| OpenAI.role := "system";
              OpenAI.content := "what is a good nosql database? answer 3" |};
           {| OpenAI.role := "user"; OpenAI.content := user_prompt |};
           {| OpenAI.role := "system";
              OpenAI.content := "Azure Cosmos DB is a NoSQL database." |}]
        :: Mongo.CacheFind :: Mongo.trace Demo.mongo_warm /\
      r = Demo.answer 11
            [{| OpenAI.role := "system"; OpenAI.content := Mongo.system_prompt |};
             {| OpenAI.role := "system";
                OpenAI.content := "what is a good nosql database? answer 8" |};
             {| OpenAI.role := "system";
                OpenAI.content := "what is a good nosql database? answer 3" |};
             {| OpenAI.role := "user"; OpenAI.content := user_prompt |};
             {| OpenAI.role := "system";
                OpenAI.content := "Azure Cosmos DB is a NoSQL database." |}]).
Proof.
  exact (generate_completion_message_order Demo.nosql Demo.mongo
           Demo.mongo_question _ [Demo.asked] _ Demo.warm Demo.mongo_warm
           eq_refl).
Defined.

(** C8 (as the code has it). For every positive window size (both
    notebooks pass 3), with the cache read succeeding: [get_chat_history]
    returns at most [completions] items, the head of the cache sorted by
    [_ts], newest first; [get_conversation_history] returns at most
    [completions] rows, sorted by [_id] and so by creation time, newest
    first, each the projection of a cached exchange.  Creation times never
    increase along the list; they need not decrease. *)
Theorem history_window_newest_first
    (nsvc : NoSQL.services) (msvc : Mongo.services) (completions : nat)
    (w : NoSQL.world) (mw : Mongo.world) :
  (0 < completions)%nat ->
  NoSQL.cosmos_query_ok nsvc (List.length (NoSQL.trace w)) = true ->
  Mongo.mongo_read_ok msvc (List.length (Mongo.trace mw)) = true ->
  (exists rows rest w',
      NoSQL.get_chat_history nsvc NoSQL.cache_container completions w =
        (Ok rows, w') /\
      (List.length rows <= completions)%nat /\
      StronglySorted (fun a b => (NoSQL._ts b <= NoSQL._ts a)%Z)
        (rows ++ rest) /\
      Permutation (rows ++ rest) (NoSQL.cache_db w)) /\
  (exists rows mw',
      Mongo.get_conversation_history msvc completions mw = (Ok rows, mw') /\
      (List.length rows <= completions)%nat /\
      StronglySorted
        (fun a b => Mongo.oid_leb (Mongo.h_id b) (Mongo.h_id a) = true)
        rows /\
      StronglySorted
        (fun a b => (Mongo.oid_time (Mongo.h_id b)
                     <= Mongo.oid_time (Mongo.h_id a))%Z) rows /\
      (forall r, In r rows ->
                 exists d, In d (Mongo.cache mw) /\
                           Mongo.h_id r = Mongo._id d /\
                           Mongo.h_prompt r = Mongo.prompt (Mongo.doc d) /\
                           Mongo.h_completion r =
                             Mongo.completion (Mongo.doc d))).
Proof.
  intros Hpos Hn Hm. split.
  - apply NoSQLFacts.get_chat_history_window, Hn.
  - apply MongoFacts.get_conversation_history_window; assumption.
Qed.

Lemma history_window_newest_first_witness :
  (exists rows rest w',
      NoSQL.get_chat_history Demo.nosql NoSQL.cache_container 3 Demo.warm =
        (Ok rows, w') /\
      (List.length rows <= 3)%nat /\
      StronglySorted (fun a b => (NoSQL._ts b <= NoSQL._ts a)%Z)
        (rows ++ rest) /\
      Permutation (rows ++ rest) (NoSQL.cache_db Demo.warm)) /\
  (exists rows mw',
      Mongo.get_conversation_history Demo.mongo 3 Demo.mongo_warm =
        (Ok rows, mw') /\
      (List.length rows <= 3)%nat /\
      StronglySorted
        (fun a b => Mongo.oid_leb (Mongo.h_id b) (Mongo.h_id a) = true)
        rows /\
      StronglySorted
        (fun a b => (Mongo.oid_time (Mongo.h_id b)
                     <= Mongo.oid_time (Mongo.h_id a))%Z) rows /\
      (forall r, In r rows ->
                 exists d, In d (Mongo.cache Demo.mongo_warm) /\
                           Mongo.h_id r = Mongo._id d /\
                           Mongo.h_prompt r = Mongo.prompt (Mongo.doc d) /\
                           Mongo.h_completion r =
                             Mongo.completion (Mongo.doc d))).
Proof.
  apply (history_window_newest_first Demo.nosql Demo.mongo 3 Demo.warm
           Demo.mongo_warm).
  - lia.
  - reflexivity.
  - reflexivity.
Defined.

(** C8 (as the claim has it) fails for the window of 3 that both notebooks
    pass.  Creation times are whole seconds: two exchanges cached within
    the same second come back with equal creation times, so the history
    does not descend strictly, in either notebook. *)
Lemma history_same_second_not_strict :
  (exists a b w',
      NoSQL.get_chat_history DemoMore.nosql_fast NoSQL.cache_container 3
        DemoMore.asked_within_a_second = (Ok [a; b], w') /\
      NoSQL.prompt (NoSQL.body a) <> NoSQL.prompt (NoSQL.body b) /\
      NoSQL._ts a = NoSQL._ts b /\
      ~ StronglySorted (fun x y => (NoSQL._ts y < NoSQL._ts x)%Z) [a; b]) /\
  (exists a b mw',
      Mongo.get_conversation_history DemoMore.mongo_fast 3
        DemoMore.mongo_asked_within_a_second = (Ok [a; b], mw') /\
      Mongo.h_prompt a <> Mongo.h_prompt b /\
      Mongo.oid_time (Mongo.h_id a) = Mongo.oid_time (Mongo.h_id b) /\
      ~ StronglySorted
          (fun x y => (Mongo.oid_time (Mongo.h_id y)
                       < Mongo.oid_time (Mongo.h_id x))%Z) [a; b]).
Proof.
  split.
  - eexists _, _, _. split; [vm_compute; reflexivity|].
    split; [discriminate|]. split; [reflexivity|].
    intros H. apply StronglySorted_inv in H. destruct H as [_ H].
    apply Forall_inv in H. vm_compute in H. discriminate.
  - eexists _, _, _. split; [vm_compute; reflexivity|].
    split; [discriminate|]. split; [reflexivity|].
    intros H. apply StronglySorted_inv in H. destruct H as [_ H].
    apply Forall_inv in H. vm_compute in H. discriminate.
Qed.

(** * The NoSQL notebook: further properties *)
Module NoSQLMore.
Import NoSQL NoSQLItems.

Section Facts.
Variable svc : services.

(** Every way a run of the pipeline can go. *)
Lemma chat_completion_unfold user_input w :
  let n := List.length (trace w) in
  let w1 := add_event (EmbeddingsCreate user_input) w in
  let w2 := add_event QueryItems w1 in
  let w3 := add_event QueryItems w2 in
  let w4 := add_event QueryItems w3 in
  chat_completion svc cache_container movies_container user_input w =
  match embeddings_create svc n user_input with
  | Raise e => (Raise e, w1)
  | Ok [] => (Raise IndexError, w1)
  | Ok (user_embeddings :: _) =>
      if negb (cosmos_query_ok svc (1 + n)) then (Raise StoreQueryError, w2)
      else
        match get_cache_query svc user_embeddings cache_hit_similarity_score 1
                (cache_db w) with
        | hit :: _ => (Ok (completion (body hit), true), w2)
        | [] =>
            if negb (cosmos_query_ok svc (2 + n))
            then (Raise StoreQueryError, w3)
            else if negb (cosmos_query_ok svc (3 + n))
            then (Raise StoreQueryError, w4)
            else
              let messages :=
                generate_completion_messages svc user_input
                  (map (format_result)
                     (vector_search_query svc user_embeddings
                        vector_search_similarity_score
                        vector_search_num_results (movies_db w)))
                  (get_chat_history_query 3 (cache_db w)) in
              let w5 := add_event (ChatCompletionsCreate messages) w4 in
              match chat_completions_create svc (4 + n) messages with
              | Raise e => (Raise e, w5)
              | Ok r =>
                  match OpenAI.choices r with
                  | [] => (Raise IndexError, w5)
                  | c :: _ =>
                      let new := new_item svc (5 + n) user_input
                                   user_embeddings r c in
                      if cosmos_create_ok svc (5 + n)
                      then (Ok (OpenAI.content (OpenAI.message_of c), false),
                            {| movies_db := movies_db w;
                               cache_db := cache_db w ++ [new];
                               trace := CreateItem (body new) :: trace w5 |})
                      else (Raise CacheWriteError,
                            add_event (CreateItem (body new)) w5)
                  end
              end
        end
  end.
Proof.
  cbn zeta.
  rewrite NoSQLFacts.chat_completion_run, NoSQLFacts.generate_embeddings_run.
  destruct (embeddings_create svc (List.length (trace w)) user_input)
    as [[|emb ds]|e]; try reflexivity.
  unfold get_cache. rewrite NoSQLFacts.query_items_run.
  cbn [add_event trace List.length Nat.add].
  destruct (cosmos_query_ok svc (S (List.length (trace w)))); [|reflexivity].
  cbn [negb items cache_container add_event cache_db].
  destruct (get_cache_query svc emb cache_hit_similarity_score 1 (cache_db w))
    as [|hit rest]; [|reflexivity].
  rewrite bind_run, NoSQLFacts.vector_search_run.
  cbn [add_event trace List.length].
  destruct (cosmos_query_ok svc (S (S (List.length (trace w)))));
    [|reflexivity].
  rewrite bind_run. unfold get_chat_history.
  rewrite NoSQLFacts.query_items_run.
  cbn [add_event trace List.length].
  destruct (cosmos_query_ok svc (S (S (S (List.length (trace w))))));
    [|reflexivity].
  cbn [negb items cache_container movies_container add_event cache_db
         movies_db].
  rewrite bind_run, NoSQLFacts.generate_completion_run.
  cbn [add_event trace List.length].
  destruct (chat_completions_create svc _ _) as [r|e]; [|reflexivity].
  rewrite bind_run.
  destruct (OpenAI.choices r) as [|c cs] eqn:Hc.
  - unfold cache_response, response_content, bind, now, first, raise.
    rewrite Hc. reflexivity.
  - rewrite (NoSQLFacts.cache_response_run svc _ _ _ _ _ _ Hc).
    cbn [add_event trace List.length].
    destruct (cosmos_create_ok svc _); [|reflexivity].
    rewrite bind_run. unfold response_content at 1.
    rewrite bind_run, Hc. reflexivity.
Qed.

Ltac split_pipeline :=
  repeat
    (cbn [negb Nat.add fst snd];
     match goal with
     | |- context [embeddings_create ?s ?t ?q] =>
         destruct (embeddings_create s t q) as [[|? ?]|?] eqn:?
     | |- context [if negb (cosmos_query_ok ?s ?t) then _ else _] =>
         destruct (cosmos_query_ok s t) eqn:?
     | |- context [match get_cache_query ?s ?v ?th ?n ?c with _ => _ end] =>
         destruct (get_cache_query s v th n c) eqn:?
     | |- context [match chat_completions_create ?s ?t ?m with _ => _ end] =>
         destruct (chat_completions_create s t m) eqn:?
     | |- context [match OpenAI.choices ?r with _ => _ end] =>
         destruct (OpenAI.choices r) eqn:?
     | |- context [if cosmos_create_ok ?s ?t then _ else _] =>
         destruct (cosmos_create_ok s t) eqn:?
     end).

Lemma sorted_app_cross {A} (R : A -> A -> Prop) l r a b :
  StronglySorted R (l ++ r) -> In a l -> In b r -> R a b.
Proof.
  induction l as [|x l IH]; simpl; intros H Ha Hb; [contradiction|].
  inversion H as [|? ? Hs Hall]; subst.
  destruct Ha as [<-|Ha].
  - rewrite Forall_forall in Hall. apply Hall, in_or_app. now right.
  - now apply IH.
Qed.

Lemma In_firstn_or_skipn {A} (x : A) n l :
  In x l -> In x (firstn n l) \/ In x (skipn n l).
Proof.
  intros H. rewrite <- (firstn_skipn n l) in H. now apply in_app_or.
Qed.

(** *** What the vector queries return *)

(** X1. [get_cache] on a readable cache returns at most [num_results]
    items, each a stored item scoring above the threshold.  An empty cache
    gives the empty list, not an error, and the read changes nothing. *)
Theorem get_cache_returns_stored_matches vectors similarity_score num_results w :
  cosmos_query_ok svc (List.length (trace w)) = true ->
  exists hits w',
    get_cache svc cache_container vectors similarity_score num_results w =
      (Ok hits, w') /\
    (List.length hits <= num_results)%nat /\
    (forall h, In h hits ->
               In h (cache_db w) /\
               (similarity_score < score svc vectors h)%Q) /\
    (cache_db w = [] -> hits = []) /\
    cache_db w' = cache_db w /\ movies_db w' = movies_db w.
Proof.
  intros Hup. unfold get_cache. rewrite NoSQLFacts.query_items_run, Hup.
  cbn [items cache_container add_event cache_db].
  eexists _, _. split; [reflexivity|].
  unfold get_cache_query.
  set (kept := filter _ (cache_db w)).
  split; [apply firstn_le_length|]. split; [|split].
  - intros h Hh. apply In_firstn in Hh.
    apply (proj1 (order_by_desc_In (score svc vectors) Qle_bool h kept)) in Hh.
    apply filter_In in Hh. destruct Hh as [H1 H2].
    split; [exact H1|apply Qltb_lt, H2].
  - intros E. subst kept. rewrite E. cbn. apply firstn_nil.
  - split; reflexivity.
Qed.

(** X2. [vector_search] on a readable container returns at most
    [num_results] rows; each row carries the overview of a stored movie
    and its similarity to the query, which is above the threshold.  The
    search changes nothing. *)
Theorem vector_search_rows_from_store vectors similarity_score num_results w :
  cosmos_query_ok svc (List.length (trace w)) = true ->
  exists rows w',
    vector_search svc movies_container vectors similarity_score num_results w
      = (Ok rows, w') /\
    (List.length rows <= num_results)%nat /\
    (forall r, In r rows ->
               (similarity_score < SimilarityScore r)%Q /\
               exists d, In d (movies_db w) /\
                         doc_overview (document_of r) = overview d /\
                         SimilarityScore r =
                           VectorDistance svc (movie_vector d) vectors) /\
    cache_db w' = cache_db w /\ movies_db w' = movies_db w.
Proof.
  intros Hup. rewrite NoSQLFacts.vector_search_run, Hup.
  cbn [items movies_container add_event movies_db].
  eexists _, _. split; [reflexivity|].
  unfold vector_search_query. rewrite map_map.
  set (key := fun d => VectorDistance svc (movie_vector d) vectors).
  set (kept := filter _ (movies_db w)).
  split; [rewrite length_map; apply firstn_le_length|].
  split.
  - intros r Hr. apply in_map_iff in Hr. destruct Hr as [d [<- Hd]].
    apply In_firstn in Hd.
    apply (proj1 (order_by_desc_In key Qle_bool d kept)) in Hd.
    apply filter_In in Hd. destruct Hd as [H1 H2].
    split; [apply Qltb_lt, H2|]. exists d. repeat split. exact H1.
  - split; reflexivity.
Qed.

(** X24. Neither vector query passes over a better match: a stored item
    above the threshold that [get_cache] or [vector_search] does not
    return scores no higher than any item it does return. *)
Theorem vector_queries_keep_the_best vectors similarity_score num_results w :
  cosmos_query_ok svc (List.length (trace w)) = true ->
  (exists hits w',
      get_cache svc cache_container vectors similarity_score num_results w =
        (Ok hits, w') /\
      forall d, In d (cache_db w) ->
                (similarity_score < score svc vectors d)%Q ->
                In d hits \/
                forall h, In h hits ->
                          (score svc vectors d <= score svc vectors h)%Q) /\
  (exists rows w',
      vector_search svc movies_container vectors similarity_score
        num_results w = (Ok rows, w') /\
      forall d, In d (movies_db w) ->
                (similarity_score
                 < VectorDistance svc (movie_vector d) vectors)%Q ->
                In {| SimilarityScore :=
                        VectorDistance svc (movie_vector d) vectors;
                      document_of := {| doc_overview := overview d |} |} rows
                \/
                forall r, In r rows ->
                          (VectorDistance svc (movie_vector d) vectors
                           <= SimilarityScore r)%Q).
Proof.
  intros Hup. split.
  - unfold get_cache. rewrite NoSQLFacts.query_items_run, Hup.
    cbn [items cache_container add_event cache_db].
    eexists _, _. split; [reflexivity|].
    unfold get_cache_query.
    set (kept := filter _ (cache_db w)).
    set (sorted := order_by_desc (score svc vectors) Qle_bool kept).
    assert (Hs : StronglySorted (desc (score svc vectors) Qle_bool) sorted)
      by (apply order_by_desc_sorted;
          [apply Qle_bool_total|apply Qle_bool_trans]).
    intros d Hd Hlt.
    assert (Hk : In d sorted).
    { apply (proj2 (order_by_desc_In (score svc vectors) Qle_bool d kept)).
      apply filter_In. split; [exact Hd|apply Qltb_lt, Hlt]. }
    destruct (In_firstn_or_skipn d num_results sorted Hk) as [H|H];
      [now left|right].
    intros h Hh. apply Qle_bool_iff.
    rewrite <- (firstn_skipn num_results sorted) in Hs.
    exact (sorted_app_cross _ _ _ _ _ Hs Hh H).
  - rewrite NoSQLFacts.vector_search_run, Hup.
    cbn [items movies_container add_event movies_db].
    eexists _, _. split; [reflexivity|].
    unfold vector_search_query. rewrite map_map.
    set (key := fun d => VectorDistance svc (movie_vector d) vectors).
    set (kept := filter _ (movies_db w)).
    set (sorted := order_by_desc key Qle_bool kept).
    assert (Hs : StronglySorted (desc key Qle_bool) sorted)
      by (apply order_by_desc_sorted;
          [apply Qle_bool_total|apply Qle_bool_trans]).
    intros d Hd Hlt.
    assert (Hk : In d sorted).
    { apply (proj2 (order_by_desc_In key Qle_bool d kept)).
      apply filter_In. split; [exact Hd|apply Qltb_lt, Hlt]. }
    destruct (In_firstn_or_skipn d num_results sorted Hk) as [H|H].
    + left. apply in_map_iff. exists d. split; [reflexivity|exact H].
    + right. intros r Hr. apply in_map_iff in Hr.
      destruct Hr as [h [<- Hh]]. cbn [format_result SimilarityScore row_score].
      apply Qle_bool_iff.
      rewrite <- (firstn_skipn num_results sorted) in Hs.
      exact (sorted_app_cross _ _ _ _ _ Hs Hh H).
Qed.

(** *** What a run of the pipeline leaves behind *)

(** X3. [chat_completion] never changes the movies container and changes
    the cache only by appending: one item, holding the prompt, its
    embedding and the returned text, exactly when it returns a text with
    the cached flag [False]; that run invoked the Completion Provider once.
    A cached answer and every failure leave the cache as it was, and a
    cached answer is given without invoking the Completion Provider. *)
Theorem chat_completion_caches_exactly_fresh_answers user_input w :
  let run :=
    chat_completion svc cache_container movies_container user_input w in
  movies_db (snd run) = movies_db w /\
  match fst run with
  | Ok (text, false) =>
      exists new,
        cache_db (snd run) = cache_db w ++ [new] /\
        prompt (body new) = user_input /\
        completion (body new) = text /\
        fst (generate_embeddings svc user_input w) = Ok (vector (body new)) /\
        completion_calls (trace (snd run)) = S (completion_calls (trace w))
  | Ok (text, true) =>
      cache_db (snd run) = cache_db w /\
      completion_calls (trace (snd run)) = completion_calls (trace w)
  | Raise e =>
      cache_db (snd run) = cache_db w /\
      (completion_calls (trace (snd run))
       <= S (completion_calls (trace w)))%nat
  end.
Proof.
  cbn zeta.
  pose proof (chat_completion_unfold user_input w) as U. cbn zeta in U.
  rewrite U. clear U. rewrite NoSQLFacts.generate_embeddings_run.
  split_pipeline; cbn; repeat split; auto.
  eexists. repeat split; reflexivity.
Qed.

Lemma get_cache_query_nil vectors threshold c e :
  get_cache_query svc vectors threshold 1 c = [] ->
  In e c -> ~ (threshold < score svc vectors e)%Q.
Proof.
  intros E Hin Hlt.
  destruct (NoSQLFacts.get_cache_query_hit svc vectors threshold c e Hin Hlt)
    as [hit [H _]].
  congruence.
Qed.

(** X4. Asking again what was just answered is served from the cache: when
    [chat_completion] returned a fresh text for a prompt, the next call on
    the same prompt, with the embedding model giving the same embedding and
    an embedding scoring above 0.99 against itself, returns that same text
    with the cached flag, without invoking the Completion Provider or
    writing to the cache. *)
Theorem chat_completion_again_is_cached user_input w text w' user_embeddings :
  chat_completion svc cache_container movies_container user_input w =
    (Ok (text, false), w') ->
  fst (generate_embeddings svc user_input w) = Ok user_embeddings ->
  fst (generate_embeddings svc user_input w') = Ok user_embeddings ->
  cosmos_query_ok svc (S (List.length (trace w'))) = true ->
  (cache_hit_similarity_score
   < VectorDistance svc user_embeddings user_embeddings)%Q ->
  exists w'',
    chat_completion svc cache_container movies_container user_input w' =
      (Ok (text, true), w'') /\
    completion_calls (trace w'') = completion_calls (trace w') /\
    cache_db w'' = cache_db w'.
Proof.
  intros Hrun He He' Hup Hself.
  assert (Hw : exists new,
             cache_db w' = cache_db w ++ [new] /\
             completion (body new) = text /\
             vector (body new) = user_embeddings /\
             get_cache_query svc user_embeddings cache_hit_similarity_score 1
               (cache_db w) = []).
  { pose proof (chat_completion_unfold user_input w) as U. cbn zeta in U.
    rewrite U in Hrun. clear U.
    rewrite NoSQLFacts.generate_embeddings_run in He. cbn [fst] in He.
    destruct (embeddings_create svc (List.length (trace w)) user_input)
      as [[|emb ds]|e]; try discriminate.
    injection He as ->.
    revert Hrun. split_pipeline; intros Hrun; try discriminate.
    injection Hrun as <- <-. eexists. repeat split; reflexivity. }
  destruct Hw as [new [Hc [Ht [Hv Hmiss]]]].
  pose proof (chat_completion_unfold user_input w') as U. cbn zeta in U.
  rewrite U. clear U.
  rewrite NoSQLFacts.generate_embeddings_run in He'. cbn [fst] in He'.
  destruct (embeddings_create svc (List.length (trace w')) user_input)
    as [[|emb ds]|e]; try discriminate.
  injection He' as ->.
  cbn [Nat.add]. rewrite Hup. cbn [negb].
  assert (Hin : In new (cache_db w')) by (rewrite Hc; apply in_or_app; right; now left).
  assert (Hlt : (cache_hit_similarity_score
                 < score svc user_embeddings new)%Q)
    by (unfold score; rewrite Hv; exact Hself).
  destruct (NoSQLFacts.get_cache_query_hit svc user_embeddings
              cache_hit_similarity_score (cache_db w') new Hin Hlt)
    as [hit [E [H1 [H2 _]]]].
  rewrite E.
  assert (hit = new) as ->.
  { rewrite Hc in H1. apply in_app_or in H1. destruct H1 as [H1|[H1|[]]].
    - exfalso. exact (get_cache_query_nil _ _ _ _ Hmiss H1 H2).
    - now symmetry. }
  rewrite Ht. eexists. split; [reflexivity|]. split; reflexivity.
Qed.

(** X5. When the Completion Provider fails on a cache miss, by raising or
    by answering without a choice (an [IndexError] when the text is read),
    [chat_completion] stops with that exception: the provider was invoked
    once, after the three reads, and no write to the cache was attempted. *)
Theorem chat_completion_completion_error user_input w user_embeddings err :
  fst (generate_embeddings svc user_input w) = Ok user_embeddings ->
  (forall t, cosmos_query_ok svc t = true) ->
  (forall e, In e (cache_db w) ->
             ~ (cache_hit_similarity_score < score svc user_embeddings e)%Q) ->
  (forall messages,
      match chat_completions_create svc (4 + List.length (trace w)) messages
      with
      | Raise e => e = err
      | Ok r => OpenAI.choices r = [] /\ err = IndexError
      end) ->
  exists messages w',
    chat_completion svc cache_container movies_container user_input w =
      (Raise err, w') /\
    trace w' =
      ChatCompletionsCreate messages :: QueryItems :: QueryItems ::
      QueryItems :: EmbeddingsCreate user_input :: trace w /\
    cache_db w' = cache_db w.
Proof.
  intros He Hq Hmiss Hchat.
  pose proof (chat_completion_unfold user_input w) as U. cbn zeta in U.
  rewrite U. clear U.
  rewrite NoSQLFacts.generate_embeddings_run in He. cbn [fst] in He.
  destruct (embeddings_create svc (List.length (trace w)) user_input)
    as [[|emb ds]|e]; try discriminate.
  injection He as ->.
  rewrite !Hq. cbn [negb].
  rewrite (NoSQLFacts.get_cache_query_miss svc _ _ _ _ Hmiss).
  match goal with
  | |- context [chat_completions_create svc ?t ?m] =>
      specialize (Hchat m);
      destruct (chat_completions_create svc t m) as [r|e]
  end.
  - destruct Hchat as [Hc ->]. rewrite Hc.
    eexists _, _. split; [reflexivity|]. split; reflexivity.
  - subst e. eexists _, _. split; [reflexivity|]. split; reflexivity.
Qed.

(** X6. When a read of the database fails before generation, the cache
    probe or, on a miss, the movie search or the history read,
    [chat_completion] stops with the read error: the Completion Provider
    is not invoked and the cache is not written. *)
Theorem chat_completion_store_unreadable user_input w user_embeddings :
  fst (generate_embeddings svc user_input w) = Ok user_embeddings ->
  cosmos_query_ok svc (1 + List.length (trace w)) = false \/
  ((forall e, In e (cache_db w) ->
              ~ (cache_hit_similarity_score < score svc user_embeddings e)%Q) /\
   (cosmos_query_ok svc (2 + List.length (trace w)) = false \/
    cosmos_query_ok svc (3 + List.length (trace w)) = false)) ->
  exists w',
    chat_completion svc cache_container movies_container user_input w =
      (Raise StoreQueryError, w') /\
    completion_calls (trace w') = completion_calls (trace w) /\
    cache_db w' = cache_db w /\ movies_db w' = movies_db w.
Proof.
  intros He Hdown.
  pose proof (chat_completion_unfold user_input w) as U. cbn zeta in U.
  rewrite U. clear U.
  rewrite NoSQLFacts.generate_embeddings_run in He. cbn [fst] in He.
  destruct (embeddings_create svc (List.length (trace w)) user_input)
    as [[|emb ds]|e]; try discriminate.
  injection He as ->.
  destruct (cosmos_query_ok svc (1 + List.length (trace w))) eqn:H1; cbn [negb].
  - destruct Hdown as [Hdown|[Hmiss Hdown]]; [discriminate|].
    rewrite (NoSQLFacts.get_cache_query_miss svc _ _ _ _ Hmiss).
    destruct (cosmos_query_ok svc (2 + List.length (trace w))) eqn:H2;
      cbn [negb].
    + destruct Hdown as [Hdown|Hdown]; [discriminate|]. rewrite Hdown.
      eexists. split; [reflexivity|]. cbn. repeat split; reflexivity.
    + eexists. split; [reflexivity|]. cbn. repeat split; reflexivity.
  - eexists. split; [reflexivity|]. cbn. repeat split; reflexivity.
Qed.

(** *** The conversation history after a write *)

Lemma order_by_desc_newest_last {A K} (key : A -> K) (leb : K -> K -> bool)
    (l : list A) (x : A) :
  (forall a, In a l -> leb (key x) (key a) = false) ->
  order_by_desc key leb (l ++ [x]) = x :: order_by_desc key leb l.
Proof.
  induction l as [|a l IH]; intros H; [reflexivity|].
  cbn [app order_by_desc fold_right].
  fold (order_by_desc key leb (l ++ [x])).
  fold (order_by_desc key leb l).
  rewrite IH by (intros b Hb; apply H; now right).
  cbn [insert_desc]. rewrite (H a) by now left. reflexivity.
Qed.

(** X7. An exchange just cached leads the next history: when
    [cache_response] stores a response at a server time later than the
    [_ts] of every stored item, the next [get_chat_history] of a positive
    window returns the new item first, followed by what a window one
    smaller held before. *)
Theorem get_chat_history_after_cache_response
    user_prompt prompt_vectors response c cs completions w :
  OpenAI.choices response = c :: cs ->
  cosmos_create_ok svc (List.length (trace w)) = true ->
  cosmos_query_ok svc (S (List.length (trace w))) = true ->
  (forall d, In d (cache_db w) ->
             (_ts d < clock svc (List.length (trace w)))%Z) ->
  exists new w1 w2,
    cache_response svc cache_container user_prompt prompt_vectors response w
      = (Ok tt, w1) /\
    get_chat_history svc cache_container (S completions) w1 =
      (Ok (new :: get_chat_history_query completions (cache_db w)), w2) /\
    prompt (body new) = user_prompt /\
    completion (body new) = OpenAI.content (OpenAI.message_of c) /\
    _ts new = clock svc (List.length (trace w)).
Proof.
  intros Hc Hw Hr Hnew.
  rewrite (NoSQLFacts.cache_response_run svc _ _ _ _ _ _ Hc), Hw.
  eexists _, _, _. split; [reflexivity|].
  unfold get_chat_history. rewrite NoSQLFacts.query_items_run.
  cbn [trace List.length]. rewrite Hr.
  cbn [items cache_container add_event cache_db].
  unfold get_chat_history_query.
  rewrite order_by_desc_newest_last.
  - split; [reflexivity|]. cbn. repeat split; reflexivity.
  - intros a Ha. cbn [_ts]. apply Z.leb_gt, Hnew, Ha.
Qed.

(** *** The payload sent to the Completion Provider *)

(** X8. Whatever a run of [chat_completion] sends to the Completion
    Provider has between 2 and 10 messages: it starts with the system
    prompt and contains the user's text as a [user] message (at most 3
    history entries and 5 search results come with them). *)
Theorem chat_completion_payload_bounded user_input w messages :
  let w' :=
    snd (chat_completion svc cache_container movies_container user_input w) in
  In (ChatCompletionsCreate messages) (trace w') ->
  In (ChatCompletionsCreate messages) (trace w) \/
  ((2 <= List.length messages <= 10)%nat /\
   hd_error messages =
     Some {| OpenAI.role := "system"; OpenAI.content := system_prompt |} /\
   In {| OpenAI.role := "user"; OpenAI.content := user_input |} messages).
Proof.
  cbn zeta.
  pose proof (chat_completion_unfold user_input w) as U. cbn zeta in U.
  rewrite U. clear U.
  assert (Hpayload : forall emb,
    let m := generate_completion_messages svc user_input
               (map format_result
                  (vector_search_query svc emb vector_search_similarity_score
                     vector_search_num_results (movies_db w)))
               (get_chat_history_query 3 (cache_db w)) in
    (2 <= List.length m <= 10)%nat /\
    hd_error m =
      Some {| OpenAI.role := "system"; OpenAI.content := system_prompt |} /\
    In {| OpenAI.role := "user"; OpenAI.content := user_input |} m).
  { intros emb. cbn zeta.
    rewrite NoSQLFacts.generate_completion_messages_order.
    split; [|split].
    - rewrite !length_app, !length_map. cbn [List.length].
      unfold vector_search_query, get_chat_history_query.
      rewrite length_map.
      pose proof (firstn_le_length 3
                    (order_by_desc _ts Z.leb (cache_db w))) as H3.
      match goal with
      | |- context [List.length (firstn vector_search_num_results ?l)] =>
          pose proof (firstn_le_length vector_search_num_results l) as H5
      end.
      unfold vector_search_num_results in *. lia.
    - reflexivity.
    - apply in_or_app. right. apply in_or_app. right.
      apply in_or_app. left. now left. }
  split_pipeline; cbn [snd add_event trace]; intros H;
    repeat (destruct H as [H|H]; [try discriminate|]); auto;
    injection H as <-; right; apply Hpayload.
Qed.
End Facts.
End NoSQLMore.

(** *** The theorems on the sample data *)
Module NoSQLMoreSamples.
Import NoSQL NoSQLItems.

Lemma get_cache_returns_stored_matches_witness :
  exists hits w',
    get_cache Demo.nosql cache_container (Demo.embed Demo.question)
      cache_hit_similarity_score 1 Demo.warm = (Ok hits, w') /\
    (List.length hits <= 1)%nat /\
    (forall h, In h hits ->
               In h (cache_db Demo.warm) /\
               (cache_hit_similarity_score
                < score Demo.nosql (Demo.embed Demo.question) h)%Q) /\
    (cache_db Demo.warm = [] -> hits = []) /\
    cache_db w' = cache_db Demo.warm /\ movies_db w' = movies_db Demo.warm.
Proof.
  apply (NoSQLMore.get_cache_returns_stored_matches Demo.nosql
           (Demo.embed Demo.question) cache_hit_similarity_score 1 Demo.warm).
  reflexivity.
Defined.

Lemma vector_search_rows_from_store_witness :
  exists rows w',
    vector_search Demo.nosql movies_container (Demo.embed Demo.question)
      vector_search_similarity_score 2 Demo.cold = (Ok rows, w') /\
    (List.length rows <= 2)%nat /\
    (forall r, In r rows ->
               (vector_search_similarity_score < SimilarityScore r)%Q /\
               exists d, In d (movies_db Demo.cold) /\
                         doc_overview (document_of r) = overview d /\
                         SimilarityScore r =
                           VectorDistance Demo.nosql (movie_vector d)
                             (Demo.embed Demo.question)) /\
    cache_db w' = cache_db Demo.cold /\ movies_db w' = movies_db Demo.cold.
Proof.
  apply (NoSQLMore.vector_search_rows_from_store Demo.nosql
           (Demo.embed Demo.question) vector_search_similarity_score 2
           Demo.cold).
  reflexivity.
Defined.

Lemma vector_queries_keep_the_best_witness :
  (exists hits w',
      get_cache Demo.nosql cache_container (Demo.embed Demo.question)
        vector_search_similarity_score 2 Demo.warm = (Ok hits, w') /\
      forall d, In d (cache_db Demo.warm) ->
                (vector_search_similarity_score
                 < score Demo.nosql (Demo.embed Demo.question) d)%Q ->
                In d hits \/
                forall h, In h hits ->
                          (score Demo.nosql (Demo.embed Demo.question) d
                           <= score Demo.nosql (Demo.embed Demo.question) h)%Q)
  /\
  (exists rows w',
      vector_search Demo.nosql movies_container (Demo.embed Demo.question)
        vector_search_similarity_score 2 Demo.warm = (Ok rows, w') /\
      forall d, In d (movies_db Demo.warm) ->
                (vector_search_similarity_score
                 < VectorDistance Demo.nosql (movie_vector d)
                     (Demo.embed Demo.question))%Q ->
                In {| SimilarityScore :=
                        VectorDistance Demo.nosql (movie_vector d)
                          (Demo.embed Demo.question);
                      document_of := {| doc_overview := overview d |} |} rows
                \/
                forall r, In r rows ->
                          (VectorDistance Demo.nosql (movie_vector d)
                             (Demo.embed Demo.question)
                           <= SimilarityScore r)%Q).
Proof.
  apply (NoSQLMore.vector_queries_keep_the_best Demo.nosql
           (Demo.embed Demo.question) vector_search_similarity_score 2
           Demo.warm).
  reflexivity.
Defined.

Lemma chat_completion_again_is_cached_witness :
  exists w'',
    chat_completion Demo.nosql cache_container movies_container Demo.question
      Demo.warm = (Ok ("answer 4", true), w'') /\
    completion_calls (trace w'') = completion_calls (trace Demo.warm) /\
    cache_db w'' = cache_db Demo.warm.
Proof.
  apply (NoSQLMore.chat_completion_again_is_cached Demo.nosql Demo.question
           Demo.cold "answer 4" Demo.warm (Demo.embed Demo.question)).
  - reflexivity.
  - reflexivity.
  - reflexivity.
  - reflexivity.
  - vm_compute. reflexivity.
Defined.

Lemma chat_completion_completion_error_witness :
  exists messages w',
    chat_completion DemoMore.nosql_no_chat cache_container movies_container
      Demo.question Demo.cold = (Raise CompletionError, w') /\
    trace w' =
      ChatCompletionsCreate messages :: QueryItems :: QueryItems ::
      QueryItems :: EmbeddingsCreate Demo.question :: trace Demo.cold /\
    cache_db w' = cache_db Demo.cold.
Proof.
  apply (NoSQLMore.chat_completion_completion_error DemoMore.nosql_no_chat
           Demo.question Demo.cold (Demo.embed Demo.question)
           CompletionError).
  - reflexivity.
  - intros t. reflexivity.
  - intros e He. simpl in He. contradiction.
  - intros messages. reflexivity.
Defined.

Lemma chat_completion_store_unreadable_witness :
  exists w',
    chat_completion DemoMore.nosql_no_reads cache_container movies_container
      Demo.question Demo.warm = (Raise StoreQueryError, w') /\
    completion_calls (trace w') = completion_calls (trace Demo.warm) /\
    cache_db w' = cache_db Demo.warm /\ movies_db w' = movies_db Demo.warm.
Proof.
  apply (NoSQLMore.chat_completion_store_unreadable DemoMore.nosql_no_reads
           Demo.question Demo.warm (Demo.embed Demo.question)).
  - reflexivity.
  - left. reflexivity.
Defined.

Lemma get_chat_history_after_cache_response_witness :
  exists new w1 w2,
    cache_response Demo.nosql cache_container "Another one?"
      (Demo.embed "Another one?") Demo.short_answer Demo.warm = (Ok tt, w1) /\
    get_chat_history Demo.nosql cache_container 3 w1 =
      (Ok (new :: get_chat_history_query 2 (cache_db Demo.warm)), w2) /\
    prompt (body new) = "Another one?" /\
    completion (body new) = "Interstellar." /\
    _ts new = clock Demo.nosql (List.length (trace Demo.warm)).
Proof.
  apply (NoSQLMore.get_chat_history_after_cache_response Demo.nosql
           "Another one?" (Demo.embed "Another one?") Demo.short_answer
           {| OpenAI.message_of :=
                {| OpenAI.role := "assistant";
                   OpenAI.content := "Interstellar." |} |} [] 2 Demo.warm).
  - reflexivity.
  - reflexivity.
  - reflexivity.
  - intros d Hd. revert d Hd.
    apply (proj1 (Forall_forall
                    (fun d => (_ts d < clock Demo.nosql
                                         (List.length (trace Demo.warm)))%Z)
                    (cache_db Demo.warm))).
    repeat constructor.
Defined.

Lemma chat_completion_payload_bounded_witness :
  let messages :=
    [{| OpenAI.role := "system"; OpenAI.content := system_prompt |};
     {| OpenAI.role := "user"; OpenAI.content := Demo.question |};
     {| OpenAI.role := "system";
        OpenAI.content := "A thief plants an idea in a dream." |};
     {| OpenAI.role := "system";
        OpenAI.content := "A crew crosses a wormhole." |};
     {| OpenAI.role := "system";
        OpenAI.content := "A farm boy joins the rebellion." |}] in
  In (ChatCompletionsCreate messages) (trace Demo.cold) \/
  ((2 <= List.length messages <= 10)%nat /\
   hd_error messages =
     Some {| OpenAI.role := "system"; OpenAI.content := system_prompt |} /\
   In {| OpenAI.role := "user"; OpenAI.content := Demo.question |} messages).
Proof.
  apply (NoSQLMore.chat_completion_payload_bounded Demo.nosql Demo.question
           Demo.cold).
  vm_compute. right. left. reflexivity.
Defined.
End NoSQLMoreSamples.

(** * The Gradio callback *)
Module GradioFacts.
Import NoSQL Gradio.

Lemma append_assoc (a b c : string) :
  ((a ++ b) ++ c)%string = (a ++ (b ++ c))%string.
Proof.
  induction a as [|x a IH]; cbn; [reflexivity|now rewrite IH].
Qed.

Lemma endswith_append (a b : string) : endswith (a ++ b) b = true.
Proof.
  induction a as [|x a IH]; cbn [String.append].
  - destruct b; cbn; now rewrite ?Ascii.eqb_refl, ?String.eqb_refl.
  - cbn [endswith]. rewrite IH. now destruct (String.eqb _ b).
Qed.

(** A text closed by the time is not closed by the label. *)
Lemma endswith_ms_not_cached (a : string) :
  endswith (a ++ "ms)") " (Cached)" = false.
Proof.
  induction a as [|x a IH]; [reflexivity|].
  cbn [String.append endswith].
  destruct (String.eqb_spec (String x (a ++ "ms)")) " (Cached)") as [E|_];
    [|exact IH].
  pose proof (endswith_append (String x a) "ms)") as H.
  cbn [String.append] in H. rewrite E in H. discriminate H.
Qed.

Lemma prefix_append (a b : string) : String.prefix a (a ++ b) = true.
Proof.
  induction a as [|x a IH]; cbn; [now destruct b|].
  destruct (ascii_dec x x); [exact IH|contradiction].
Qed.

(** X9. The callback adds one entry to the chat history it is given, the
    message with the displayed answer, and clears the text box.  The
    displayed answer starts with the text [chat_completion] returned and
    ends with the label [(Cached)] exactly when the cached flag is set.
    When [chat_completion] raises, so does the callback. *)
Theorem user_labels_cached_answers {PK : Type} (svc : services)
    (time_time : nat -> Q) (elapsed_text : Q -> Q -> string)
    (user_message : string) (chat_history : list (string * string))
    (pk : PK) (w : world) :
  match chat_completion svc cache_container movies_container user_message w
  with
  | (Ok (text, cached), w1) =>
      exists entry,
        user svc time_time elapsed_text user_message chat_history pk w =
          (Ok ({| value := "" |}, chat_history ++ [(user_message, entry)]),
           w1) /\
        String.prefix text entry = true /\
        endswith entry " (Cached)" = cached
  | (Raise e, w1) =>
      user svc time_time elapsed_text user_message chat_history pk w =
        (Raise e, w1)
  end.
Proof.
  unfold user, bind, time, ret.
  destruct (chat_completion svc cache_container movies_container
              user_message w) as [[[text cached]|e] w1]; [|reflexivity].
  cbn [fst snd].
  eexists. split; [reflexivity|]. split; [apply prefix_append|].
  destruct cached.
  - rewrite <- append_assoc. apply endswith_append.
  - change (String "010"%char (" (Time: " ++
              elapsed_text (time_time (List.length (trace w)))
                (time_time (List.length (trace w1))) ++ "ms)"))%string
      with ((String "010"%char " (Time: ") ++
              (elapsed_text (time_time (List.length (trace w)))
                 (time_time (List.length (trace w1))) ++ "ms)"))%string.
    rewrite <- !append_assoc. apply endswith_ms_not_cached.
Qed.
End GradioFacts.

(** * The Mongo vCore notebook: further properties *)
Module MongoMore.
Import Mongo MongoItems.

Ltac split_loop :=
  repeat
    (cbn [negb Nat.add fst snd];
     match goal with
     | |- context [embeddings_create ?s ?t ?q] =>
         destruct (embeddings_create s t q) as [[|? ?]|?] eqn:?
     | |- context [if negb (mongo_read_ok ?s ?t) then _ else _] =>
         destruct (mongo_read_ok s t) eqn:?
     | |- context [match chat_completions_create ?s ?t ?m with _ => _ end] =>
         destruct (chat_completions_create s t m) eqn:?
     | |- context [match OpenAI.choices ?r with _ => _ end] =>
         destruct (OpenAI.choices r) eqn:?
     | |- context [if mongo_write_ok ?s ?t then _ else _] =>
         destruct (mongo_write_ok s t) eqn:?
     end).

Section Facts.
Variable svc : services.

(** Every way one pass of the loop body can go. *)
Lemma loop_body_unfold user_input w :
  let n := List.length (trace w) in
  let w1 := add_event (EmbeddingsCreate user_input) w in
  let w2 := add_event CollectionAggregate w1 in
  let w3 := add_event CacheFind w2 in
  loop_body svc user_input w =
  match embeddings_create svc n user_input with
  | Raise e => (Raise e, w1)
  | Ok [] => (Raise IndexError, w1)
  | Ok (user_embeddings :: _) =>
      if negb (mongo_read_ok svc (1 + n)) then (Raise StoreQueryError, w2)
      else if negb (mongo_read_ok svc (2 + n)) then (Raise StoreQueryError, w3)
      else
        let messages :=
          generate_completion_messages user_input
            (vector_search_pipeline svc user_embeddings 3 (collection w))
            (get_conversation_history_query 3 (cache w)) in
        let w4 := add_event (ChatCompletionsCreate messages) w3 in
        match chat_completions_create svc (3 + n) messages with
        | Raise e => (Raise e, w4)
        | Ok r =>
            let w5 := add_line (echo user_input) w4 in
            match OpenAI.choices r with
            | [] => (Raise IndexError, w5)
            | c :: _ =>
                let text := OpenAI.content (OpenAI.message_of c) in
                let chat := new_chat user_input user_embeddings r c in
                if mongo_write_ok svc (4 + n)
                then (Ok tt,
                      {| collection := collection w;
                         cache :=
                           cache w ++
                           [{| _id := new_object_id svc (4 + n);
                               doc := chat |}];
                         trace := CacheInsertOne chat :: trace w4;
                         stdout :=
                           (stdout w ++ [echo user_input]) ++ [text] |})
                else (Raise CacheWriteError,
                      add_event (CacheInsertOne chat) (add_line text w5))
            end
        end
  end.
Proof.
  cbn zeta. unfold loop_body.
  rewrite bind_run, MongoFacts.mongo_generate_embeddings_run.
  destruct (embeddings_create svc (List.length (trace w)) user_input)
    as [[|emb ds]|e]; try reflexivity.
  rewrite bind_run, MongoFacts.mongo_vector_search_run.
  cbn [add_event trace List.length Nat.add].
  destruct (mongo_read_ok svc (S (List.length (trace w)))); [|reflexivity].
  rewrite bind_run, MongoFacts.mongo_generate_completion_run.
  cbn [add_event trace List.length].
  destruct (mongo_read_ok svc (S (S (List.length (trace w)))));
    [|reflexivity].
  cbn zeta. cbn [negb collection cache].
  destruct (chat_completions_create svc _ _) as [r|e]; [|reflexivity].
  rewrite bind_run, MongoFacts.print_run.
  rewrite bind_run. unfold response_content at 1.
  rewrite bind_run.
  destruct (OpenAI.choices r) as [|c cs] eqn:Hc; [reflexivity|].
  cbn [first ret].
  rewrite bind_run, MongoFacts.print_run.
  rewrite (MongoFacts.cache_generation_run svc _ _ _ _ _ _ Hc).
  cbn [add_line add_event trace List.length].
  destruct (mongo_write_ok svc _); reflexivity.
Qed.

(** *** The vector search *)

(** X10. [vector_search] on a readable collection returns at most
    [num_results] rows, nearest first; each row is a stored document with
    its score against the query.  The search changes nothing. *)
Theorem mongo_vector_search_nearest_first query num_results w :
  (0 < num_results)%nat ->
  mongo_read_ok svc (List.length (trace w)) = true ->
  exists rows w',
    vector_search svc query num_results w = (Ok rows, w') /\
    (List.length rows <= num_results)%nat /\
    StronglySorted (fun a b => (similarityScore b <= similarityScore a)%Q)
      rows /\
    (forall r, In r rows ->
               In (document r) (collection w) /\
               similarityScore r =
                 searchScore svc (contentVector (document r)) query) /\
    cache w' = cache w /\ collection w' = collection w.
Proof.
  intros _ Hup. rewrite MongoFacts.mongo_vector_search_run, Hup.
  eexists _, _. split; [reflexivity|].
  unfold vector_search_pipeline.
  set (key := fun d => searchScore svc (contentVector d) query).
  set (sorted := order_by_desc key Qle_bool (collection w)).
  assert (Hs : StronglySorted (desc key Qle_bool) sorted)
    by (apply order_by_desc_sorted;
        [apply Qle_bool_total|apply Qle_bool_trans]).
  split; [rewrite length_map; apply firstn_le_length|].
  split; [|split].
  - apply sorted_map. cbn [similarityScore]. apply firstn_sorted.
    eapply sorted_weaken; [|exact Hs].
    intros a b Hab. apply Qle_bool_iff, Hab.
  - intros r Hr. apply in_map_iff in Hr. destruct Hr as [d [<- Hd]].
    apply In_firstn in Hd.
    apply (proj1 (order_by_desc_In key Qle_bool d (collection w))) in Hd.
    split; [exact Hd|reflexivity].
  - split; reflexivity.
Qed.

(** *** One pass of the loop body *)

Lemma loop_body_ok user_input w user_embeddings ds :
  (forall t messages, exists r c cs,
      chat_completions_create svc t messages = Ok r /\
      OpenAI.choices r = c :: cs) ->
  (forall t, mongo_read_ok svc t = true) ->
  (forall t, mongo_write_ok svc t = true) ->
  embeddings_create svc (List.length (trace w)) user_input =
    Ok (user_embeddings :: ds) ->
  exists r c messages,
    loop_body svc user_input w =
    (Ok tt,
     {| collection := collection w;
        cache :=
          cache w ++
          [{| _id := new_object_id svc (4 + List.length (trace w));
              doc := new_chat user_input user_embeddings r c |}];
        trace :=
          CacheInsertOne (new_chat user_input user_embeddings r c) ::
          ChatCompletionsCreate messages :: CacheFind ::
          CollectionAggregate :: EmbeddingsCreate user_input :: trace w;
        stdout :=
          (stdout w ++ [echo user_input])
          ++ [OpenAI.content (OpenAI.message_of c)] |}).
Proof.
  intros Hchat Hr Hw He.
  pose proof (loop_body_unfold user_input w) as U. cbn zeta in U.
  rewrite U, He, !Hr, Hw. clear U. cbn [negb].
  match goal with
  | |- context [chat_completions_create svc ?t ?m] =>
      destruct (Hchat t m) as [r [c [cs [H1 H2]]]]; rewrite H1, H2
  end.
  eexists r, c, _. reflexivity.
Qed.

(** X11. With the services answering, the answer the loop prints is the
    completion it caches, and it is the provider's: one pass sends the
    payload made of the prompt, the search results and the history, prints
    the prompt after a line break, then the text of the first choice of the
    response to that payload, and appends one cache entry holding that
    prompt and that same text. *)
Theorem loop_body_prints_what_it_caches user_input w user_embeddings ds :
  (forall t messages, exists r c cs,
      chat_completions_create svc t messages = Ok r /\
      OpenAI.choices r = c :: cs) ->
  (forall t, mongo_read_ok svc t = true) ->
  (forall t, mongo_write_ok svc t = true) ->
  embeddings_create svc (List.length (trace w)) user_input =
    Ok (user_embeddings :: ds) ->
  exists messages r c cs new w',
    messages =
      generate_completion_messages user_input
        (vector_search_pipeline svc user_embeddings 3 (collection w))
        (get_conversation_history_query 3 (cache w)) /\
    chat_completions_create svc (3 + List.length (trace w)) messages = Ok r /\
    OpenAI.choices r = c :: cs /\
    loop_body svc user_input w = (Ok tt, w') /\
    trace w' =
      CacheInsertOne (doc new) :: ChatCompletionsCreate messages ::
      CacheFind :: CollectionAggregate :: EmbeddingsCreate user_input ::
      trace w /\
    stdout w' =
      stdout w ++ [echo user_input; OpenAI.content (OpenAI.message_of c)] /\
    cache w' = cache w ++ [new] /\
    prompt (doc new) = user_input /\
    completion (doc new) = OpenAI.content (OpenAI.message_of c).
Proof.
  intros Hchat Hr Hw He.
  pose proof (loop_body_unfold user_input w) as U. cbn zeta in U.
  rewrite U, He, !Hr, Hw. clear U. cbn [negb].
  match goal with
  | |- context [chat_completions_create svc ?t ?m] =>
      destruct (Hchat t m) as [r [c [cs [H1 H2]]]]; rewrite H1, H2
  end.
  eexists _, r, c, cs, _, _. split; [reflexivity|].
  split; [exact H1|]. split; [exact H2|]. split; [reflexivity|].
  cbn. rewrite <- app_assoc. repeat split; reflexivity.
Qed.

(** X12. When the insert into the cache fails, the loop has already
    printed the answer: the pass ends with [CacheWriteError] after one
    completion call, with the prompt and the answer on the output and the
    cache unchanged. *)
Theorem loop_body_insert_fails_after_print user_input w user_embeddings ds :
  (forall t messages, exists r c cs,
      chat_completions_create svc t messages = Ok r /\
      OpenAI.choices r = c :: cs) ->
  (forall t, mongo_read_ok svc t = true) ->
  mongo_write_ok svc (4 + List.length (trace w)) = false ->
  embeddings_create svc (List.length (trace w)) user_input =
    Ok (user_embeddings :: ds) ->
  exists messages r c cs w',
    chat_completions_create svc (3 + List.length (trace w)) messages = Ok r /\
    OpenAI.choices r = c :: cs /\
    loop_body svc user_input w = (Raise CacheWriteError, w') /\
    stdout w' =
      stdout w ++ [echo user_input; OpenAI.content (OpenAI.message_of c)] /\
    cache w' = cache w /\
    completion_calls (trace w') = S (completion_calls (trace w)).
Proof.
  intros Hchat Hr Hw He.
  pose proof (loop_body_unfold user_input w) as U. cbn zeta in U.
  rewrite U, He, !Hr, Hw. clear U. cbn [negb].
  match goal with
  | |- context [chat_completions_create svc ?t ?m] =>
      destruct (Hchat t m) as [r [c [cs [H1 H2]]]]; rewrite H1, H2
  end.
  eexists _, r, c, cs, _. split; [exact H1|]. split; [exact H2|].
  split; [reflexivity|]. cbn. rewrite <- app_assoc.
  repeat split; reflexivity.
Qed.

(** X13. When the Completion Provider fails, by raising or by answering
    without a choice (an [IndexError] when the text is printed), the pass
    ends with that exception after one completion call: no answer is
    printed, at most the echoed prompt, and nothing is cached. *)
Theorem loop_body_completion_error user_input w user_embeddings ds err :
  (forall t, mongo_read_ok svc t = true) ->
  embeddings_create svc (List.length (trace w)) user_input =
    Ok (user_embeddings :: ds) ->
  (forall messages,
      match chat_completions_create svc (3 + List.length (trace w)) messages
      with
      | Raise e => e = err
      | Ok r => OpenAI.choices r = [] /\ err = IndexError
      end) ->
  exists messages w',
    loop_body svc user_input w = (Raise err, w') /\
    trace w' =
      ChatCompletionsCreate messages :: CacheFind :: CollectionAggregate ::
      EmbeddingsCreate user_input :: trace w /\
    (stdout w' = stdout w \/ stdout w' = stdout w ++ [echo user_input]) /\
    cache w' = cache w.
Proof.
  intros Hr He Hchat.
  pose proof (loop_body_unfold user_input w) as U. cbn zeta in U.
  rewrite U, He, !Hr. clear U. cbn [negb].
  match goal with
  | |- context [chat_completions_create svc ?t ?m] =>
      specialize (Hchat m);
      destruct (chat_completions_create svc t m) as [r|e]
  end.
  - destruct Hchat as [Hc ->]. rewrite Hc.
    eexists _, _. split; [reflexivity|]. cbn. repeat split; auto.
  - subst e. eexists _, _. split; [reflexivity|]. cbn. repeat split; auto.
Qed.

(** X14. The exchange just cached is the first history row of the next
    prompt: after a pass on a prompt, with the new object id above every
    id in the cache, the history query of window 3 returns the row of
    that prompt and its answer first, followed by what a window of 2 held
    before. *)
Theorem loop_body_is_remembered user_input w user_embeddings ds :
  (forall t messages, exists r c cs,
      chat_completions_create svc t messages = Ok r /\
      OpenAI.choices r = c :: cs) ->
  (forall t, mongo_read_ok svc t = true) ->
  (forall t, mongo_write_ok svc t = true) ->
  embeddings_create svc (List.length (trace w)) user_input =
    Ok (user_embeddings :: ds) ->
  (forall d, In d (cache w) ->
             oid_leb (new_object_id svc (4 + List.length (trace w))) (_id d)
             = false) ->
  exists text w',
    loop_body svc user_input w = (Ok tt, w') /\
    stdout w' = stdout w ++ [echo user_input; text] /\
    get_conversation_history_query 3 (cache w') =
      {| h_id := new_object_id svc (4 + List.length (trace w));
         h_prompt := user_input;
         h_completion := text |}
      :: get_conversation_history_query 2 (cache w).
Proof.
  intros Hchat Hr Hw He Hnew.
  destruct (loop_body_ok user_input w user_embeddings ds Hchat Hr Hw He)
    as [r [c [messages H]]].
  rewrite H. eexists _, _. split; [reflexivity|].
  cbn [stdout cache]. rewrite <- app_assoc. split; [reflexivity|].
  unfold get_conversation_history_query.
  rewrite NoSQLMore.order_by_desc_newest_last by exact Hnew.
  reflexivity.
Qed.

(** *** The session *)

(** X15. The session stops at the first prompt that reads [end] in any
    letter case: what is typed after it is never read, whatever the
    services do; and when the first prompt is [end], the session only
    prints its banner. *)
Theorem qa_session_stops_at_first_end qs last rest rest' w :
  Forall goes_on qs ->
  lower last = "end" ->
  qa_session svc (qs ++ last :: rest) w =
    qa_session svc (qs ++ last :: rest') w /\
  (qs = [] ->
   qa_session svc (qs ++ last :: rest) w = (Ok tt, add_line banner w)).
Proof.
  intros Hqs Hlast.
  assert (Hloop : forall w,
    match qs ++ last :: rest, qs ++ last :: rest' with
    | x :: stdin, x' :: stdin' =>
        while_loop svc x stdin w = while_loop svc x' stdin' w
    | _, _ => False
    end).
  { induction Hqs as [|q qs Hq _ IH]; intros w0; cbn [app].
    - rewrite !MongoFacts.while_loop_eq, Hlast. reflexivity.
    - rewrite !MongoFacts.while_loop_eq.
      destruct (String.eqb_spec (lower q) "end") as [E|_]; [contradiction|].
      rewrite !bind_run.
      destruct (loop_body svc q w0) as [[[]|e] w1]; [|reflexivity].
      specialize (IH w1).
      destruct (qs ++ last :: rest) as [|x stdin]; [destruct IH|].
      destruct (qs ++ last :: rest') as [|x' stdin']; [destruct IH|].
      exact IH. }
  split.
  - unfold qa_session. rewrite !bind_run, MongoFacts.print_run.
    specialize (Hloop (add_line banner w)).
    destruct (qs ++ last :: rest) as [|x stdin]; [destruct Hloop|].
    destruct (qs ++ last :: rest') as [|x' stdin']; [destruct Hloop|].
    exact Hloop.
  - intros ->. cbn [app]. unfold qa_session.
    rewrite bind_run, MongoFacts.print_run, MongoFacts.while_loop_eq, Hlast.
    reflexivity.
Qed.

Lemma while_loop_exhausts qs :
  (forall t messages, exists r c cs,
      chat_completions_create svc t messages = Ok r /\
      OpenAI.choices r = c :: cs) ->
  (forall t, mongo_read_ok svc t = true) ->
  (forall t, mongo_write_ok svc t = true) ->
  forall q w,
    Forall (fun q => goes_on q /\
                     forall t, exists d ds,
                       embeddings_create svc t q = Ok (d :: ds)) (q :: qs) ->
    exists w',
      while_loop svc q qs w = (Raise EOFError, w') /\
      completion_calls (trace w') =
        (completion_calls (trace w) + S (List.length qs))%nat /\
      map (fun d => prompt (doc d)) (cache w') =
        map (fun d => prompt (doc d)) (cache w) ++ q :: qs.
Proof.
  intros Hchat Hr Hw.
  induction qs as [|q' qs IH]; intros q w Hall;
    inversion Hall as [|? ? [Hq He] Hrest]; subst;
    rewrite MongoFacts.while_loop_eq;
    (destruct (String.eqb_spec (lower q) "end") as [E|_];
     [contradiction|]);
    rewrite bind_run;
    destruct (He (List.length (trace w))) as [emb [ds Hemb]];
    destruct (loop_body_ok q w emb ds Hchat Hr Hw Hemb) as [r [c [m H]]];
    rewrite H.
  - eexists. split; [reflexivity|]. cbn. split; [lia|].
    now rewrite map_app.
  - match goal with
    | |- exists w', while_loop svc q' qs ?w1 = _ /\ _ =>
        destruct (IH q' w1 Hrest) as [w' [H1 [H2 H3]]]
    end.
    exists w'. split; [exact H1|]. split.
    + rewrite H2. cbn. lia.
    + rewrite H3. cbn [cache]. rewrite map_app, <- app_assoc. reflexivity.
Qed.

Lemma while_loop_answers qs last rest :
  (forall t messages, exists r c cs,
      chat_completions_create svc t messages = Ok r /\
      OpenAI.choices r = c :: cs) ->
  (forall t, mongo_read_ok svc t = true) ->
  (forall t, mongo_write_ok svc t = true) ->
  Forall (fun q => goes_on q /\
                   forall t, exists d ds,
                     embeddings_create svc t q = Ok (d :: ds)) qs ->
  lower last = "end" ->
  forall w,
    match qs ++ last :: rest with
    | [] => False
    | user_input :: stdin =>
        exists w',
          while_loop svc user_input stdin w = (Ok tt, w') /\
          completion_calls (trace w') =
            (completion_calls (trace w) + List.length qs)%nat /\
          map (fun d => prompt (doc d)) (cache w') =
            map (fun d => prompt (doc d)) (cache w) ++ qs /\
          List.length (stdout w') =
            (List.length (stdout w) + 2 * List.length qs)%nat /\
          collection w' = collection w
    end.
Proof.
  intros Hchat Hr Hw Hqs Hlast.
  induction Hqs as [|q qs [Hq He] _ IH]; intros w; cbn [app].
  - rewrite MongoFacts.while_loop_eq, Hlast. cbn.
    exists w. rewrite !Nat.add_0_r, app_nil_r. repeat split; reflexivity.
  - rewrite MongoFacts.while_loop_eq.
    destruct (String.eqb_spec (lower q) "end") as [E|_]; [contradiction|].
    rewrite bind_run.
    destruct (He (List.length (trace w))) as [emb [ds Hemb]].
    destruct (loop_body_ok q w emb ds Hchat Hr Hw Hemb) as [r [c [m H]]].
    rewrite H.
    destruct (qs ++ last :: rest) as [|x stdin]; [destruct (IH w)|].
    match goal with
    | |- exists w', while_loop svc x stdin ?w1 = _ /\ _ =>
        destruct (IH w1) as [w' [H1 [H2 [H3 [H4 H5]]]]]
    end.
    exists w'. split; [exact H1|]. split; [|split; [|split]].
    + rewrite H2. cbn. lia.
    + rewrite H3. cbn [cache]. rewrite map_app, <- app_assoc. reflexivity.
    + rewrite H4. cbn [stdout List.length]. rewrite !length_app. cbn. lia.
    + rewrite H5. reflexivity.
Qed.

(** X17. With the services answering, a session answers every prompt typed
    before the first [end] with a fresh generation, whether or not it was
    asked before: one completion call and one cache entry for each, in the
    order typed, two lines printed for each after the banner, and the data
    collection untouched. *)
Theorem qa_session_answers_every_prompt qs last rest w :
  (forall t messages, exists r c cs,
      chat_completions_create svc t messages = Ok r /\
      OpenAI.choices r = c :: cs) ->
  (forall t, mongo_read_ok svc t = true) ->
  (forall t, mongo_write_ok svc t = true) ->
  Forall (fun q => goes_on q /\
                   forall t, exists d ds,
                     embeddings_create svc t q = Ok (d :: ds)) qs ->
  lower last = "end" ->
  exists w',
    qa_session svc (qs ++ last :: rest) w = (Ok tt, w') /\
    completion_calls (trace w') =
      (completion_calls (trace w) + List.length qs)%nat /\
    map (fun d => prompt (doc d)) (cache w') =
      map (fun d => prompt (doc d)) (cache w) ++ qs /\
    List.length (stdout w') =
      (List.length (stdout w) + 1 + 2 * List.length qs)%nat /\
    collection w' = collection w.
Proof.
  intros Hchat Hr Hw Hqs Hlast. unfold qa_session.
  rewrite bind_run, MongoFacts.print_run.
  pose proof (while_loop_answers qs last rest Hchat Hr Hw Hqs Hlast
                (add_line banner w)) as H.
  destruct (qs ++ last :: rest) as [|x stdin]; [contradiction|].
  destruct H as [w' [H1 [H2 [H3 [H4 H5]]]]].
  exists w'. split; [exact H1|]. split; [exact H2|]. split; [exact H3|].
  split; [|exact H5].
  rewrite H4. cbn [add_line stdout]. rewrite length_app. cbn. lia.
Qed.

(** X16. When the input ends before [end] is typed, the session ends with
    [EOFError] from [input()], after it answered and cached every prompt
    it read, in order (with the services answering). *)
Theorem qa_session_input_exhausted qs w :
  (forall t messages, exists r c cs,
      chat_completions_create svc t messages = Ok r /\
      OpenAI.choices r = c :: cs) ->
  (forall t, mongo_read_ok svc t = true) ->
  (forall t, mongo_write_ok svc t = true) ->
  Forall (fun q => goes_on q /\
                   forall t, exists d ds,
                     embeddings_create svc t q = Ok (d :: ds)) qs ->
  exists w',
    qa_session svc qs w = (Raise EOFError, w') /\
    completion_calls (trace w') =
      (completion_calls (trace w) + List.length qs)%nat /\
    map (fun d => prompt (doc d)) (cache w') =
      map (fun d => prompt (doc d)) (cache w) ++ qs.
Proof.
  intros Hchat Hr Hw Hall. unfold qa_session.
  rewrite bind_run, MongoFacts.print_run.
  destruct qs as [|q qs].
  - eexists. split; [reflexivity|]. cbn. split; [lia|].
    now rewrite app_nil_r.
  - destruct (while_loop_exhausts qs Hchat Hr Hw q (add_line banner w) Hall)
      as [w' [H1 [H2 H3]]].
    exists w'. split; [exact H1|]. split; [exact H2|exact H3].
Qed.
End Facts.

(** *** The theorems on the sample data *)

Lemma mongo_vector_search_nearest_first_witness :
  exists rows w',
    vector_search Demo.mongo (Demo.embed Demo.mongo_question) 1
      Demo.mongo_cold = (Ok rows, w') /\
    (List.length rows <= 1)%nat /\
    StronglySorted (fun a b => (similarityScore b <= similarityScore a)%Q)
      rows /\
    (forall r, In r rows ->
               In (document r) (collection Demo.mongo_cold) /\
               similarityScore r =
                 searchScore Demo.mongo (contentVector (document r))
                   (Demo.embed Demo.mongo_question)) /\
    cache w' = cache Demo.mongo_cold /\
    collection w' = collection Demo.mongo_cold.
Proof.
  apply (mongo_vector_search_nearest_first Demo.mongo
           (Demo.embed Demo.mongo_question) 1 Demo.mongo_cold).
  - lia.
  - reflexivity.
Defined.

Lemma loop_body_prints_what_it_caches_witness :
  exists messages r c cs new w',
    messages =
      generate_completion_messages Demo.mongo_question
        (vector_search_pipeline Demo.mongo (Demo.embed Demo.mongo_question) 3
           (collection Demo.mongo_cold))
        (get_conversation_history_query 3 (cache Demo.mongo_cold)) /\
    chat_completions_create Demo.mongo
      (3 + List.length (trace Demo.mongo_cold)) messages = Ok r /\
    OpenAI.choices r = c :: cs /\
    loop_body Demo.mongo Demo.mongo_question Demo.mongo_cold = (Ok tt, w') /\
    trace w' =
      CacheInsertOne (doc new) :: ChatCompletionsCreate messages ::
      CacheFind :: CollectionAggregate ::
      EmbeddingsCreate Demo.mongo_question :: trace Demo.mongo_cold /\
    stdout w' =
      stdout Demo.mongo_cold ++
      [echo Demo.mongo_question; OpenAI.content (OpenAI.message_of c)] /\
    cache w' = cache Demo.mongo_cold ++ [new] /\
    prompt (doc new) = Demo.mongo_question /\
    completion (doc new) = OpenAI.content (OpenAI.message_of c).
Proof.
  apply (loop_body_prints_what_it_caches Demo.mongo Demo.mongo_question
           Demo.mongo_cold (Demo.embed Demo.mongo_question) []).
  - intros t messages. eexists _, _, _. split; reflexivity.
  - intros t. reflexivity.
  - intros t. reflexivity.
  - reflexivity.
Defined.

Lemma loop_body_insert_fails_after_print_witness :
  exists messages r c cs w',
    chat_completions_create DemoMore.mongo_read_only
      (3 + List.length (trace Demo.mongo_cold)) messages = Ok r /\
    OpenAI.choices r = c :: cs /\
    loop_body DemoMore.mongo_read_only Demo.mongo_question Demo.mongo_cold =
      (Raise CacheWriteError, w') /\
    stdout w' =
      stdout Demo.mongo_cold ++
      [echo Demo.mongo_question; OpenAI.content (OpenAI.message_of c)] /\
    cache w' = cache Demo.mongo_cold /\
    completion_calls (trace w') =
      S (completion_calls (trace Demo.mongo_cold)).
Proof.
  apply (loop_body_insert_fails_after_print DemoMore.mongo_read_only
           Demo.mongo_question Demo.mongo_cold
           (Demo.embed Demo.mongo_question) []).
  - intros t messages. eexists _, _, _. split; reflexivity.
  - intros t. reflexivity.
  - reflexivity.
  - reflexivity.
Defined.

Lemma loop_body_completion_error_witness :
  exists messages w',
    loop_body DemoMore.mongo_no_chat Demo.mongo_question Demo.mongo_cold =
      (Raise CompletionError, w') /\
    trace w' =
      ChatCompletionsCreate messages :: CacheFind :: CollectionAggregate ::
      EmbeddingsCreate Demo.mongo_question :: trace Demo.mongo_cold /\
    (stdout w' = stdout Demo.mongo_cold \/
     stdout w' = stdout Demo.mongo_cold ++ [echo Demo.mongo_question]) /\
    cache w' = cache Demo.mongo_cold.
Proof.
  apply (loop_body_completion_error DemoMore.mongo_no_chat
           Demo.mongo_question Demo.mongo_cold
           (Demo.embed Demo.mongo_question) [] CompletionError).
  - intros t. reflexivity.
  - reflexivity.
  - intros messages. reflexivity.
Defined.

Lemma loop_body_is_remembered_witness :
  exists text w',
    loop_body Demo.mongo Demo.mongo_question Demo.mongo_warm = (Ok tt, w') /\
    stdout w' = stdout Demo.mongo_warm ++ [echo Demo.mongo_question; text] /\
    get_conversation_history_query 3 (cache w') =
      {| h_id := new_object_id Demo.mongo
                   (4 + List.length (trace Demo.mongo_warm));
         h_prompt := Demo.mongo_question;
         h_completion := text |}
      :: get_conversation_history_query 2 (cache Demo.mongo_warm).
Proof.
  apply (loop_body_is_remembered Demo.mongo Demo.mongo_question
           Demo.mongo_warm (Demo.embed Demo.mongo_question) []).
  - intros t messages. eexists _, _, _. split; reflexivity.
  - intros t. reflexivity.
  - intros t. reflexivity.
  - reflexivity.
  - intros d Hd. apply negb_true_iff. revert d Hd.
    apply (proj1 (forallb_forall
                    (fun d => negb (oid_leb
                                      (new_object_id Demo.mongo
                                         (4 + List.length
                                                (trace Demo.mongo_warm)))
                                      (_id d)))
                    (cache Demo.mongo_warm))).
    vm_compute. reflexivity.
Defined.

Lemma qa_session_stops_at_first_end_witness :
  qa_session Demo.mongo ([Demo.mongo_question] ++ "End" :: ["ignored"])
    Demo.mongo_cold =
    qa_session Demo.mongo ([Demo.mongo_question] ++ "End" :: [])
      Demo.mongo_cold /\
  ([Demo.mongo_question] = [] ->
   qa_session Demo.mongo ([Demo.mongo_question] ++ "End" :: ["ignored"])
     Demo.mongo_cold = (Ok tt, add_line banner Demo.mongo_cold)).
Proof.
  apply (qa_session_stops_at_first_end Demo.mongo [Demo.mongo_question] "End"
           ["ignored"] [] Demo.mongo_cold).
  - repeat constructor. unfold goes_on. vm_compute. discriminate.
  - reflexivity.
Defined.

Lemma qa_session_input_exhausted_witness :
  exists w',
    qa_session Demo.mongo [Demo.mongo_question; Demo.mongo_question]
      Demo.mongo_cold = (Raise EOFError, w') /\
    completion_calls (trace w') =
      (completion_calls (trace Demo.mongo_cold) + 2)%nat /\
    map (fun d => prompt (doc d)) (cache w') =
      map (fun d => prompt (doc d)) (cache Demo.mongo_cold)
      ++ [Demo.mongo_question; Demo.mongo_question].
Proof.
  apply (qa_session_input_exhausted Demo.mongo
           [Demo.mongo_question; Demo.mongo_question] Demo.mongo_cold).
  - intros t messages. eexists _, _, _. split; reflexivity.
  - intros t. reflexivity.
  - intros t. reflexivity.
  - repeat constructor; try (unfold goes_on; vm_compute; discriminate);
      intros t; eexists _, _; reflexivity.
Defined.

Lemma qa_session_answers_every_prompt_witness :
  exists w',
    qa_session Demo.mongo
      ([Demo.mongo_question; Demo.mongo_question] ++ "END" :: [])
      Demo.mongo_cold = (Ok tt, w') /\
    completion_calls (trace w') =
      (completion_calls (trace Demo.mongo_cold) + 2)%nat /\
    map (fun d => prompt (doc d)) (cache w') =
      map (fun d => prompt (doc d)) (cache Demo.mongo_cold)
      ++ [Demo.mongo_question; Demo.mongo_question] /\
    List.length (stdout w') =
      (List.length (stdout Demo.mongo_cold) + 1 + 2 * 2)%nat /\
    collection w' = collection Demo.mongo_cold.
Proof.
  apply (qa_session_answers_every_prompt Demo.mongo
           [Demo.mongo_question; Demo.mongo_question] "END" []
           Demo.mongo_cold).
  - intros t messages. eexists _, _, _. split; reflexivity.
  - intros t. reflexivity.
  - intros t. reflexivity.
  - repeat constructor; try (unfold goes_on; vm_compute; discriminate);
      intros t; eexists _, _; reflexivity.
  - reflexivity.
Defined.
End MongoMore.

(** * The setup notebook: what the cells do *)
Module SetupFacts.
Import Setup.
Local Open Scope setup_scope.

(** *** Dictionaries *)

Lemma lookup_store_same {V} k (d v : V) l : lookup k d (store k v l) = v.
Proof.
  induction l as [|[k' v'] l IH]; cbn.
  - now rewrite String.eqb_refl.
  - destruct (String.eqb_spec k k'); cbn.
    + now rewrite String.eqb_refl.
    + destruct (String.eqb_spec k k'); [contradiction|exact IH].
Qed.

Lemma lookup_store_other {V} k k' (d v : V) l :
  k' <> k -> lookup k' d (store k v l) = lookup k' d l.
Proof.
  intros Hne. induction l as [|[k0 v0] l IH]; cbn.
  - destruct (String.eqb_spec k' k); [contradiction|reflexivity].
  - destruct (String.eqb_spec k k0) as [<-|Hk]; cbn.
    + destruct (String.eqb_spec k' k); [contradiction|reflexivity].
    + destruct (String.eqb_spec k' k0); [reflexivity|exact IH].
Qed.

Lemma lookup_remove_same {V} k (d : V) l : lookup k d (remove k l) = d.
Proof.
  induction l as [|[k' v'] l IH]; cbn; [reflexivity|].
  destruct (String.eqb_spec k k'); cbn; [exact IH|].
  destruct (String.eqb_spec k k'); [contradiction|exact IH].
Qed.

Lemma lookup_remove_other {V} k k' (d : V) l :
  k' <> k -> lookup k' d (remove k l) = lookup k' d l.
Proof.
  intros Hne. induction l as [|[k0 v0] l IH]; cbn; [reflexivity|].
  destruct (String.eqb_spec k k0) as [<-|Hk]; cbn.
  - destruct (String.eqb_spec k' k); [contradiction|exact IH].
  - destruct (String.eqb_spec k' k0); [reflexivity|exact IH].
Qed.

(** A database that is not listed holds no collection. *)
Lemma unlisted_is_empty db (dbs : list (string * database)) :
  existsb (String.eqb db)
    (map fst (filter (fun d => negb (Nat.eqb (List.length (snd d)) 0)) dbs))
  = false ->
  lookup db [] dbs = [].
Proof.
  induction dbs as [|[k v] dbs IH]; cbn; [reflexivity|].
  destruct v as [|c v]; cbn.
  - intros H. destruct (String.eqb db k); [reflexivity|exact (IH H)].
  - destruct (String.eqb db k); cbn; [discriminate|exact IH].
Qed.

Section Facts.
Variable cfg : config.
Variable svc : services.

Lemma command_run {A} ev (run : world -> outcome A * world) w :
  command svc ev run w =
  if server_ok svc (List.length (trace w))
  then run (add_event ev w)
  else (Failed OperationFailure, add_event ev w).
Proof.
  unfold command, and_then, now, log, fail.
  destruct (server_ok svc (List.length (trace w))); reflexivity.
Qed.

Lemma create_indexes_fresh db coll ix w :
  server_ok svc (List.length (trace w)) = true ->
  indexes (lookup coll empty_collection (lookup db [] (databases w))) = [] ->
  create_indexes svc db coll ix w =
  (Done tt,
   {| databases :=
        store db
          (store coll
             {| documents :=
                  documents (lookup coll empty_collection
                               (lookup db [] (databases w)));
                indexes := [ix] |}
             (lookup db [] (databases w)))
          (databases w);
      trace := CreateIndexes db coll ix :: trace w;
      stdout := stdout w |}).
Proof.
  intros Hup Hix. unfold create_indexes. rewrite command_run, Hup.
  cbn [add_event databases]. rewrite Hix. reflexivity.
Qed.

(** *** The cell that creates the database *)

(** X18. With the server answering and two different collection names, the
    cell leaves the database with exactly the data collection and the
    cache collection, both empty and both with the one vector index
    (cosine similarity, the configured property and dimensions), whatever
    the database held before; other databases keep their collections. *)
Theorem create_database_starts_afresh w :
  (forall t, server_ok svc t = true) ->
  cosmos_collection cfg <> cosmos_cache cfg ->
  let fresh :=
    {| documents := [];
       indexes :=
         [{| name := "VectorSearchIndex";
             key := cosmos_vector_property cfg;
             kind := "vector-hnsw";
             m := 16;
             efConstruction := 64;
             similarity := "COS";
             dimensions := openai_embeddings_dimensions cfg |}] |} in
  exists w',
    create_database cfg svc w =
      (Done ((cosmos_database cfg, cosmos_collection cfg),
             (cosmos_database cfg, cosmos_cache cfg)), w') /\
    lookup (cosmos_database cfg) [] (databases w') =
      [(cosmos_collection cfg, fresh); (cosmos_cache cfg, fresh)] /\
    (forall other, other <> cosmos_database cfg ->
                   lookup other [] (databases w') =
                   lookup other [] (databases w)) /\
    stdout w' = stdout w.
Proof.
  intros Hup Hne. cbn zeta.
  assert (Hdrop : exists w1,
    (names <- list_database_names svc ;;
     if existsb (String.eqb (cosmos_database cfg)) names
     then drop_database svc (cosmos_database cfg)
     else done tt) w = (Done tt, w1) /\
    lookup (cosmos_database cfg) [] (databases w1) = [] /\
    (forall other, other <> cosmos_database cfg ->
                   lookup other [] (databases w1) =
                   lookup other [] (databases w)) /\
    stdout w1 = stdout w).
  { unfold and_then at 1. unfold list_database_names.
    rewrite command_run, Hup.
    destruct (existsb _ _) eqn:E.
    - unfold drop_database. rewrite command_run, Hup.
      eexists. split; [reflexivity|]. cbn. split; [|split].
      + apply lookup_remove_same.
      + intros other Ho. now apply lookup_remove_other.
      + reflexivity.
    - eexists. split; [reflexivity|]. cbn. split; [|split].
      + now apply unlisted_is_empty.
      + reflexivity.
      + reflexivity. }
  destruct Hdrop as [w1 [H1 [H2 [H3 H4]]]].
  unfold create_database.
  unfold and_then at 1.
  unfold and_then at 1 in H1.
  destruct (list_database_names svc w) as [[names|e] w0]; [|discriminate].
  unfold and_then at 1.
  match type of H1 with ?c = _ => destruct c as [[[]|e] w1'] eqn:E1 end;
    [|discriminate].
  injection H1 as ->.
  unfold create_collection_and_vector_index.
  unfold and_then at 1. unfold and_then at 1.
  rewrite create_indexes_fresh by (rewrite ?H2; auto).
  rewrite H2. cbn [lookup empty_collection documents].
  unfold done at 1.
  unfold and_then at 1. unfold and_then at 1.
  rewrite create_indexes_fresh.
  - eexists. split; [reflexivity|]. cbn [databases stdout].
    rewrite !lookup_store_same.
    rewrite lookup_store_other by (intro; apply Hne; congruence).
    split; [|split].
    + cbn [store lookup empty_collection documents].
      destruct (String.eqb_spec (cosmos_cache cfg) (cosmos_collection cfg));
        [exfalso; apply Hne; congruence|reflexivity].
    + intros other Ho.
      rewrite !lookup_store_other by exact Ho. now apply H3.
    + exact H4.
  - apply Hup.
  - cbn [databases]. rewrite lookup_store_same.
    rewrite lookup_store_other by (intro; apply Hne; congruence).
    reflexivity.
Qed.

(** *** The cell that stores the data *)

(** The counters at which the loop reports progress. *)
Lemma hundreds_count n :
  List.length (filter (fun k => (k mod 100 =? 0)%nat) (seq 1 n))
  = (n / 100)%nat.
Proof.
  induction n as [|n IH]; [reflexivity|].
  rewrite seq_S, filter_app, length_app, IH. cbn [Nat.add filter].
  pose proof (Nat.div_mod_eq n 100) as Hn.
  pose proof (Nat.div_mod_eq (S n) 100) as Hs.
  pose proof (Nat.mod_upper_bound n 100) as Bn.
  pose proof (Nat.mod_upper_bound (S n) 100) as Bs.
  destruct (Nat.eqb_spec (S n mod 100) 0) as [E|E]; cbn [List.length]; lia.
Qed.

Lemma insert_one_run db coll object w :
  server_ok svc (List.length (trace w)) = true ->
  let d := lookup db [] (databases w) in
  let c := lookup coll empty_collection d in
  insert_one svc db coll object w =
  (Done tt,
   {| databases :=
        store db
          (store coll
             {| documents :=
                  documents c ++
                  [{| _id := new_object_id svc (List.length (trace w));
                      fields := object |}];
                indexes := indexes c |} d)
          (databases w);
      trace := InsertOne db coll object :: trace w;
      stdout := stdout w |}).
Proof.
  intros Hup. cbn zeta. unfold insert_one, and_then at 1, now.
  rewrite command_run, Hup. reflexivity.
Qed.

Lemma insert_one_fails db coll object w :
  server_ok svc (List.length (trace w)) = false ->
  insert_one svc db coll object w =
  (Failed OperationFailure, add_event (InsertOne db coll object) w).
Proof.
  intros Hup. unfold insert_one, and_then at 1, now.
  rewrite command_run, Hup. reflexivity.
Qed.

(** One turn of the loop: the insert and the progress report. *)
Lemma loop_turn db coll object counter w :
  server_ok svc (List.length (trace w)) = true ->
  exists w1,
    (insert_one svc db coll object ;;
     if (S counter mod 100 =? 0)%nat
     then print (progress (S counter) coll)
     else done tt) w = (Done tt, w1) /\
    documents (lookup coll empty_collection (lookup db [] (databases w1))) =
      documents (lookup coll empty_collection (lookup db [] (databases w)))
      ++ [{| _id := new_object_id svc (List.length (trace w));
             fields := object |}] /\
    indexes (lookup coll empty_collection (lookup db [] (databases w1))) =
      indexes (lookup coll empty_collection (lookup db [] (databases w))) /\
    stdout w1 =
      stdout w ++
      (if (S counter mod 100 =? 0)%nat
       then [progress (S counter) coll] else []) /\
    List.length (trace w1) = S (List.length (trace w)).
Proof.
  intros Hup. unfold and_then. rewrite (insert_one_run _ _ _ _ Hup).
  destruct (S counter mod 100 =? 0)%nat.
  - eexists. split; [reflexivity|]. cbn.
    rewrite !lookup_store_same. repeat split; reflexivity.
  - eexists. split; [reflexivity|]. cbn.
    rewrite !lookup_store_same, app_nil_r. repeat split; reflexivity.
Qed.

Lemma insert_all_cons collection object data counter w :
  insert_all svc collection (object :: data) counter w =
  match (insert_one svc (fst collection) (snd collection) object ;;
         if (S counter mod 100 =? 0)%nat
         then print (progress (S counter) (snd collection))
         else done tt) w with
  | (Done _, w1) => insert_all svc collection data (S counter) w1
  | (Failed e, w1) => (Failed e, w1)
  end.
Proof.
  cbn [insert_all]. replace (counter + 1)%nat with (S counter) by lia.
  unfold and_then.
  destruct (insert_one svc (fst collection) (snd collection) object w)
    as [[[]|e] w1]; [|reflexivity].
  destruct (S counter mod 100 =? 0)%nat; reflexivity.
Qed.

Lemma insert_all_run db coll data :
  forall counter w,
    (forall i, (i < List.length data)%nat ->
               server_ok svc (List.length (trace w) + i) = true) ->
    exists w',
      insert_all svc (db, coll) data counter w =
        (Done (counter + List.length data)%nat, w') /\
      map fields
        (documents (lookup coll empty_collection
                      (lookup db [] (databases w')))) =
      map fields
        (documents (lookup coll empty_collection
                      (lookup db [] (databases w)))) ++ data /\
      indexes (lookup coll empty_collection (lookup db [] (databases w'))) =
      indexes (lookup coll empty_collection (lookup db [] (databases w))) /\
      stdout w' =
        stdout w ++
        map (fun k => progress k coll)
          (filter (fun k => (k mod 100 =? 0)%nat)
             (seq (S counter) (List.length data))).
Proof.
  induction data as [|object data IH]; intros counter w Hup.
  - exists w. cbn. rewrite !Nat.add_0_r, !app_nil_r.
    repeat split; reflexivity.
  - rewrite insert_all_cons. cbn [fst snd].
    destruct (loop_turn db coll object counter w)
      as [w1 [H1 [H2 [H3 [H4 H5]]]]].
    { rewrite <- (Nat.add_0_r (List.length (trace w))).
      apply Hup. cbn. lia. }
    rewrite H1.
    destruct (IH (S counter) w1) as [w' [G1 [G2 [G3 G4]]]].
    { intros i Hi. rewrite H5.
      replace (S (List.length (trace w)) + i)%nat
        with (List.length (trace w) + S i)%nat by lia.
      apply Hup. cbn. lia. }
    exists w'. split; [rewrite G1; f_equal; f_equal; cbn; lia|].
    rewrite G2, G3, G4, H2, H3, H4.
    rewrite map_app, <- !app_assoc. cbn [map fields app seq filter List.length].
    repeat split; try reflexivity.
    destruct (S counter mod 100 =? 0)%nat; reflexivity.
Qed.

(** X19. With the server answering, the loading cell appends every document
    of the data to the collection, in order and leaving the indexes alone;
    it reports progress once for every hundredth document, naming the
    count, and prints the closing line last. *)
Theorem load_data_inserts_all db coll data w :
  (forall t, server_ok svc t = true) ->
  exists w',
    load_data svc (db, coll) data w = (Done tt, w') /\
    map fields
      (documents (lookup coll empty_collection
                    (lookup db [] (databases w')))) =
    map fields
      (documents (lookup coll empty_collection
                    (lookup db [] (databases w)))) ++ data /\
    indexes (lookup coll empty_collection (lookup db [] (databases w'))) =
    indexes (lookup coll empty_collection (lookup db [] (databases w))) /\
    stdout w' =
      stdout w ++
      map (fun k => progress k coll)
        (filter (fun k => (k mod 100 =? 0)%nat)
           (seq 1 (List.length data)))
      ++ ["Upsert completed!"] /\
    List.length (stdout w') =
      (List.length (stdout w) + List.length data / 100 + 1)%nat.
Proof.
  intros Hup. unfold load_data, and_then.
  destruct (insert_all_run db coll data 0 w (fun i _ => Hup _))
    as [w1 [H1 [H2 [H3 H4]]]].
  rewrite H1. unfold print.
  eexists. split; [reflexivity|].
  cbn [add_line databases stdout].
  rewrite H2, H3, H4, <- app_assoc.
  repeat split; try reflexivity.
  rewrite !length_app, length_map, hundreds_count. cbn. lia.
Qed.

Lemma insert_all_stops db coll before object after :
  forall counter w,
    (forall i, (i < List.length before)%nat ->
               server_ok svc (List.length (trace w) + i) = true) ->
    server_ok svc (List.length (trace w) + List.length before) = false ->
    exists w',
      insert_all svc (db, coll) (before ++ object :: after) counter w =
        (Failed OperationFailure, w') /\
      map fields
        (documents (lookup coll empty_collection
                      (lookup db [] (databases w')))) =
      map fields
        (documents (lookup coll empty_collection
                      (lookup db [] (databases w)))) ++ before /\
      stdout w' =
        stdout w ++
        map (fun k => progress k coll)
          (filter (fun k => (k mod 100 =? 0)%nat)
             (seq (S counter) (List.length before))).
Proof.
  induction before as [|b before IH]; intros counter w Hup Hdown.
  - cbn [app]. rewrite insert_all_cons. cbn [fst snd].
    unfold and_then at 1.
    rewrite insert_one_fails
      by (cbn in Hdown; rewrite Nat.add_0_r in Hdown; exact Hdown).
    eexists. split; [reflexivity|]. cbn. now rewrite !app_nil_r.
  - cbn [app]. rewrite insert_all_cons. cbn [fst snd].
    destruct (loop_turn db coll b counter w)
      as [w1 [H1 [H2 [H3 [H4 H5]]]]].
    { rewrite <- (Nat.add_0_r (List.length (trace w))).
      apply Hup. cbn. lia. }
    rewrite H1.
    destruct (IH (S counter) w1) as [w' [G1 [G2 G3]]].
    { intros i Hi. rewrite H5.
      replace (S (List.length (trace w)) + i)%nat
        with (List.length (trace w) + S i)%nat by lia.
      apply Hup. cbn. lia. }
    { rewrite H5.
      replace (S (List.length (trace w)) + List.length before)%nat
        with (List.length (trace w) + List.length (b :: before))%nat
        by (cbn; lia).
      exact Hdown. }
    exists w'. split; [exact G1|].
    rewrite G2, G3, H2, H4.
    rewrite map_app, <- !app_assoc. cbn [map fields app seq filter List.length].
    split; [reflexivity|].
    destruct (S counter mod 100 =? 0)%nat; reflexivity.
Qed.

(** X20. When an insert fails, the loading cell stops there with the
    failure: the documents before the failing one are stored, the others
    are not, and the closing line is not printed. *)
Theorem load_data_stops_at_failed_insert db coll before object after w :
  (forall i, (i < List.length before)%nat ->
             server_ok svc (List.length (trace w) + i) = true) ->
  server_ok svc (List.length (trace w) + List.length before) = false ->
  exists w',
    load_data svc (db, coll) (before ++ object :: after) w =
      (Failed OperationFailure, w') /\
    map fields
      (documents (lookup coll empty_collection
                    (lookup db [] (databases w')))) =
    map fields
      (documents (lookup coll empty_collection
                    (lookup db [] (databases w)))) ++ before /\
    stdout w' =
      stdout w ++
      map (fun k => progress k coll)
        (filter (fun k => (k mod 100 =? 0)%nat)
           (seq 1 (List.length before))).
Proof.
  intros Hup Hdown. unfold load_data. unfold and_then at 1.
  destruct (insert_all_stops db coll before object after 0%nat w Hup Hdown)
    as [w' [H1 [H2 H3]]].
  rewrite H1. exists w'. split; [reflexivity|]. split; assumption.
Qed.

(** *** [generate_embeddings] and its retries *)

Lemma repeat_shift {A} (a : A) n l :
  repeat a n ++ a :: l = a :: repeat a n ++ l.
Proof.
  induction n as [|n IH]; cbn; [reflexivity|now rewrite IH].
Qed.

Lemma attempt_fails text w :
  attempt_fails_at svc (List.length (trace w)) text ->
  exists e,
    generate_embeddings_attempt svc text w =
      (Raise e, add_event (EmbeddingsCreate text) w).
Proof.
  unfold attempt_fails_at, generate_embeddings_attempt.
  destruct (embeddings_create svc (List.length (trace w)) text)
    as [[|d ds]|e]; intros H; [eexists; reflexivity|destruct H|
                               eexists; reflexivity].
Qed.

Lemma retry_first_success text d ds k :
  forall retries w,
    (k <= retries)%nat ->
    (forall i, (i < k)%nat ->
               attempt_fails_at svc (List.length (trace w) + i) text) ->
    embeddings_create svc (List.length (trace w) + k) text = Ok (d :: ds) ->
    retry retries (generate_embeddings_attempt svc text) w =
    (Done d,
     {| databases := databases w;
        trace := repeat (EmbeddingsCreate text) (S k) ++ trace w;
        stdout := stdout w |}).
Proof.
  induction k as [|k IH]; intros retries w Hk Hfail Hok.
  - rewrite Nat.add_0_r in Hok.
    destruct retries; cbn [retry]; unfold generate_embeddings_attempt;
      rewrite Hok; reflexivity.
  - destruct retries as [|retries]; [lia|].
    cbn [retry].
    destruct (attempt_fails text w) as [e He].
    { rewrite <- (Nat.add_0_r (List.length (trace w))). apply Hfail. lia. }
    rewrite He.
    rewrite (IH retries (add_event (EmbeddingsCreate text) w)).
    + cbn [add_event databases trace stdout].
      now rewrite repeat_shift.
    + lia.
    + intros i Hi. cbn [add_event trace List.length].
      replace (S (List.length (trace w)) + i)%nat
        with (List.length (trace w) + S i)%nat by lia.
      apply Hfail. lia.
    + cbn [add_event trace List.length].
      replace (S (List.length (trace w)) + k)%nat
        with (List.length (trace w) + S k)%nat by lia.
      exact Hok.
Qed.

Lemma retry_gives_up text :
  forall retries w,
    (forall i, (i <= retries)%nat ->
               attempt_fails_at svc (List.length (trace w) + i) text) ->
    exists e,
      retry retries (generate_embeddings_attempt svc text) w =
      (Failed (RetryError e),
       {| databases := databases w;
          trace := repeat (EmbeddingsCreate text) (S retries) ++ trace w;
          stdout := stdout w |}).
Proof.
  induction retries as [|retries IH]; intros w Hfail.
  - cbn [retry].
    destruct (attempt_fails text w) as [e He].
    { rewrite <- (Nat.add_0_r (List.length (trace w))). apply Hfail. lia. }
    rewrite He. exists e. reflexivity.
  - cbn [retry].
    destruct (attempt_fails text w) as [e He].
    { rewrite <- (Nat.add_0_r (List.length (trace w))). apply Hfail. lia. }
    rewrite He.
    destruct (IH (add_event (EmbeddingsCreate text) w)) as [e' He'].
    { intros i Hi. cbn [add_event trace List.length].
      replace (S (List.length (trace w)) + i)%nat
        with (List.length (trace w) + S i)%nat by lia.
      apply Hfail. lia. }
    rewrite He'. exists e'.
    cbn [add_event databases trace stdout].
    now rewrite repeat_shift.
Qed.

(** X21. The retried [generate_embeddings] returns the result of the first
    attempt that succeeds, when that is one of the first 20: it then made
    one call for each failed attempt and one for the successful one, and
    changed nothing else. *)
Theorem generate_embeddings_returns_first_success text w d ds k :
  (k < 20)%nat ->
  (forall i, (i < k)%nat ->
             attempt_fails_at svc (List.length (trace w) + i) text) ->
  embeddings_create svc (List.length (trace w) + k) text = Ok (d :: ds) ->
  generate_embeddings svc text w =
  (Done d,
   {| databases := databases w;
      trace := repeat (EmbeddingsCreate text) (S k) ++ trace w;
      stdout := stdout w |}).
Proof.
  intros Hk Hfail Hok. unfold generate_embeddings.
  apply (retry_first_success text d ds k); [lia|exact Hfail|exact Hok].
Qed.

(** X22. When the first 20 attempts all fail, the retried
    [generate_embeddings] gives up with a [RetryError] after exactly 20
    calls. *)
Theorem generate_embeddings_gives_up_after_20 text w :
  (forall i, (i < 20)%nat ->
             attempt_fails_at svc (List.length (trace w) + i) text) ->
  exists e,
    generate_embeddings svc text w =
    (Failed (RetryError e),
     {| databases := databases w;
        trace := repeat (EmbeddingsCreate text) 20 ++ trace w;
        stdout := stdout w |}).
Proof.
  intros Hfail. unfold generate_embeddings.
  apply (retry_gives_up text 19 w).
  intros i Hi. apply Hfail. lia.
Qed.

Lemma attempt_run text w :
  generate_embeddings_attempt svc text w =
  (match embeddings_create svc (List.length (trace w)) text with
   | Ok (d :: _) => Ok d
   | Ok [] => Raise IndexError
   | Raise e => Raise e
   end,
   add_event (EmbeddingsCreate text) w).
Proof.
  unfold generate_embeddings_attempt.
  destruct (embeddings_create svc (List.length (trace w)) text) as [[|d ds]|e];
    reflexivity.
Qed.

Lemma retry_bounded text :
  forall retries w,
    exists k,
      (1 <= k <= S retries)%nat /\
      snd (retry retries (generate_embeddings_attempt svc text) w) =
        {| databases := databases w;
           trace := repeat (EmbeddingsCreate text) k ++ trace w;
           stdout := stdout w |} /\
      match fst (retry retries (generate_embeddings_attempt svc text) w) with
      | Done d =>
          exists ds,
            embeddings_create svc (List.length (trace w) + (k - 1)) text =
              Ok (d :: ds)
      | Failed (RetryError _) => k = S retries
      | Failed _ => False
      end.
Proof.
  induction retries as [|retries IH]; intros w; cbn [retry];
    rewrite attempt_run.
  - exists 1%nat. cbn [Nat.sub]. rewrite Nat.add_0_r.
    destruct (embeddings_create svc (List.length (trace w)) text)
      as [[|d ds]|e]; cbn; (split; [lia|]); split; eauto.
  - assert (Hnext : exists k,
      (1 <= k <= S (S retries))%nat /\
      snd (retry retries (generate_embeddings_attempt svc text)
             (add_event (EmbeddingsCreate text) w)) =
        {| databases := databases w;
           trace := repeat (EmbeddingsCreate text) k ++ trace w;
           stdout := stdout w |} /\
      match fst (retry retries (generate_embeddings_attempt svc text)
                   (add_event (EmbeddingsCreate text) w)) with
      | Done d =>
          exists ds,
            embeddings_create svc (List.length (trace w) + (k - 1)) text =
              Ok (d :: ds)
      | Failed (RetryError _) => k = S (S retries)
      | Failed _ => False
      end).
    { destruct (IH (add_event (EmbeddingsCreate text) w)) as [k [Hk [H1 H2]]].
      exists (S k). split; [lia|]. rewrite H1. split.
      - cbn [add_event databases trace stdout]. now rewrite repeat_shift.
      - cbn [add_event trace List.length] in H2.
        replace (List.length (trace w) + (S k - 1))%nat
          with (S (List.length (trace w)) + (k - 1))%nat by lia.
        destruct (fst (retry retries _ _)) as [d|[e|e|]]; auto; lia. }
    destruct (embeddings_create svc (List.length (trace w)) text)
      as [[|d ds]|e] eqn:E; cbn [fst snd]; try exact Hnext.
    exists 1%nat. cbn [Nat.sub]. rewrite Nat.add_0_r, E.
    cbn. split; [lia|]. split; eauto.
Qed.

(** X23. The retried [generate_embeddings] calls the Embedding Provider at
    least once and never more than 20 times, and touches nothing else.
    It returns the embedding its last call gave, or gives up with
    [RetryError], which happens only after 20 calls. *)
Theorem generate_embeddings_calls_bounded text w :
  exists k,
    (1 <= k <= 20)%nat /\
    snd (generate_embeddings svc text w) =
      {| databases := databases w;
         trace := repeat (EmbeddingsCreate text) k ++ trace w;
         stdout := stdout w |} /\
    match fst (generate_embeddings svc text w) with
    | Done d =>
        exists ds,
          embeddings_create svc (List.length (trace w) + (k - 1)) text =
            Ok (d :: ds)
    | Failed (RetryError _) => k = 20%nat
    | Failed _ => False
    end.
Proof. unfold generate_embeddings. apply (retry_bounded text 19 w). Qed.
End Facts.

(** *** The theorems on the sample data *)

Lemma create_database_starts_afresh_witness :
  let fresh :=
    {| documents := [];
       indexes :=
         [{| name := "VectorSearchIndex";
             key := cosmos_vector_property DemoMore.setup_config;
             kind := "vector-hnsw";
             m := 16;
             efConstruction := 64;
             similarity := "COS";
             dimensions :=
               openai_embeddings_dimensions DemoMore.setup_config |}] |} in
  exists w',
    create_database DemoMore.setup_config DemoMore.setup_services
      DemoMore.used_server =
      (Done ((cosmos_database DemoMore.setup_config,
              cosmos_collection DemoMore.setup_config),
             (cosmos_database DemoMore.setup_config,
              cosmos_cache DemoMore.setup_config)), w') /\
    lookup (cosmos_database DemoMore.setup_config) [] (databases w') =
      [(cosmos_collection DemoMore.setup_config, fresh);
       (cosmos_cache DemoMore.setup_config, fresh)] /\
    (forall other, other <> cosmos_database DemoMore.setup_config ->
                   lookup other [] (databases w') =
                   lookup other [] (databases DemoMore.used_server)) /\
    stdout w' = stdout DemoMore.used_server.
Proof.
  apply (create_database_starts_afresh DemoMore.setup_config
           DemoMore.setup_services DemoMore.used_server).
  - intros t. reflexivity.
  - discriminate.
Defined.

Lemma load_data_inserts_all_witness :
  exists w',
    load_data DemoMore.setup_services ("FabConfDB", "movies")
      [DemoMore.film "Heat"; DemoMore.film "Ran"] DemoMore.used_server =
      (Done tt, w') /\
    map fields
      (documents (lookup "movies" empty_collection
                    (lookup "FabConfDB" [] (databases w')))) =
    map fields
      (documents (lookup "movies" empty_collection
                    (lookup "FabConfDB" []
                       (databases DemoMore.used_server))))
    ++ [DemoMore.film "Heat"; DemoMore.film "Ran"] /\
    indexes (lookup "movies" empty_collection
               (lookup "FabConfDB" [] (databases w'))) =
    indexes (lookup "movies" empty_collection
               (lookup "FabConfDB" [] (databases DemoMore.used_server))) /\
    stdout w' =
      stdout DemoMore.used_server ++
      map (fun k => progress k "movies")
        (filter (fun k => (k mod 100 =? 0)%nat)
           (seq 1 (List.length [DemoMore.film "Heat"; DemoMore.film "Ran"])))
      ++ ["Upsert completed!"] /\
    List.length (stdout w') =
      (List.length (stdout DemoMore.used_server)
       + List.length [DemoMore.film "Heat"; DemoMore.film "Ran"] / 100
       + 1)%nat.
Proof.
  apply (load_data_inserts_all DemoMore.setup_services "FabConfDB" "movies"
           [DemoMore.film "Heat"; DemoMore.film "Ran"] DemoMore.used_server).
  intros t. reflexivity.
Defined.

Lemma load_data_stops_at_failed_insert_witness :
  exists w',
    load_data DemoMore.setup_services_flaky ("FabConfDB", "movies")
      ([DemoMore.film "Heat"; DemoMore.film "Ran"]
       ++ DemoMore.film "Jaws" :: [DemoMore.film "Big"])
      DemoMore.fresh_server = (Failed OperationFailure, w') /\
    map fields
      (documents (lookup "movies" empty_collection
                    (lookup "FabConfDB" [] (databases w')))) =
    map fields
      (documents (lookup "movies" empty_collection
                    (lookup "FabConfDB" []
                       (databases DemoMore.fresh_server))))
    ++ [DemoMore.film "Heat"; DemoMore.film "Ran"] /\
    stdout w' =
      stdout DemoMore.fresh_server ++
      map (fun k => progress k "movies")
        (filter (fun k => (k mod 100 =? 0)%nat)
           (seq 1 (List.length [DemoMore.film "Heat"; DemoMore.film "Ran"]))).
Proof.
  apply (load_data_stops_at_failed_insert DemoMore.setup_services_flaky
           "FabConfDB" "movies" [DemoMore.film "Heat"; DemoMore.film "Ran"]
           (DemoMore.film "Jaws") [DemoMore.film "Big"]
           DemoMore.fresh_server).
  - intros i Hi. cbn in Hi.
    destruct i as [|[|i]]; [reflexivity|reflexivity|lia].
  - reflexivity.
Defined.

Lemma generate_embeddings_returns_first_success_witness :
  generate_embeddings DemoMore.setup_services "Heat" DemoMore.fresh_server =
  (Done (Demo.embed "Heat"),
   {| databases := databases DemoMore.fresh_server;
      trace := repeat (EmbeddingsCreate "Heat") 3
               ++ trace DemoMore.fresh_server;
      stdout := stdout DemoMore.fresh_server |}).
Proof.
  apply (generate_embeddings_returns_first_success DemoMore.setup_services
           "Heat" DemoMore.fresh_server (Demo.embed "Heat") [] 2).
  - lia.
  - intros i Hi. destruct i as [|[|i]]; [exact I|exact I|lia].
  - reflexivity.
Defined.

Lemma generate_embeddings_gives_up_after_20_witness :
  exists e,
    generate_embeddings DemoMore.setup_services_no_model "Heat"
      DemoMore.fresh_server =
    (Failed (RetryError e),
     {| databases := databases DemoMore.fresh_server;
        trace := repeat (EmbeddingsCreate "Heat") 20
                 ++ trace DemoMore.fresh_server;
        stdout := stdout DemoMore.fresh_server |}).
Proof.
  apply (generate_embeddings_gives_up_after_20 DemoMore.setup_services_no_model
           "Heat" DemoMore.fresh_server).
  intros i Hi. exact I.
Defined.
End SetupFacts.
